(** * flopy4.array: the MODFLOW 6 array representation and its codec

    A shallow embedding of [src/flopy4/array.py]: the [MFArrayType] enum,
    the [MFArray] class (its properties [value], [raw], [factor], [how], its
    [__getitem__] and [__setitem__], the operators and the iterator of
    [NumPyArrayMixin], [write], [load], [_load] and [read_array]), together
    with the few interpreter and library functions the class calls
    ([str.split], [str.strip], [float], [str] of a float, NumPy's arrays
    with reshape and broadcasting, [numpy.allclose], and flopy's
    [line_strip] and [multi_line_strip]); and of the loop of
    [MFPackage.load] in [src/flopy4/package.py].

    Floating point numbers are the kernel's binary64 floats, text is ASCII,
    a text stream is its list of lines with a line cursor, and a method
    that assigns to the object returns the outcome of the call ([Ok],
    [Raise] or [Diverge]) together with the object it leaves behind. *)

From Stdlib Require Import ZArith String Ascii List Bool Lia.
From Stdlib Require Import Floats.PrimFloat Floats.SpecFloat Floats.FloatOps.
From stdpp Require Import gmap strings list.

Set Warnings "-inexact-float,-register-all".
Local Open Scope string_scope.
Local Open Scope list_scope.

(** ** Outcomes of a call *)

(** The exception classes the modelled code can raise. *)
Inductive exn : Type :=
  | NotImplementedError
  | IndexError
  | ValueError
  | TypeError
  | AttributeError
  | UnboundLocalError
  | FileNotFoundError.

(** A call returns, raises, or never returns ([multi_line_strip] loops
    forever at the end of a stream). *)
Inductive result (A : Type) : Type :=
  | Ok (a : A)
  | Raise (e : exn)
  | Diverge.
Arguments Ok {A} a.
Arguments Raise {A} e.
Arguments Diverge {A}.

Definition bind {A B : Type} (r : result A) (k : A -> result B) : result B :=
  match r with
  | Ok a => k a
  | Raise e => Raise e
  | Diverge => Diverge
  end.

#[global] Instance result_bind : MBind result := fun A B k r => bind r k.
#[global] Instance result_ret : MRet result := fun A a => Ok a.

(** A [for] loop that collects what its body returns, up to the first
    item on which the body fails. *)
Definition mapM {A B : Type} (f : A -> result B) : list A -> result (list B) :=
  fix go (l : list A) : result (list B) :=
    match l with
    | [] => Ok []
    | x :: l' => y ← f x; ys ← go l'; Ok (y :: ys)
    end.

(** A [for ix, x in enumerate(l)] loop whose body updates each item in
    place, counting from [ix]: the items after the first failure are
    left as they were. *)
Definition forMi {A : Type} (f : nat -> A -> result unit * A)
  : nat -> list A -> result unit * list A :=
  fix go (ix : nat) (l : list A) : result unit * list A :=
    match l with
    | [] => (Ok tt, [])
    | x :: l' =>
        let '(r, x') := f ix x in
        match r with
        | Ok _ => let '(r', l'') := go (S ix) l' in (r', x' :: l'')
        | _ => (r, x' :: l')
        end
    end.

(** The same loop without the index. *)
Definition forM {A : Type} (f : A -> result unit * A) (l : list A)
  : result unit * list A :=
  forMi (fun _ => f) 0 l.

(** ** Python strings (ASCII text) *)

Module PyStr.

Definition code (c : ascii) : nat := nat_of_ascii c.

(** [str.isspace] on ASCII: TAB..CR, FS..US and the space. *)
Definition is_space (c : ascii) : bool :=
  let n := code c in
  (Nat.leb 9 n && Nat.leb n 13) || (Nat.leb 28 n && Nat.leb n 32).

Definition is_digit (c : ascii) : bool :=
  let n := code c in Nat.leb 48 n && Nat.leb n 57.

Definition digit_val (c : ascii) : Z := Z.of_nat (code c) - 48.

Definition upper_char (c : ascii) : ascii :=
  let n := code c in
  if Nat.leb 97 n && Nat.leb n 122 then ascii_of_nat (n - 32) else c.

Definition lower_char (c : ascii) : ascii :=
  let n := code c in
  if Nat.leb 65 n && Nat.leb n 90 then ascii_of_nat (n + 32) else c.

Fixpoint map_chars (f : ascii -> ascii) (s : string) : string :=
  match s with
  | EmptyString => EmptyString
  | String c s' => String (f c) (map_chars f s')
  end.

(** [s.upper()] and [s.lower()]. *)
Definition upper (s : string) : string := map_chars upper_char s.
Definition lower (s : string) : string := map_chars lower_char s.

Fixpoint rev_onto (s acc : string) : string :=
  match s with
  | EmptyString => acc
  | String c s' => rev_onto s' (String c acc)
  end.
Definition rev (s : string) : string := rev_onto s EmptyString.

Fixpoint lstrip (s : string) : string :=
  match s with
  | String c s' => if is_space c then lstrip s' else s
  | EmptyString => EmptyString
  end.

(** [s.strip()]. *)
Definition strip (s : string) : string := rev (lstrip (rev (lstrip s))).

Definition is_empty (s : string) : bool :=
  match s with EmptyString => true | _ => false end.

(** [s.split()]: the maximal runs of non-blank characters. [cur] is the
    run being read, reversed. *)
Fixpoint split_go (cur : string) (s : string) : list string :=
  match s with
  | EmptyString => if is_empty cur then [] else [rev cur]
  | String c s' =>
      if is_space c
      then (if is_empty cur then split_go EmptyString s'
            else rev cur :: split_go EmptyString s')
      else split_go (String c cur) s'
  end.
Definition split (s : string) : list string := split_go EmptyString s.

Fixpoint starts_with (p s : string) : bool :=
  match p, s with
  | EmptyString, _ => true
  | String a p', String b s' => if Ascii.eqb a b then starts_with p' s' else false
  | String _ _, EmptyString => false
  end.

(** [s.split(sep)[0]] for a non-empty [sep]: what precedes the first
    occurrence of [sep]. *)
Fixpoint before (sep s : string) : string :=
  match s with
  | EmptyString => EmptyString
  | String c s' => if starts_with sep s then EmptyString else String c (before sep s')
  end.

(** [s.split(sep)] for a one-character [sep]. *)
Fixpoint split_on_go (sep : ascii) (cur : string) (s : string) : list string :=
  match s with
  | EmptyString => [rev cur]
  | String c s' =>
      if Ascii.eqb c sep then rev cur :: split_on_go sep EmptyString s'
      else split_on_go sep (String c cur) s'
  end.
Definition split_on (sep : ascii) (s : string) : list string :=
  split_on_go sep EmptyString s.

(** [s.replace(a, b)] for single characters. *)
Definition replace_char (a b : ascii) (s : string) : string :=
  map_chars (fun c => if Ascii.eqb c a then b else c) s.

(** [sep.join(l)]. *)
Fixpoint join (sep : string) (l : list string) : string :=
  match l with
  | [] => EmptyString
  | [x] => x
  | x :: l' => x ++ sep ++ join sep l'
  end.

Fixpoint concat (l : list string) : string :=
  match l with
  | [] => EmptyString
  | x :: l' => x ++ concat l'
  end.

Fixpoint repeat_str (s : string) (n : nat) : string :=
  match n with
  | O => EmptyString
  | S n' => s ++ repeat_str s n'
  end.

Definition eqb (a b : string) : bool := String.eqb a b.

(** [x in l] for a list of strings, and [l.index(x)]. *)
Definition mem (x : string) (l : list string) : bool := existsb (eqb x) l.

Fixpoint index (x : string) (l : list string) : option nat :=
  match l with
  | [] => None
  | y :: l' => if eqb x y then Some O else option_map S (index x l')
  end.

(** [l.pop(i)] for [0 <= i]: the list without its [i]-th item, or
    [None] when Python raises [IndexError]. *)
Fixpoint pop {A : Type} (i : nat) (l : list A) : option (list A) :=
  match l, i with
  | [], _ => None
  | _ :: l', O => Some l'
  | y :: l', S i' => option_map (cons y) (pop i' l')
  end.

Definition nl : string := String (ascii_of_nat 10) EmptyString.

(** The lines of a text, each with its newline, as [readline] returns
    them one after the other. *)
Fixpoint lines_go (cur : string) (s : string) : list string :=
  match s with
  | EmptyString => if is_empty cur then [] else [rev cur]
  | String c s' =>
      if Ascii.eqb c (ascii_of_nat 10)
      then rev (String c cur) :: lines_go EmptyString s'
      else lines_go (String c cur) s'
  end.
Definition lines (s : string) : list string := lines_go EmptyString s.

End PyStr.

(** ** Python floats: [float(s)] and [str(x)] *)

Module PyFloat.
Import PyStr.

Definition nan : float := PrimFloat.nan.
Definition inf : float := PrimFloat.infinity.

(** The binary64 float nearest to [p / q] (ties to even), negated when
    [neg]; [SFdiv] rounds the exact quotient of two integers. *)
Definition of_ratio (neg : bool) (p q : Z) : float :=
  match p, q with
  | Zpos p', Zpos q' =>
      SF2Prim (SFdiv prec emax (S754_finite neg p' 0) (S754_finite false q' 0))
  | _, _ => SF2Prim (S754_zero neg)
  end.

(** The float nearest to [d * 10^e]. *)
Definition of_decimal (neg : bool) (d e : Z) : float :=
  if (0 <=? e)%Z then of_ratio neg (d * 10 ^ e) 1
  else of_ratio neg d (10 ^ (- e)).

(** A run of digits in which single underscores may separate digits
    (PEP 515), read after its first digit: the value, the number of
    digits and what follows. *)
Fixpoint digits_go (acc : Z) (n : Z) (s : string) : Z * Z * string :=
  match s with
  | String c s' =>
      if is_digit c then digits_go (10 * acc + digit_val c) (n + 1) s'
      else if Ascii.eqb c "_" then
        match s' with
        | String c2 s'' =>
            if is_digit c2 then digits_go (10 * acc + digit_val c2) (n + 1) s''
            else (acc, n, s)
        | EmptyString => (acc, n, s)
        end
      else (acc, n, s)
  | EmptyString => (acc, n, s)
  end.

Definition digitpart (s : string) : option (Z * Z * string) :=
  match s with
  | String c s' => if is_digit c then Some (digits_go (digit_val c) 1 s') else None
  | EmptyString => None
  end.

(** The optional exponent [e[+-]digits]. *)
Definition exponent (s : string) : option (Z * string) :=
  match s with
  | String c s' =>
      if Ascii.eqb (lower_char c) "e" then
        let '(neg, s1) :=
          match s' with
          | String "+" s1 => (false, s1)
          | String "-" s1 => (true, s1)
          | _ => (false, s')
          end in
        match digitpart s1 with
        | Some (v, _, rest) => Some (if neg then (- v)%Z else v, rest)
        | None => None
        end
      else Some (0%Z, s)
  | EmptyString => Some (0%Z, s)
  end.

(** The mantissa [digits[.[digits]]] or [.digits]: its digits read as
    one integer, the number of digits after the point, and the rest. *)
Definition mantissa (s : string) : option (Z * Z * string) :=
  match digitpart s with
  | Some (i, _, String "." s1) =>
      match digitpart s1 with
      | Some (f, k, rest) => Some (i * 10 ^ k + f, k, rest)%Z
      | None => Some (i, 0%Z, s1)
      end
  | Some (i, _, rest) => Some (i, 0%Z, rest)
  | None =>
      match s with
      | String "." s1 =>
          match digitpart s1 with
          | Some (f, k, rest) => Some (f, k, rest)
          | None => None
          end
      | _ => None
      end
  end.

(** [float(s)]: [None] stands for [ValueError]. *)
Definition of_string (s : string) : option float :=
  let s := strip s in
  let '(neg, body) :=
    match s with
    | String "+" s' => (false, s')
    | String "-" s' => (true, s')
    | _ => (false, s)
    end in
  let low := lower body in
  if (eqb low "inf" || eqb low "infinity")%bool
  then Some (if neg then PrimFloat.neg_infinity else PrimFloat.infinity)
  else if eqb low "nan" then Some PrimFloat.nan
  else
    match mantissa body with
    | Some (d, k, rest) =>
        match exponent rest with
        | Some (e, EmptyString) => Some (of_decimal neg d (e - k))
        | _ => None
        end
    | None => None
    end.

(** The decimal digits of a positive integer. *)
Fixpoint digits_of (fuel : nat) (n : Z) (acc : string) : string :=
  match fuel with
  | O => acc
  | S fuel' =>
      let acc' := String (ascii_of_nat (48 + Z.to_nat (n mod 10))) acc in
      if (n <? 10)%Z then acc' else digits_of fuel' (n / 10) acc'
  end.
Definition str_of_Z (n : Z) : string :=
  digits_of (S (Z.to_nat (Z.log2 n))) n EmptyString.

(** [floor (log10 (p / q))] for positive [p] and [q]. *)
Fixpoint log10_up (fuel : nat) (p q k : Z) : Z :=
  match fuel with
  | O => k
  | S fuel' => if (p <? 10 * q)%Z then k else log10_up fuel' p (10 * q) (k + 1)
  end.
Fixpoint log10_down (fuel : nat) (p q k : Z) : Z :=
  match fuel with
  | O => k
  | S fuel' => if (q <=? p)%Z then k else log10_down fuel' (10 * p) q (k - 1)
  end.
Definition floor_log10 (p q : Z) : Z :=
  if (q <=? p)%Z then log10_up 400 p q 0 else log10_down 400 p q 0.

(** [p / q] rounded to [n] significant digits: the digits as an integer
    [d] with [10^(n-1) <= d < 10^n] and the exponent [k] of its first
    digit, so that the rounded value is [d * 10^(k - n + 1)]. *)
Definition round_digits (p q : Z) (n : Z) : Z * Z :=
  let k := floor_log10 p q in
  let s := (n - 1 - k)%Z in
  let '(P, Q) := if (0 <=? s)%Z then (p * 10 ^ s, q)%Z else (p, q * 10 ^ (- s))%Z in
  let d := (P / Q)%Z in
  let r := (P mod Q)%Z in
  let d' :=
    match (2 * r ?= Q)%Z with
    | Lt => d
    | Gt => (d + 1)%Z
    | Eq => if Z.even d then d else (d + 1)%Z
    end in
  if (d' =? 10 ^ n)%Z then (10 ^ (n - 1), k + 1)%Z else (d', k).

(** The shortest digit string that reads back as [x = p / q]: the first
    [n] in 1..17 whose rounding does. *)
Fixpoint shortest (fuel : nat) (x : float) (p q : Z) (n : Z) : Z * Z * Z :=
  let '(d, k) := round_digits p q n in
  match fuel with
  | O => (d, k, n)
  | S fuel' =>
      if PrimFloat.eqb (of_decimal false d (k - n + 1)) x then (d, k, n)
      else shortest fuel' x p q (n + 1)
  end.

Definition pad2 (s : string) : string :=
  match s with
  | String _ EmptyString => String "0" s
  | _ => s
  end.

(** Python's layout of the digits [ds] (no sign) with the decimal point
    after the first [decpt] of them: scientific notation when
    [decpt <= -4] or [decpt > 16], positional otherwise. *)
Definition layout (ds : string) (decpt : Z) : string :=
  let n := Z.of_nat (String.length ds) in
  if ((decpt <? -3) || (16 <? decpt))%Z%bool then
    let e := (decpt - 1)%Z in
    let m :=
      match ds with
      | String c EmptyString => ds
      | String c tl => String c ("." ++ tl)
      | EmptyString => ds
      end in
    m ++ "e" ++ (if (e <? 0)%Z then "-" else "+") ++ pad2 (str_of_Z (Z.abs e))
  else if (decpt <=? 0)%Z then
    "0." ++ repeat_str "0" (Z.to_nat (- decpt)) ++ ds
  else if (n <=? decpt)%Z then
    ds ++ repeat_str "0" (Z.to_nat (decpt - n)) ++ ".0"
  else
    String.substring 0 (Z.to_nat decpt) ds ++ "." ++
    String.substring (Z.to_nat decpt) (Z.to_nat (n - decpt)) ds.

(** [str(x)] (and [repr(x)]) of a Python float or a NumPy float64. *)
Definition to_string (x : float) : string :=
  match Prim2SF x with
  | S754_nan => "nan"
  | S754_infinity s => if s then "-inf" else "inf"
  | S754_zero s => if s then "-0.0" else "0.0"
  | S754_finite s m e =>
      let '(p, q) :=
        if (0 <=? e)%Z then (Zpos m * 2 ^ e, 1)%Z else (Zpos m, 2 ^ (- e))%Z in
      let '(d, k, _) := shortest 16 (PrimFloat.abs x) p q 1 in
      (if s then "-" else "") ++ layout (str_of_Z d) (k + 1)
  end.

(** Truth value of a float: [bool(x)] is false exactly for zeros. *)
Definition truthy (x : float) : bool := negb (PrimFloat.eqb x 0%float).

End PyFloat.

(** ** NumPy arrays *)

Module NumPy.
Local Open Scope nat_scope.
Local Open Scope list_scope.

(** A C-contiguous array: its items in row-major order and its shape. *)
Record ndarray (A : Type) : Type := mk_ndarray { data : list A; ashape : list nat }.
Arguments mk_ndarray {A} data ashape.
Arguments data {A} n.
Arguments ashape {A} n.

(** [math.prod] of a shape: the number of items. *)
Definition prod (s : list nat) : nat := fold_right Nat.mul 1 s.

Definition shape_eqb (s t : list nat) : bool := bool_decide (s = t).

(** [a.reshape(s)]: the same items under another shape of the same size. *)
Definition reshape {A : Type} (a : ndarray A) (s : list nat) : result (ndarray A) :=
  if List.length (data a) =? prod s then Ok (mk_ndarray (data a) s) else Raise ValueError.

(** [a.ravel()]. *)
Definition ravel {A : Type} (a : ndarray A) : ndarray A :=
  mk_ndarray (data a) [List.length (data a)].

(** [np.ones(s)]. *)
Definition ones (s : list nat) : ndarray float :=
  mk_ndarray (repeat 1%float (prod s)) s.

(** [n] consecutive chunks of [sz] items. *)
Fixpoint chunks {A : Type} (sz n : nat) (l : list A) : list (list A) :=
  match n with
  | O => []
  | S n' => take sz l :: chunks sz n' (drop sz l)
  end.

Fixpoint option_all {A : Type} (l : list (option A)) : option (list A) :=
  match l with
  | [] => Some []
  | Some x :: l' => option_map (cons x) (option_all l')
  | None :: _ => None
  end.

(** Items of shape [vs] repeated to fill the shape [ts] of the same rank:
    an axis of List.length 1 is stretched, any other must agree. *)
Fixpoint stretch {A : Type} (vs ts : list nat) (d : list A) : option (list A) :=
  match vs, ts with
  | [], [] => Some d
  | v :: vs', t :: ts' =>
      if v =? t then
        option_map (@List.concat A)
          (option_all (map (stretch vs' ts') (chunks (prod vs') v d)))
      else if v =? 1 then
        option_map (fun r => List.concat (repeat r t)) (stretch vs' ts' d)
      else None
  | _, _ => None
  end.

Fixpoint drop_ones (k : nat) (s : list nat) : option (list nat) :=
  match k, s with
  | O, _ => Some s
  | S k', 1 :: s' => drop_ones k' s'
  | S _, _ => None
  end.

(** [np.broadcast_to]: leading axes of List.length 1 are added to the items'
    shape as needed. *)
Definition broadcast_to {A : Type} (a : ndarray A) (ts : list nat) : option (list A) :=
  let vs := ashape a in
  if List.length vs <=? List.length ts
  then stretch (repeat 1 (List.length ts - List.length vs) ++ vs) ts (data a)
  else None.

(** The value side of an assignment [target[...] = a] may besides carry
    more leading axes of List.length 1 than the target. *)
Definition assign_to {A : Type} (a : ndarray A) (ts : list nat) : option (list A) :=
  let vs := ashape a in
  if List.length vs <=? List.length ts then broadcast_to a ts
  else match drop_ones (List.length vs - List.length ts) vs with
       | Some vs' => stretch vs' ts (data a)
       | None => None
       end.

(** The shape two operands broadcast to, read from the last axis. *)
Fixpoint broadcast_rev (s t : list nat) : option (list nat) :=
  match s, t with
  | [], _ => Some t
  | _, [] => Some s
  | a :: s', b :: t' =>
      if a =? b then option_map (cons a) (broadcast_rev s' t')
      else if a =? 1 then option_map (cons b) (broadcast_rev s' t')
      else if b =? 1 then option_map (cons a) (broadcast_rev s' t')
      else None
  end.
Definition broadcast_shapes (s t : list nat) : option (list nat) :=
  option_map (@List.rev nat) (broadcast_rev (List.rev s) (List.rev t)).

(** A scalar or an array operand. *)
Inductive operand : Type :=
  | OScalar (v : float)
  | OArray (a : ndarray float).

(** [a op b] between two arrays. *)
Definition binop (f : float -> float -> float) (a b : ndarray float)
  : result (ndarray float) :=
  match broadcast_shapes (ashape a) (ashape b) with
  | Some s =>
      match broadcast_to a s, broadcast_to b s with
      | Some da, Some db => Ok (mk_ndarray (zip_with f da db) s)
      | _, _ => Raise ValueError
      end
  | None => Raise ValueError
  end.

(** [a op= o] on an array [a]: the operand must broadcast to the shape
    of [a], which is updated in place. *)
Definition array_iop (f : float -> float -> float) (a : ndarray float) (o : operand)
  : result (ndarray float) :=
  match o with
  | OScalar v => Ok (mk_ndarray (map (fun x => f x v) (data a)) (ashape a))
  | OArray b =>
      match broadcast_to b (ashape a) with
      | Some db => Ok (mk_ndarray (zip_with f (data a) db) (ashape a))
      | None => Raise ValueError
      end
  end.

(** [a * v] for a scalar [v]. *)
Definition scale (a : ndarray float) (v : float) : ndarray float :=
  mk_ndarray (map (fun x => PrimFloat.mul x v) (data a)) (ashape a).

Definition is_finite (x : float) : bool :=
  match PrimFloat.classify x with
  | FloatClass.NaN | FloatClass.PInf | FloatClass.NInf => false
  | _ => true
  end.

Definition rtol : float := 1e-5%float.
Definition atol : float := 1e-8%float.

(** [np.isclose(x, y)] with the default tolerances: [|x - y| <= atol +
    rtol * |y|] between finite numbers, equality otherwise. *)
Definition isclose (x y : float) : bool :=
  if is_finite x && is_finite y
  then PrimFloat.leb (PrimFloat.abs (PrimFloat.sub x y))
         (PrimFloat.add atol (PrimFloat.mul rtol (PrimFloat.abs y)))
  else PrimFloat.eqb x y.

(** [np.allclose(a, y)] of an array and a scalar. *)
Definition allclose (a : ndarray float) (y : float) : bool :=
  forallb (fun x => isclose x y) (data a).

(** An index [i] into an axis of List.length [n], negative from the end. *)
Definition norm_index (i : Z) (n : nat) : option nat :=
  if ((0 <=? i) && (i <? Z.of_nat n))%Z then Some (Z.to_nat i)
  else if ((- Z.of_nat n <=? i) && (i <? 0))%Z then Some (Z.to_nat (i + Z.of_nat n))
  else None.

(** The block an index tuple [key] addresses in an array of shape [s]
    stored from [off]: its offset and its shape. *)
Fixpoint locate (key : list Z) (s : list nat) (off : nat) : option (nat * list nat) :=
  match key, s with
  | [], _ => Some (off, s)
  | i :: key', n :: s' =>
      match norm_index i n with
      | Some j => locate key' s' (off + j * prod s')
      | None => None
      end
  | _ :: _, [] => None
  end.

(** [a[key] = v] for a tuple [key] of integers, one per leading axis;
    the empty tuple is the whole array ([a[:] = v], [a[...] = v]). *)
Definition setitem (a : ndarray float) (key : list Z) (v : operand)
  : result (ndarray float) :=
  match locate key (ashape a) 0 with
  | None => Raise IndexError
  | Some (off, bs) =>
      let block :=
        match v with
        | OScalar x => Some (repeat x (prod bs))
        | OArray b => assign_to b bs
        end in
      match block with
      | None => Raise ValueError
      | Some blk =>
          Ok (mk_ndarray (take off (data a) ++ blk ++ drop (off + prod bs) (data a))
                (ashape a))
      end
  end.

(** [a[i]] along the first axis. *)
Definition row (a : ndarray float) (i : nat) : ndarray float :=
  match ashape a with
  | [] => a
  | _ :: s' => mk_ndarray (take (prod s') (drop (i * prod s') (data a))) s'
  end.

(** What [np.array] is given or returns: a float64 array, or an object
    array in which [None] stands beside numbers. *)
Inductive pyarr : Type :=
  | FloatArray (a : ndarray float)
  | ObjectArray (a : ndarray (option float)).

Definition item_shape (i : option pyarr) : list nat :=
  match i with
  | None => []
  | Some (FloatArray a) => ashape a
  | Some (ObjectArray a) => ashape a
  end.

Definition item_floats (i : option pyarr) : option (list float) :=
  match i with
  | Some (FloatArray a) => Some (data a)
  | _ => None
  end.

Definition item_objects (i : option pyarr) : list (option float) :=
  match i with
  | None => [None]
  | Some (FloatArray a) => map Some (data a)
  | Some (ObjectArray a) => data a
  end.

(** [np.array(items)] of a list of arrays and [None]s (NumPy 1.24 and
    later): items of one shape are stacked along a new first axis, as
    float64 when every item is a float array and as objects otherwise;
    items of different shapes raise [ValueError]. The empty list gives
    the empty float array. *)
Definition array (items : list (option pyarr)) : result pyarr :=
  match items with
  | [] => Ok (FloatArray (mk_ndarray [] [0]))
  | i0 :: _ =>
      let s := item_shape i0 in
      if forallb (fun i => shape_eqb (item_shape i) s) items then
        match option_all (map item_floats items) with
        | Some ds => Ok (FloatArray (mk_ndarray (List.concat ds) (List.length items :: s)))
        | None =>
            Ok (ObjectArray
                  (mk_ndarray (List.concat (map item_objects items)) (List.length items :: s)))
        end
      else Raise ValueError
  end.

(** [np.genfromtxt(StringIO(text)).ravel()] for one line of text: its
    blank-separated fields read by [float], a field [float] rejects
    giving [nan]. *)
Definition genfromtxt (text : string) : ndarray float :=
  let fields := PyStr.split text in
  mk_ndarray
    (map (fun t => match PyFloat.of_string t with Some x => x | None => PyFloat.nan end)
       fields)
    [List.length fields].

End NumPy.

(** ** Text streams *)

(** An open text file or [StringIO]: its lines, each with its newline,
    and the number of lines already read. Positions ([tell], [seek]) are
    line boundaries, the only ones the code visits. *)
Record stream : Type := mk_stream { content : list string; pos : nat }.

(** [StringIO(text)] and [open(path)] on a file holding [text]. *)
Definition StringIO (text : string) : stream := mk_stream (PyStr.lines text) 0.

Definition tell (f : stream) : nat := pos f.
Definition seek (p : nat) (f : stream) : stream := mk_stream (content f) p.

(** [f.readline()]: the next line, or the empty string at the end. *)
Definition readline (f : stream) : string * stream :=
  match content f !! pos f with
  | Some l => (l, mk_stream (content f) (S (pos f)))
  | None => (EmptyString, f)
  end.

(** The lines not read yet. *)
Definition remaining (f : stream) : list string := drop (pos f) (content f).

(** ** flopy.utils.flopy_io *)

(** [line_strip(line)]: the line without its comment ([;], [#] or [!!]
    to the end of the line) and surrounding blanks, commas turned into
    spaces. *)
Definition line_strip (line : string) : string :=
  let line := PyStr.before ";" line in
  let line := PyStr.before "#" line in
  let line := PyStr.before "!!" line in
  PyStr.replace_char "," " " (PyStr.strip line).

(** [multi_line_strip(fobj)]: the next line that [line_strip] leaves
    non-empty, in lower case. At the end of the stream [readline] keeps
    returning the empty string and the loop never ends. *)
Fixpoint multi_line_strip_from (rest : list string) (n : nat) : result (string * nat) :=
  match rest with
  | [] => Diverge
  | l :: rest' =>
      let line := line_strip l in
      if PyStr.is_empty line then multi_line_strip_from rest' (S n)
      else Ok (PyStr.lower line, S n)
  end.

Definition multi_line_strip (f : stream) : result (string * stream) :=
  '(line, n) ← multi_line_strip_from (remaining f) (pos f);
  Ok (line, mk_stream (content f) n).

(** ** MFArrayType *)

(** How a MODFLOW 6 input array is represented in an input file. *)
Inductive MFArrayType : Type := internal | constant | external.

#[global] Instance MFArrayType_eq_dec : EqDecision MFArrayType.
Proof. solve_decision. Defined.

(** The value of each member. *)
Definition MFArrayType_value (e : MFArrayType) : string :=
  match e with
  | internal => "INTERNAL"
  | constant => "CONSTANT"
  | external => "OPEN/CLOSE"
  end.

(** The members in definition order, as iterating the enum gives them. *)
Definition MFArrayType_members : list MFArrayType := [internal; constant; external].

(** [MFArrayType.to_string(how)]: [cls(how).value]. *)
Definition to_string (how : MFArrayType) : string := MFArrayType_value how.

(** [MFArrayType.from_string(string)]: the first member whose value is
    the upper-cased string, [None] when the loop ends without one. *)
Definition from_string (s : string) : option MFArrayType :=
  List.find (fun e => PyStr.eqb (PyStr.upper s) (MFArrayType_value e)) MFArrayType_members.

(** ** MFArray *)

Import NumPy.

(** A shape as the class receives it: a symbolic string such as
    [(nodes)], one integer, or a tuple whose items are integers or
    [None] (a dimension the dimensions block does not give). *)
Inductive shape_t : Type :=
  | ShapeStr (s : string)
  | ShapeInt (n : nat)
  | ShapeTuple (dims : list (option nat)).

(** The shape NumPy reads from it ([np.ones(shape)], [a.reshape(shape)]);
    [None] when NumPy raises [TypeError]. *)
Definition dims_of (s : shape_t) : option (list nat) :=
  match s with
  | ShapeStr _ => None
  | ShapeInt n => Some [n]
  | ShapeTuple ds => option_all ds
  end.

Definition shape_is_tuple (s : shape_t) (t : list nat) : bool :=
  match s with
  | ShapeTuple ds =>
      match option_all ds with
      | Some d => shape_eqb d t
      | None => false
      end
  | _ => false
  end.

(** What [self._value] holds when it is not a sequence of layers:
    [None], a float, or a float array. *)
Inductive buffer : Type :=
  | BNone
  | BScalar (v : float)
  | BArray (a : ndarray float).

(** The attributes [__init__] stores beside [_value]: [name] and [shape]
    through [MFParam.__init__], the others in [MFArray.__init__]. *)
Record attrs : Type := mk_attrs {
  name : option string;
  shape : shape_t;
  _shape : shape_t;
  _how : option MFArrayType;
  _factor : option float;
  _path : option string
}.

(** An [MFArray] object. [Layered] is an array built with
    [layered=True] around the sequence of its layers, as [load] builds
    it; [Flat] is an array whose [_value] is a buffer, with the
    [layered] flag its constructor was given. *)
Inductive MFArray : Type :=
  | Flat (a : attrs) (layered : bool) (_value : buffer)
  | Layered (a : attrs) (layers : list MFArray).

Definition attrs_of (x : MFArray) : attrs :=
  match x with Flat a _ _ => a | Layered a _ => a end.

Definition layered (x : MFArray) : bool :=
  match x with Flat _ l _ => l | Layered _ _ => true end.

(** [MFArray(shape, array=..., how=..., factor=..., name=..., path=...)]
    for a buffer: [how] defaults to [MFArrayType.internal]. *)
Definition MFArray_init (shape : shape_t) (array : buffer) (how : option MFArrayType)
    (factor : option float) (name : option string) (path : option string) : MFArray :=
  Flat (mk_attrs name shape shape how factor path) false array.

(** What iterating [self._value] yields when it is a buffer. *)
Inductive item : Type :=
  | ItemFloat (v : float)
  | ItemRow (a : ndarray float).

Definition rows (a : ndarray float) : list (ndarray float) :=
  match ashape a with
  | [] => []
  | n :: s' => map (fun d => mk_ndarray d s') (chunks (prod s') n (data a))
  end.

(** [for mfa in self._value] on a buffer: [None], a float and a 0-d
    array are not iterable; a 1-d array yields its numbers, any other
    its rows. *)
Definition iter_buffer (b : buffer) : result (list item) :=
  match b with
  | BNone | BScalar _ => Raise TypeError
  | BArray a =>
      match ashape a with
      | [] => Raise TypeError
      | [_] => Ok (map ItemFloat (data a))
      | _ => Ok (map ItemRow (rows a))
      end
  end.

(** A loop over the items of a buffer whose body reads an attribute of
    [MFArray] ([raw], [value], [factor], [how]) off each item: numbers
    and rows have none. *)
Definition no_attribute {A : Type} (b : buffer) (empty : A) : result A :=
  items ← iter_buffer b;
  match items with
  | [] => Ok empty
  | _ :: _ => Raise AttributeError
  end.

(** [np.ones(self._shape)]. *)
Definition np_ones (s : shape_t) : result (ndarray float) :=
  match dims_of s with
  | Some d => Ok (ones d)
  | None => Raise TypeError
  end.

(** [self._value.reshape(self._shape)]: [None] and a float have no
    [reshape]. *)
Definition np_reshape (b : buffer) (s : shape_t) : result (ndarray float) :=
  match b with
  | BNone | BScalar _ => Raise AttributeError
  | BArray a =>
      match dims_of s with
      | Some d => reshape a d
      | None => Raise TypeError
      end
  end.

(** [arr * self._value] for the array of ones of a Constant. *)
Definition times_value (arr : ndarray float) (b : buffer) : result (ndarray float) :=
  match b with
  | BNone => Raise TypeError
  | BScalar v => Ok (scale arr v)
  | BArray a => binop PrimFloat.mul arr a
  end.

(** [np.array(arr)] of float arrays. *)
Definition stack (l : list (ndarray float)) : result (ndarray float) :=
  r ← array (map (fun a => Some (FloatArray a)) l);
  match r with
  | FloatArray a => Ok a
  | ObjectArray _ => Raise TypeError
  end.

(** The [raw] property: the array without multiplying by [self.factor]. *)
Fixpoint raw (x : MFArray) : result (ndarray float) :=
  match x with
  | Layered _ ls =>
      arr ← mapM raw ls;
      stack arr
  | Flat a true b => no_attribute b (mk_ndarray [] [0])
  | Flat a false b =>
      if decide (_how a = Some constant)
      then ones ← np_ones (_shape a); times_value ones b
      else np_reshape b (_shape a)
  end.

(** The [factor] property of an array that is not layered: [1.0] when
    [_factor] is [None]. *)
Definition factor_of (a : attrs) : float :=
  match _factor a with
  | Some f => f
  | None => 1%float
  end.

(** What the [factor] and [how] properties return: the array's own, or
    the list of what its layers return. *)
Inductive per_layer (A : Type) : Type :=
  | Own (v : A)
  | PerLayer (l : list (per_layer A)).
Arguments Own {A} v.
Arguments PerLayer {A} l.

Fixpoint factor (x : MFArray) : result (per_layer float) :=
  match x with
  | Layered _ ls =>
      l ← mapM factor ls;
      Ok (PerLayer l)
  | Flat a true b => no_attribute b (PerLayer [])
  | Flat a false _ => Ok (Own (factor_of a))
  end.

(** The [how] property. *)
Fixpoint how (x : MFArray) : result (per_layer (option MFArrayType)) :=
  match x with
  | Layered _ ls =>
      l ← mapM how ls;
      Ok (PerLayer l)
  | Flat a true b => no_attribute b (PerLayer [])
  | Flat a false _ => Ok (Own (_how a))
  end.

(** The [value] property: [None] without data, else the array with
    [self.factor] applied. *)
Fixpoint value (x : MFArray) : result (option pyarr) :=
  match x with
  | Layered _ ls =>
      arr ← mapM value ls;
      r ← array arr; Ok (Some r)
  | Flat a _ BNone => Ok None
  | Flat a true b => no_attribute b (Some (FloatArray (mk_ndarray [] [0])))
  | Flat a false b =>
      if decide (_how a = Some constant)
      then ones ← np_ones (_shape a);
           arr ← times_value ones b;
           Ok (Some (FloatArray (scale arr (factor_of a))))
      else arr ← np_reshape b (_shape a);
           Ok (Some (FloatArray (scale arr (factor_of a))))
  end.

(** *** In-place arithmetic ([NumPyArrayMixin]) *)

(** [self._value op= other] on a buffer. *)
Definition buffer_iop (f : float -> float -> float) (b : buffer) (o : operand)
  : result buffer :=
  match b with
  | BNone => Raise TypeError
  | BScalar v =>
      match o with
      | OScalar s => Ok (BScalar (f v s))
      | OArray a => Ok (BArray (mk_ndarray (map (f v) (data a)) (ashape a)))
      end
  | BArray a => arr ← array_iop f a o; Ok (BArray arr)
  end.

(** [for mfa in self._value: mfa op= other] on a buffer: a number
    yielded by a 1-d array is rebound and the array keeps its items, a
    row of any other array is updated in place. *)
Definition items_iop (f : float -> float -> float) (b : buffer) (o : operand)
  : result buffer :=
  items ← iter_buffer b;
  match b with
  | BArray a =>
      match ashape a with
      | _ :: _ :: _ =>
          rs ← mapM (fun r => array_iop f r o) (rows a);
          Ok (BArray (mk_ndarray (List.concat (map data rs)) (ashape a)))
      | _ => Ok b
      end
  | _ => Ok b
  end.

(** The body shared by the in-place operators: when layered the loop
    applies [layer_op] to every layer ([fl] to the items of a buffer),
    otherwise [fn] is applied to [self._value]. *)
Definition inplace (layer_op : MFArray -> operand -> result unit * MFArray)
    (fl fn : float -> float -> float) (x : MFArray) (other : operand)
  : result unit * MFArray :=
  match x with
  | Layered a ls =>
      let '(r, ls') := forM (fun mfa => layer_op mfa other) ls in (r, Layered a ls')
  | Flat a true b =>
      match items_iop fl b other with
      | Ok b' => (Ok tt, Flat a true b')
      | Raise e => (Raise e, x)
      | Diverge => (Diverge, x)
      end
  | Flat a false b =>
      match buffer_iop fn b other with
      | Ok b' => (Ok tt, Flat a false b')
      | Raise e => (Raise e, x)
      | Diverge => (Diverge, x)
      end
  end.

Fixpoint __iadd__ (x : MFArray) (other : operand) : result unit * MFArray :=
  inplace __iadd__ PrimFloat.add PrimFloat.add x other.

Fixpoint __imul__ (x : MFArray) (other : operand) : result unit * MFArray :=
  inplace __imul__ PrimFloat.mul PrimFloat.mul x other.

Fixpoint __isub__ (x : MFArray) (other : operand) : result unit * MFArray :=
  inplace __isub__ PrimFloat.sub PrimFloat.sub x other.

Fixpoint __itruediv__ (x : MFArray) (other : operand) : result unit * MFArray :=
  inplace __itruediv__ PrimFloat.div PrimFloat.div x other.

(** [__ifloordiv__] applies [/=] in both branches. *)
Definition __ifloordiv__ (x : MFArray) (other : operand) : result unit * MFArray :=
  inplace __itruediv__ PrimFloat.div PrimFloat.div x other.

Section Power.

(** The [**] of two floats (the C library's [pow]). *)
Variable pow : float -> float -> float.

(** [__ipow__] applies [/=] to the layers and [**=] to [self._value]. *)
Definition __ipow__ (x : MFArray) (other : operand) : result unit * MFArray :=
  inplace __itruediv__ PrimFloat.div pow x other.

End Power.

(** *** Assignment *)

Definition set_how (a : attrs) (h : option MFArrayType) : attrs :=
  mk_attrs (name a) (shape a) (_shape a) h (_factor a) (_path a).

(** [self[key] = value] for a tuple [key] of integers (the empty tuple
    is [self[:]]). The values are read through [raw], updated, and
    stored back: into every layer when layered, else as the flat buffer
    or, for a Constant whose values are all close to the first, as that
    one number. *)
Fixpoint __setitem__ (x : MFArray) (key : list Z) (value : operand)
  : result unit * MFArray :=
  match raw x with
  | Ok values =>
      match setitem values key value with
      | Ok values =>
          match x with
          | Layered a ls =>
              let '(r, ls') :=
                forMi (fun ix mfa => __setitem__ mfa [] (OArray (row values ix))) 0 ls in
              (r, Layered a ls')
          | Flat a true b =>
              (* [raw] returned, so the buffer yields no item and the
                 loop over it has nothing to assign *)
              (Ok tt, x)
          | Flat a false b =>
              let values := ravel values in
              if decide (_how a = Some constant) then
                match data values with
                | [] => (Raise IndexError, x)
                | v0 :: _ =>
                    if negb (allclose values v0)
                    then (Ok tt, Flat (set_how a (Some internal)) false (BArray values))
                    else (Ok tt, Flat a false (BScalar v0))
                end
              else (Ok tt, Flat a false (BArray values))
          end
      | Raise e => (Raise e, x)
      | Diverge => (Diverge, x)
      end
  | Raise e => (Raise e, x)
  | Diverge => (Diverge, x)
  end.

(** The setter of [value]: [None] is ignored, an array of another shape
    than [self.shape] is refused, any other replaces [_value]. *)
Definition value_setter (x : MFArray) (value : option (ndarray float))
  : result unit * MFArray :=
  match value with
  | None => (Ok tt, x)
  | Some v =>
      if shape_is_tuple (shape (attrs_of x)) (ashape v)
      then (Ok tt, Flat (attrs_of x) (layered x) (BArray v))
      else (Raise ValueError, x)
  end.

(** *** Writing *)

Local Open Scope string_scope.

Definition PAD : string := "  ".
Definition PAD2 : string := PAD ++ PAD.
Definition PAD3 : string := PAD ++ PAD ++ PAD.

(** [" ".join(str(x) for x in y)]. *)
Definition str_row (y : ndarray float) : string :=
  PyStr.join " " (map PyFloat.to_string (data y)).

(** The rows of a 2-d array, each on its own line. *)
Definition grid2 (values : ndarray float) : string :=
  PyStr.join (PyStr.nl ++ PAD3) (map str_row (rows values)).

(** The rows of a 3-d array, each after a newline, those of one layer
    joined by a space. *)
Definition grid3 (values : ndarray float) : string :=
  PAD3 ++
  PyStr.concat
    (map (fun layer =>
            PyStr.join " " (map (fun y => PyStr.nl ++ PAD3 ++ str_row y) (rows layer)))
       (rows values)).

(** [str(self._path)], [str(self._value)]. NumPy's layout of a whole
    array is not reproduced: an array is shown as its numbers between
    brackets, a sequence of layers as [[...]]. *)
Definition str_path (p : option string) : string :=
  match p with Some s => s | None => "None" end.

Definition str_buffer (b : buffer) : string :=
  match b with
  | BNone => "None"
  | BScalar v => PyFloat.to_string v
  | BArray a => "[" ++ str_row a ++ "]"
  end.

Definition str_value (x : MFArray) : string :=
  match x with
  | Flat _ _ b => str_buffer b
  | Layered _ _ => "[...]"
  end.

(** [if self._factor:] is true for a factor other than [None] and 0. *)
Definition factor_suffix (a : attrs) : string :=
  match _factor a with
  | Some f => if PyFloat.truthy f then " FACTOR " ++ PyFloat.to_string f else ""
  | None => ""
  end.

(** The text [write] hands to [f.write] for an array that is not
    layered. *)
Definition write_flat (a : attrs) (values : ndarray float) (b : buffer) : result string :=
  match _how a with
  | Some internal =>
      let v :=
        match ashape values with
        | [_] => Some (PyStr.nl ++ PAD3 ++ str_row values)
        | [_; _] => Some (grid2 values)
        | [_; _; _] => Some (grid3 values)
        | _ => None
        end in
      match name a with
      | None => Raise AttributeError
      | Some n =>
          let lines :=
            PAD ++ PyStr.upper n ++ PyStr.nl ++ PAD2 ++ to_string internal
            ++ factor_suffix a in
          match v with
          | Some v => Ok (lines ++ v ++ PyStr.nl)
          | None => Raise UnboundLocalError
          end
      end
  | Some external =>
      match name a with
      | None => Raise AttributeError
      | Some n =>
          Ok (PAD ++ PyStr.upper n ++ PyStr.nl ++ PAD2 ++ to_string external ++ " "
              ++ str_path (_path a) ++ PyStr.nl)
      end
  | Some constant =>
      match name a with
      | None => Raise AttributeError
      | Some n =>
          Ok (PAD ++ PyStr.upper n ++ PyStr.nl ++ PAD2 ++ to_string constant ++ " "
              ++ str_buffer b ++ PyStr.nl)
      end
  | None => Raise UnboundLocalError
  end.

(** One turn of the loop over the layers: [v] and [lines] are the local
    variables the previous turns left, the result is the text written
    and their new values. *)
Definition write_layer (mfa : MFArray) (vl : option string * option string)
  : result (string * (option string * option string)) :=
  let '(v, lines) := vl in
  values ← raw mfa;
  let a := attrs_of mfa in
  '(v, lines) ←
    match _how a with
    | Some internal =>
        let v :=
          match ashape values with
          | [_] => Some (PAD3 ++ str_row values ++ PyStr.nl)
          | [_; _] => Some (grid2 values)
          | [_; _; _] => Some (grid3 values)
          | _ => v
          end in
        let lines := PAD2 ++ to_string internal ++ factor_suffix a in
        match v with
        | Some t => Ok (v, Some (lines ++ PyStr.nl ++ PAD3 ++ t ++ PyStr.nl))
        | None => Raise UnboundLocalError
        end
    | Some external =>
        Ok (v, Some (PAD2 ++ to_string external ++ " " ++ str_path (_path a) ++ PyStr.nl))
    | Some constant =>
        Ok (v, Some (PAD2 ++ to_string constant ++ " " ++ str_value mfa ++ PyStr.nl))
    | None => Ok (v, lines)
    end;
  match lines with
  | Some t => Ok (t, (v, lines))
  | None => Raise UnboundLocalError
  end.

Fixpoint write_layers (ls : list MFArray) (vl : option string * option string)
  : string * result unit :=
  match ls with
  | [] => (EmptyString, Ok tt)
  | mfa :: ls' =>
      match write_layer mfa vl with
      | Ok (t, vl') => let '(out, r) := write_layers ls' vl' in (t ++ out, r)
      | Raise e => (EmptyString, Raise e)
      | Diverge => (EmptyString, Diverge)
      end
  end.

(** [self.write(f)]: the text written to [f] and how the call ends. When
    layered the header is written first, then the layers one by one. *)
Definition write (x : MFArray) : string * result unit :=
  match x with
  | Layered a ls =>
      match name a with
      | None => (EmptyString, Raise AttributeError)
      | Some n =>
          let '(out, r) := write_layers ls (None, None) in
          (PAD ++ PyStr.upper n ++ " LAYERED" ++ PyStr.nl ++ out, r)
      end
  | Flat a true b =>
      match name a with
      | None => (EmptyString, Raise AttributeError)
      | Some n =>
          (PAD ++ PyStr.upper n ++ " LAYERED" ++ PyStr.nl,
           _ ← no_attribute b tt; Ok tt)
      end
  | Flat a false b =>
      match (values ← raw x; write_flat a values b) with
      | Ok lines => (lines, Ok tt)
      | Raise e => (EmptyString, Raise e)
      | Diverge => (EmptyString, Diverge)
      end
  end.

(** *** Reading *)

(** [re.match("^[0-9. ]+$", line)]: one or more digits, points and
    spaces up to the end of the line ([$] also matches before a final
    newline). *)
Definition numeric_char (c : ascii) : bool :=
  PyStr.is_digit c || Ascii.eqb c "." || Ascii.eqb c " ".

Fixpoint numeric_tail (s : string) : bool :=
  match s with
  | EmptyString => true
  | String c s' =>
      if numeric_char c then numeric_tail s'
      else Ascii.eqb c (ascii_of_nat 10) && PyStr.is_empty s'
  end.

Definition numeric_only (line : string) : bool :=
  match line with
  | String c s' => numeric_char c && numeric_tail s'
  | EmptyString => false
  end.

(** The [while True] loop of [read_array]: [astr] collects the stripped
    lines; the first line that does not match is given back by seeking
    to where it starts. One turn per remaining line and one for the end
    of the stream are all the loop can take. *)
Fixpoint read_array_loop (fuel : nat) (f : stream) (astr : list string)
  : list string * stream :=
  match fuel with
  | O => (astr, f)
  | S fuel' =>
      let pos := tell f in
      let '(line, f) := readline f in
      let line := line_strip line in
      if negb (numeric_only line) then (astr, seek pos f)
      else read_array_loop fuel' f (astr ++ [line])%list
  end.

(** [MFArray.read_array(f)]: the flat array and the stream after it. *)
Definition read_array (f : stream) : ndarray float * stream :=
  let '(astr, f) := read_array_loop (S (List.length (remaining f))) f [] in
  (genfromtxt (PyStr.join " " astr), f).

Definition token (l : list string) (i : nat) : result string :=
  match l !! i with
  | Some t => Ok t
  | None => Raise IndexError
  end.

Definition py_float (s : string) : result float :=
  match PyFloat.of_string s with
  | Some x => Ok x
  | None => Raise ValueError
  end.

Section Loading.

(** [CommonNames.iprn], the keyword of the print-control pair:
    [flopy4/constants.py] is not among the sources, so the loaders are
    read for any keyword. *)
Variable iprn : string.

(** The control line without the [iprn] keyword and the token after it. *)
Definition drop_iprn (control_line : list string) : result (list string) :=
  if PyStr.mem (PyStr.lower iprn) control_line then
    match PyStr.index (PyStr.lower iprn) control_line with
    | Some idx =>
        match PyStr.pop (S idx) control_line with
        | Some l =>
            match PyStr.pop idx l with
            | Some l' => Ok l'
            | None => Raise IndexError
            end
        | None => Raise IndexError
        end
    | None => Ok control_line
    end
  else Ok control_line.

(** [cwd / extpath]; a path is kept as the text it was built from. *)
Definition path_join (cwd p : string) : string :=
  if PyStr.starts_with "/" p then p else cwd ++ "/" ++ p.

(** [MFArray._load(f, cwd, shape, name=name)]. [fs] maps the paths of
    the files that exist to their text. *)
Definition _load (fs : gmap string string) (f : stream) (cwd : string)
    (shape : shape_t) (name : option string) : result (MFArray * stream) :=
  '(line, f) ← multi_line_strip f;
  control_line ← drop_iprn (PyStr.split line);
  first ← token control_line 0;
  let how := from_string first in
  let clpos := 1 in
  '(array, extpath, clpos, f) ←
    match how with
    | Some internal =>
        let '(array, f) := read_array f in Ok (BArray array, None, clpos, f)
    | Some constant =>
        t ← token control_line clpos;
        array ← py_float t;
        Ok (BScalar array, None, clpos + 1, f)
    | Some external =>
        extpath ← token control_line clpos;
        match fs !! path_join cwd extpath with
        | Some text =>
            let '(array, _) := read_array (StringIO text) in
            Ok (BArray array, Some extpath, clpos + 1, f)
        | None => Raise FileNotFoundError
        end
    | None => Raise NotImplementedError
    end;
  factor ←
    (if (2 <? List.length control_line)%nat
     then t ← token control_line (clpos + 1); v ← py_float t; Ok (Some v)
     else Ok None);
  Ok (MFArray_init shape array how factor name extpath, f).

(** The keyword arguments [load] pops. *)
Record load_kwargs : Type := mk_kwargs {
  kw_layered : bool;
  kw_name : option string;
  kw_model_shape : option (list nat);
  kw_blk_params : gmap string (gmap string nat);
  kw_mempath : option string
}.

(** Truth value of a dimension: neither [None] nor 0. *)
Definition truthy_dim (d : option nat) : bool :=
  match d with
  | Some (S _) => true
  | _ => false
  end.

Definition truthy_tuple (t : option (list nat)) : bool :=
  match t with
  | Some (_ :: _) => true
  | _ => false
  end.

(** The shape [load] goes on with. *)
Definition resolve_shape (shape : shape_t) (kw : load_kwargs) : result shape_t :=
  match shape with
  | ShapeStr s =>
      if truthy_tuple (kw_model_shape kw) then
        let model_shape := default [] (kw_model_shape kw) in
        if PyStr.eqb s "(nodes)" then Ok (ShapeInt (prod model_shape))
        else Ok (ShapeTuple (map Some model_shape))
      else
        match kw_blk_params kw !! "dimensions" with
        | Some dimensions =>
            match kw_mempath kw with
            | None => Raise AttributeError
            | Some mempath =>
                if PyStr.mem "dis" (PyStr.split_on "/" mempath) then
                  let nlay := dimensions !! "nlay" in
                  let nrow := dimensions !! "nrow" in
                  let ncol := dimensions !! "ncol" in
                  let ncpl := dimensions !! "ncpl" in
                  let nodes := dimensions !! "nodes" in
                  if truthy_dim nrow && truthy_dim ncol
                  then Ok (ShapeTuple [nlay; nrow; ncol])
                  else if truthy_dim ncpl then Ok (ShapeTuple [nlay; ncpl])
                  else if truthy_dim nodes then Ok (ShapeInt (default 0 nodes))
                  else Ok shape
                else Ok shape
            end
        | None => Ok shape
        end
  | _ => Ok shape
  end.

(** [for _ in range(nlay): objs.append(cls._load(f, cwd, lshp, name))];
    [name] is passed by position and lands in the [layered] parameter of
    [_load], which does not use it: a layer is built without a name. *)
Fixpoint load_layers (fs : gmap string string) (nlay : nat) (f : stream) (cwd : string)
    (lshp : shape_t) : result (list MFArray * stream) :=
  match nlay with
  | O => Ok ([], f)
  | S n =>
      '(mfa, f) ← _load fs f cwd lshp None;
      '(objs, f) ← load_layers fs n f cwd lshp;
      Ok (mfa :: objs, f)
  end.

(** [MFArray.load(f, cwd, shape, header=header, **kwargs)]. *)
Definition load (fs : gmap string string) (f : stream) (cwd : string)
    (shape : shape_t) (header : bool) (kwargs : load_kwargs)
  : result (MFArray * stream) :=
  let layered := kw_layered kwargs in
  '(name, layered, f) ←
    (if header then
       '(line, f) ← multi_line_strip f;
       let tokens := PyStr.split line in
       name ← token tokens 0;
       let layered :=
         if (1 <? List.length tokens)%nat && PyStr.eqb (default "" (tokens !! 1)) "layered"
         then true else layered in
       Ok (Some name, layered, f)
     else Ok (kw_name kwargs, layered, f));
  shape ← resolve_shape shape kwargs;
  if (layered : bool) then
    match shape with
    | ShapeTuple (Some nlay :: lshp) =>
        '(objs, f) ← load_layers fs nlay f cwd (ShapeTuple lshp);
        Ok (Layered (mk_attrs name shape shape None None None) objs, f)
    | ShapeTuple (None :: _) => Raise TypeError
    | ShapeTuple [] => Raise IndexError
    | ShapeStr EmptyString => Raise IndexError
    | ShapeStr _ => Raise TypeError
    | ShapeInt _ => Raise TypeError
    end
  else _load fs f cwd shape name.

End Loading.

(** The keyword MODFLOW 6 uses, for the examples below. *)
Definition IPRN : string := "IPRN".

(** ** The operations as calls on an object *)

(** A property read: what it returns and the object after the call.
    The getters and [write] assign to no attribute and build the arrays
    they return ([reshape(...) * factor], [np.ones(...) * ...],
    [np.array(...)]), so the object after the call is the one before. *)
Definition value_call (x : MFArray) : result (option pyarr) * MFArray := (value x, x).
Definition raw_call (x : MFArray) : result (ndarray float) * MFArray := (raw x, x).
Definition write_call (x : MFArray) : (string * result unit) * MFArray := (write x, x).

(** The operations that may be applied to an array. *)
Inductive method : Type :=
  | Setitem (key : list Z) (value : operand)
  | SetValue (value : option (ndarray float))
  | Iadd (other : operand)
  | Isub (other : operand)
  | Imul (other : operand)
  | Itruediv (other : operand)
  | Ifloordiv (other : operand)
  | Ipow (other : operand)
  | GetValue
  | GetRaw
  | Write.

(** The object after a call. *)
Definition after (pow : float -> float -> float) (m : method) (x : MFArray) : MFArray :=
  match m with
  | Setitem key value => snd (__setitem__ x key value)
  | SetValue value => snd (value_setter x value)
  | Iadd other => snd (__iadd__ x other)
  | Isub other => snd (__isub__ x other)
  | Imul other => snd (__imul__ x other)
  | Itruediv other => snd (__itruediv__ x other)
  | Ifloordiv other => snd (__ifloordiv__ x other)
  | Ipow other => snd (__ipow__ pow x other)
  | GetValue => snd (value_call x)
  | GetRaw => snd (raw_call x)
  | Write => snd (write_call x)
  end.

(** The object after [n] reads of [value]. *)
Fixpoint after_values (n : nat) (x : MFArray) : MFArray :=
  match n with
  | O => x
  | S n' => after_values n' (snd (value_call x))
  end.

(** The length of the longest prefix of [ls] whose lines, once stripped,
    match the numeric pattern. *)
Fixpoint numeric_prefix (ls : list string) : nat :=
  match ls with
  | l :: ls' => if numeric_only (line_strip l) then S (numeric_prefix ls') else 0
  | [] => 0
  end.

(** The two copies of the shape an array keeps: [self.shape] and
    [self._shape]. *)
Definition declared (x : MFArray) : shape_t * shape_t :=
  (shape (attrs_of x), _shape (attrs_of x)).

(** The shapes kept by an array and by the layers it holds, in order. *)
Fixpoint all_shapes (x : MFArray) : list (shape_t * shape_t) :=
  match x with
  | Flat a _ _ => [(shape a, _shape a)]
  | Layered a ls => (shape a, _shape a) :: flat_map all_shapes ls
  end.

(** The one call that makes an array let go of its layers: the [value]
    setter given an array. *)
Definition replaces_value (m : method) : bool :=
  match m with
  | SetValue (Some _) => true
  | _ => false
  end.

(** [values == values[0]] for every item: Python's equality of floats. *)
Definition all_equal (values : list float) : bool :=
  match values with
  | [] => true
  | v0 :: _ => forallb (fun v => PrimFloat.eqb v v0) values
  end.

(** Running [_load] from [f] once per item of [layers], each call
    returning that item, leaves the stream at [f']. *)
Inductive loads (iprn : string) (fs : gmap string string) (cwd : string) (lshp : shape_t)
  : stream -> list MFArray -> stream -> Prop :=
  | loads_nil f : loads iprn fs cwd lshp f [] f
  | loads_cons f mfa f1 layers f' :
      _load iprn fs f cwd lshp None = Ok (mfa, f1) ->
      loads iprn fs cwd lshp f1 layers f' ->
      loads iprn fs cwd lshp f (mfa :: layers) f'.

(** Layered loading is requested: by the [layered] keyword argument,
    or by a header line whose second token is LAYERED. [name] is the
    name the array gets and [f1] the stream after the header. *)
Definition layered_requested (header : bool) (kwargs : load_kwargs) (f : stream)
    (name : option string) (f1 : stream) : Prop :=
  (header = false /\ kw_layered kwargs = true /\ name = kw_name kwargs /\ f1 = f) \/
  (header = true /\
   exists line n tokens,
     multi_line_strip f = Ok (line, f1) /\ PyStr.split line = n :: tokens /\
     name = Some n /\
     (kw_layered kwargs = true \/ tokens !! 0 = Some "layered")).

(** A float array as an item of the list [np.array] is given. *)
Definition float_item (a : ndarray float) : option pyarr := Some (FloatArray a).

(** A NumPy array has as many items as its shape says. *)
Definition wf_array (a : ndarray float) : Prop :=
  List.length (data a) = prod (ashape a).

(** Every array held by [x] or by one of its layers is a NumPy array. *)
Inductive well_formed : MFArray -> Prop :=
  | wf_flat a l b :
      (forall arr, b = BArray arr -> wf_array arr) -> well_formed (Flat a l b)
  | wf_layered a ls :
      Forall well_formed ls -> well_formed (Layered a ls).

(** [r] multiplied item by item by what [factor] returns: by the one
    factor of an array that is not layered, and row by row by the
    factors of the layers otherwise. *)
Fixpoint scale_by (fs : per_layer float) (r : ndarray float) : ndarray float :=
  match fs with
  | Own f => scale r f
  | PerLayer l =>
      mk_ndarray
        (List.concat (zip_with (fun f row => data (scale_by f row)) l (rows r)))
        (ashape r)
  end.

(** ** Examples *)

(** A Constant array of three cells holding 5.0 with factor 2.0. *)
Definition constant_5 : MFArray :=
  MFArray_init (ShapeTuple [Some 3]) (BScalar 5%float) (Some constant)
    (Some 2%float) (Some "a") None.

(** An External array read from [a.txt] with factor 2.0. *)
Definition external_a : MFArray :=
  MFArray_init (ShapeTuple [Some 3])
    (BArray (mk_ndarray [7%float; 8%float; 9.5%float] [3])) (Some external)
    (Some 2%float) (Some "a") (Some "a.txt").

(** An Internal array of one cell holding 7.0. *)
Definition internal_7 : MFArray :=
  MFArray_init (ShapeTuple [Some 1]) (BArray (mk_ndarray [7%float] [1]))
    (Some internal) None (Some "a") None.

(** A Constant array of two cells holding 1.0. *)
Definition constant_1 : MFArray :=
  MFArray_init (ShapeTuple [Some 2]) (BScalar 1%float) (Some constant) None
    (Some "a") None.

(** A layered array of two layers of one cell, holding 3.0 and 4.0. *)
Definition layered_34 : MFArray :=
  Layered (mk_attrs (Some "a") (ShapeTuple [Some 2; Some 1]) (ShapeTuple [Some 2; Some 1])
             None None None)
    [MFArray_init (ShapeTuple [Some 1]) (BArray (mk_ndarray [3%float] [1]))
       (Some internal) None None None;
     MFArray_init (ShapeTuple [Some 1]) (BScalar 4%float) (Some constant) None None None].

(** No keyword argument given to [load]. *)
Definition no_kwargs : load_kwargs := mk_kwargs false None None ∅ None.

(** The text of a file, line by line. *)
Definition text (ls : list string) : string :=
  PyStr.concat (map (fun l => l ++ PyStr.nl) ls).
(** ** The binary operators of [NumPyArrayMixin] *)

(** [x + other] and the like run the loop and the augmented assignment
    of the in-place operators on [self] and return [self]: the result of
    the call is the outcome and the left operand as the call leaves it. *)
Definition __add__ (x : MFArray) (other : operand) : result unit * MFArray :=
  inplace __iadd__ PrimFloat.add PrimFloat.add x other.

Definition __mul__ (x : MFArray) (other : operand) : result unit * MFArray :=
  inplace __imul__ PrimFloat.mul PrimFloat.mul x other.

Definition __sub__ (x : MFArray) (other : operand) : result unit * MFArray :=
  inplace __isub__ PrimFloat.sub PrimFloat.sub x other.

Definition __truediv__ (x : MFArray) (other : operand) : result unit * MFArray :=
  inplace __itruediv__ PrimFloat.div PrimFloat.div x other.

(** [__floordiv__] applies [/=] in both branches. *)
Definition __floordiv__ (x : MFArray) (other : operand) : result unit * MFArray :=
  inplace __itruediv__ PrimFloat.div PrimFloat.div x other.

(** [__pow__] applies [/=] to the layers and [**=] to [self._value]. *)
Definition __pow__ (pow : float -> float -> float) (x : MFArray) (other : operand)
  : result unit * MFArray :=
  inplace __itruediv__ PrimFloat.div pow x other.

(** The six operations, each with a binary and an in-place method. *)
Inductive operator : Type := Add | Sub | Mul | Truediv | Floordiv | Pow.

Definition binary (pow : float -> float -> float) (op : operator)
  : MFArray -> operand -> result unit * MFArray :=
  match op with
  | Add => __add__
  | Sub => __sub__
  | Mul => __mul__
  | Truediv => __truediv__
  | Floordiv => __floordiv__
  | Pow => __pow__ pow
  end.

Definition in_place (pow : float -> float -> float) (op : operator)
  : MFArray -> operand -> result unit * MFArray :=
  match op with
  | Add => __iadd__
  | Sub => __isub__
  | Mul => __imul__
  | Truediv => __itruediv__
  | Floordiv => __ifloordiv__
  | Pow => __ipow__ pow
  end.

(** The attributes of an array and of the layers it holds, in order. *)
Fixpoint all_attrs (x : MFArray) : list attrs :=
  match x with
  | Flat a _ _ => [a]
  | Layered a ls => a :: flat_map all_attrs ls
  end.

(** ** Reading items *)

(** [a[key]] for a tuple [key] of integers, one per leading axis: the
    block the key addresses (of rank 0 when every axis has its index);
    the empty tuple is the whole array. *)
Definition getitem (a : ndarray float) (key : list Z) : result (ndarray float) :=
  match locate key (ashape a) 0 with
  | None => Raise IndexError
  | Some (off, bs) => Ok (mk_ndarray (take (prod bs) (drop off (data a))) bs)
  end.

(** [self[item]]: [self.raw[item]]. *)
Definition __getitem__ (x : MFArray) (item : list Z) : result (ndarray float) :=
  values ← raw x;
  getitem values item.

(** [list(self)]: what [__iter__] yields, the items of [self.raw.ravel()]
    one after the other. *)
Definition __iter__ (x : MFArray) : result (list float) :=
  values ← raw x;
  Ok (data (ravel values)).





(** An Internal array of two rows of two cells. *)
Definition internal_2x2 : MFArray :=
  MFArray_init (ShapeTuple [Some 2; Some 2])
    (BArray (mk_ndarray [1%float; 2%float; 3%float; 4%float] [4]))
    (Some internal) None (Some "a") None.

(** ** Text that [write] produces and [load] reads *)

(** Every character of [s] satisfies [p]. *)
Fixpoint all_chars (p : ascii -> bool) (s : string) : bool :=
  match s with
  | EmptyString => true
  | String c s' => p c && all_chars p s'
  end.

(** A character that [line_strip] and [str.split] leave where it is:
    no blank, no comma and none of [;], [#] and [!], which may start a
    comment. *)
Definition plain (c : ascii) : bool :=
  negb (PyStr.is_space c) && negb (Ascii.eqb c ",") && negb (Ascii.eqb c ";")
  && negb (Ascii.eqb c "#") && negb (Ascii.eqb c "!").

(** A token: one or more plain characters. *)
Definition word (s : string) : bool :=
  negb (PyStr.is_empty s) && all_chars plain s.

(** The text of a number made of digits and points only, the numbers
    the pattern of [read_array] lets through. *)
Definition numeric_text (s : string) : bool :=
  negb (PyStr.is_empty s) && all_chars (fun c => PyStr.is_digit c || Ascii.eqb c ".") s.

(** The characters [str] of a float is made of. *)
Definition float_char (c : ascii) : bool :=
  PyStr.is_digit c || Ascii.eqb c "." || Ascii.eqb c "e" || Ascii.eqb c "+"
  || Ascii.eqb c "-" || Ascii.eqb c "i" || Ascii.eqb c "n" || Ascii.eqb c "f"
  || Ascii.eqb c "a".

(** The factor [write] puts on the control line of an Internal array:
    none when [_factor] is [None] or zero. *)
Definition written_factor (a : attrs) : option float :=
  match _factor a with
  | Some f => if PyFloat.truthy f then Some f else None
  | None => None
  end.

(** The tokens of the control line [write] produces for an Internal
    array. *)
Definition control_words (a : attrs) : list string :=
  "INTERNAL" ::
  match written_factor a with
  | Some f => ["FACTOR"; PyFloat.to_string f]
  | None => []
  end.

(** A line of [write]: padding, words separated by one space, and the
    newline. *)
Definition padded (pad : string) (ws : list string) : string :=
  pad ++ PyStr.join " " ws ++ PyStr.nl.

(** The three lines [write] produces for an Internal array of rank 1
    named [n] that holds the numbers [d]. *)
Definition name_line (n : string) : string := padded PAD [PyStr.upper n].
Definition control_line (a : attrs) : string := padded PAD2 (control_words a).
Definition data_line (d : list float) : string := padded PAD3 (map PyFloat.to_string d).

(** The string starts with a character that is no blank. *)
Definition starts_tight (s : string) : bool :=
  match s with
  | String c _ => negb (PyStr.is_space c)
  | EmptyString => false
  end.

(** A character of a line of words: plain, or the space between two
    words or around them, or the newline at the end. *)
Definition line_char (c : ascii) : bool := plain c || PyStr.is_space c.

Definition not_newline (c : ascii) : bool := negb (Ascii.eqb c (ascii_of_nat 10)).


(** *** Layers *)

(** A line without its newline: padding and words separated by one
    space. *)
Definition body (pad : string) (ws : list string) : string := pad ++ PyStr.join " " ws.

(** The rows [write] lays the numbers [d] of a layer out in: one row
    for a layer of rank 1, the rows of the array for a layer of rank
    2. *)
Definition layer_rows (d : list float) (ldims : list nat) : list (list float) :=
  match ldims with
  | [_] => [d]
  | [r; c] => chunks c r d
  | _ => []
  end.

(** The lines, without their newlines, that [write] produces for an
    Internal layer holding [d]: the control line, then the line of
    numbers under a doubled padding and an empty line when the layer has
    rank 1, one line per row when it has rank 2. *)
Definition layer_bodies (a : attrs) (d : list float) (ldims : list nat) : list string :=
  body PAD2 (control_words a) ::
  match ldims with
  | [_] => [body (PAD3 ++ PAD3) (map PyFloat.to_string d); ""]
  | _ => map (fun row => body PAD3 (map PyFloat.to_string row)) (layer_rows d ldims)
  end.

(** The lines of the text for a layered array named [n] whose layers
    have the attributes and numbers [layers]. *)
Definition layered_bodies (n : string) (ldims : list nat)
    (layers : list (attrs * list float)) : list string :=
  body PAD [PyStr.upper n; "LAYERED"] ::
  flat_map (fun '(a, d) => layer_bodies a d ldims) layers.

Definition with_newlines (bodies : list string) : list string :=
  map (fun l => l ++ PyStr.nl) bodies.

(** The numbers of a layer are written in a form [read_array] reads:
    their text is made of digits and points, and [float] reads it back
    as the number. *)
Definition readable (v : float) : Prop :=
  numeric_text (PyFloat.to_string v) = true /\
  PyFloat.of_string (PyFloat.to_string v) = Some v.

(** An Internal layer with attributes [a] holding the numbers [d], of
    the shape [ldims], whose numbers and factor are read back. *)
Definition internal_layer (ldims : list nat) (mfa : MFArray) (ad : attrs * list float)
  : Prop :=
  let '(a, d) := ad in
  (exists s, mfa = Flat a false (BArray (mk_ndarray d s))) /\
  _how a = Some internal /\
  dims_of (_shape a) = Some ldims /\
  List.length d = prod ldims /\
  Forall readable d /\
  (forall f, written_factor a = Some f ->
     PyFloat.of_string (PyFloat.to_string f) = Some f).

(** The layer [load] builds from the lines of a layer. *)
Definition reloaded (lshp : shape_t) (ad : attrs * list float) : MFArray :=
  let '(a, d) := ad in
  MFArray_init lshp (BArray (mk_ndarray d [List.length d])) (Some internal)
    (written_factor a) None None.

(** The shapes of the layers the statements below are about: rank 1 or
    2, no dimension being 0. *)
Definition layer_shape (ldims : list nat) : Prop :=
  match ldims with
  | [S _] | [S _; S _] => True
  | _ => False
  end.

(** A row of texts of numbers [read_array] accepts. *)
Definition numeric_row (ws : list string) : Prop :=
  ws <> [] /\ Forall (fun w => numeric_text w = true) ws.

(** A line that ends an array: the stream has no more line, or its next
    line does not match the numeric pattern. *)
Definition ends_array (rest : list string) : Prop :=
  match rest with
  | [] => True
  | l :: _ => numeric_only (line_strip l) = false
  end.

(** A layered array of two layers of one row of two cells, the second
    with a factor. *)
Definition layer_12 : attrs * list float :=
  (mk_attrs None (ShapeTuple [Some 1; Some 2]) (ShapeTuple [Some 1; Some 2])
     (Some internal) None None,
   [1%float; 2%float]).

Definition layer_34 : attrs * list float :=
  (mk_attrs None (ShapeTuple [Some 1; Some 2]) (ShapeTuple [Some 1; Some 2])
     (Some internal) (Some 2%float) None,
   [3%float; 4.5%float]).

Definition layered_k : MFArray :=
  Layered (mk_attrs (Some "k") (ShapeTuple [Some 2; Some 1; Some 2])
             (ShapeTuple [Some 2; Some 1; Some 2]) None None None)
    [Flat (fst layer_12) false (BArray (mk_ndarray (snd layer_12) [2]));
     Flat (fst layer_34) false (BArray (mk_ndarray (snd layer_34) [2]))].

(** ** MFPackage.load ([src/flopy4/package.py]) *)

Section Package.

(** [flopy4.utils.strip], [MFBlock] and the [load] class method of the
    block classes are defined in [flopy4/utils.py] and [flopy4/block.py],
    which are not among the sources: the loop of [MFPackage.load] is
    read for any of them. [block_load b f] is [type(b).load(f)]. *)
Variable strip : string -> string.
Variable block : Type.
Variable block_load : block -> stream -> result (block * stream).

(** The [while True] loop of [MFPackage.load], given the number of turns
    it may take ([None] when they do not suffice): [members] is
    [cls.blocks], [blocks] the dictionary filled so far. A line that is
    not a newline alone is stripped, lower-cased and split; when its
    first word is [begin] and its second names a member, the stream is
    taken back to the start of the line and the block is loaded from
    there. *)
Fixpoint load_blocks (fuel : nat) (members : gmap string block) (f : stream)
    (blocks : gmap string block) : option (result (gmap string block * stream)) :=
  match fuel with
  | O => None
  | S fuel' =>
      let pos := tell f in
      let '(line, f) := readline f in
      if PyStr.is_empty line then Some (Ok (blocks, f))
      else if PyStr.eqb line PyStr.nl then load_blocks fuel' members f blocks
      else
        let words := PyStr.split (PyStr.lower (strip line)) in
        match words with
        | [] => Some (Raise IndexError)
        | key :: _ =>
            if PyStr.eqb key "begin" then
              match words !! 1 with
              | None => Some (Raise IndexError)
              | Some name =>
                  match members !! name with
                  | Some b =>
                      match block_load b (seek pos f) with
                      | Ok (b', f') =>
                          load_blocks fuel' members f' (<[name := b']> blocks)
                      | Raise e => Some (Raise e)
                      | Diverge => Some Diverge
                      end
                  | None => load_blocks fuel' members f blocks
                  end
              end
            else load_blocks fuel' members f blocks
        end
  end.

(** [MFPackage.load(f)] up to the blocks it hands to [pkg.update]. *)
Definition MFPackage_load (fuel : nat) (members : gmap string block) (f : stream)
  : option (result (gmap string block * stream)) :=
  load_blocks fuel members f ∅.

(** A line the loop passes over: a newline alone, or a line whose first
    word is not [begin], or one that begins a block that is no member. *)
Definition passed_over (members : gmap string block) (l : string) : Prop :=
  l = PyStr.nl \/
  (l <> EmptyString /\
   exists key ws,
     PyStr.split (PyStr.lower (strip l)) = key :: ws /\
     (key <> "begin" \/ exists name ws', ws = name :: ws' /\ members !! name = None)).

End Package.

(** * Properties *)

(** ** The embedding at work *)

(** [str] of a float is the shortest text that reads back as the float,
    laid out as Python does. *)
Example float_strings :
  map PyFloat.to_string
    [1%float; 0.1%float; 2.5%float; 1e16%float; 1e-5%float; 123456789.125%float;
     0.30000000000000004%float; (-0)%float; PrimFloat.infinity]
  = ["1.0"; "0.1"; "2.5"; "1e+16"; "1e-05"; "123456789.125";
     "0.30000000000000004"; "-0.0"; "inf"].
Proof. vm_compute. reflexivity. Qed.

Example float_readings :
  map PyFloat.of_string ["1.0"; " 7 "; "1e-05"; ".5"; "1_0.5"; "-inf"; "1.2.3"; "1e"; "x"]
  = [Some 1%float; Some 7%float; Some 1e-5%float; Some 0.5%float; Some 10.5%float;
     Some PrimFloat.neg_infinity; None; None; None].
Proof. vm_compute. reflexivity. Qed.

(** An Internal array of three cells under its name line loads with the
    values of its body and factor 1.0; the stream is left on the line
    after the body. *)
Example load_internal_array :
  let f := StringIO (text ["  A"; "    INTERNAL"; "      1.0 2.0 3.0"; "END OPTIONS"]) in
  exists x,
    load IPRN ∅ f "." (ShapeTuple [Some 3]) true no_kwargs
      = Ok (x, mk_stream (content f) 3) /\
    how x = Ok (Own (Some internal)) /\
    factor x = Ok (Own 1%float) /\
    value x = Ok (Some (FloatArray (mk_ndarray [1%float; 2%float; 3%float] [3]))).
Proof. eexists. cbv zeta. split; [vm_compute; reflexivity|]. repeat split. Qed.

(** [CONSTANT 5.0] for three cells is broadcast to the shape. *)
Example load_constant_array :
  exists x f',
    _load IPRN ∅ (StringIO (text ["CONSTANT 5.0"])) "." (ShapeTuple [Some 3]) None
      = Ok (x, f') /\
    how x = Ok (Own (Some constant)) /\
    value x = Ok (Some (FloatArray (mk_ndarray [5%float; 5%float; 5%float] [3]))).
Proof. eexists _, _. split; [vm_compute; reflexivity|]. repeat split. Qed.

(** What [write] produces for an Internal array of rank 1 with a
    factor, and for a layered array. *)
Example write_internal_array :
  write (MFArray_init (ShapeTuple [Some 3])
           (BArray (mk_ndarray [7%float; 8%float; 9.5%float] [3])) (Some internal)
           (Some 1.5%float) (Some "a") None)
  = (text ["  A"; "    INTERNAL FACTOR 1.5"; "      7.0 8.0 9.5"], Ok tt).
Proof. vm_compute. reflexivity. Qed.

Example write_layered_array :
  write layered_34
  = (text ["  A LAYERED"; "    INTERNAL"; "            3.0"; ""; "    CONSTANT 4.0"], Ok tt).
Proof. vm_compute. reflexivity. Qed.

(** For an Internal array of rank 2 [write] joins the first row to the
    control line, and the text does not load. *)
Example write_internal_rank2 :
  let x := MFArray_init (ShapeTuple [Some 2; Some 2])
             (BArray (mk_ndarray [1%float; 2%float; 3%float; 4%float] [4]))
             (Some internal) None (Some "a") None in
  write x = (text ["  A"; "    INTERNAL1.0 2.0"; "      3.0 4.0"], Ok tt) /\
  load IPRN ∅ (StringIO (fst (write x))) "." (ShapeTuple [Some 2; Some 2]) true no_kwargs
    = Raise NotImplementedError.
Proof. cbv zeta. split; vm_compute; reflexivity. Qed.

(** At the end of the stream [multi_line_strip] never returns, and so
    does a load that needs one more line. *)
Example load_at_end_of_stream :
  _load IPRN ∅ (StringIO (text ["  # nothing but a comment"; ""])) "."
    (ShapeTuple [Some 3]) None = Diverge.
Proof. vm_compute. reflexivity. Qed.

(** Induction on an array and, when it is layered, on its layers. *)
Lemma MFArray_induction (P : MFArray -> Prop) :
  (forall a l b, P (Flat a l b)) ->
  (forall a ls, Forall P ls -> P (Layered a ls)) ->
  forall x, P x.
Proof.
  intros Hf Hl. fix IH 1. intros [a l b|a ls].
  - apply Hf.
  - apply Hl. induction ls as [|x ls IHls]; constructor; [apply IH|exact IHls].
Qed.


(** ** MFArrayType *)

Lemma upper_char_idem (c : ascii) : PyStr.upper_char (PyStr.upper_char c) = PyStr.upper_char c.
Proof. destruct c as [[] [] [] [] [] [] [] []]; reflexivity. Qed.

Lemma upper_lower_char (c : ascii) : PyStr.upper_char (PyStr.lower_char c) = PyStr.upper_char c.
Proof. destruct c as [[] [] [] [] [] [] [] []]; reflexivity. Qed.

Lemma upper_idem (s : string) : PyStr.upper (PyStr.upper s) = PyStr.upper s.
Proof.
  induction s as [|c s IH]; simpl; [reflexivity|].
  unfold PyStr.upper in *. simpl. now rewrite upper_char_idem, IH.
Qed.

Lemma upper_lower (s : string) : PyStr.upper (PyStr.lower s) = PyStr.upper s.
Proof.
  induction s as [|c s IH]; simpl; [reflexivity|].
  unfold PyStr.upper, PyStr.lower in *. simpl. now rewrite upper_lower_char, IH.
Qed.

Lemma from_string_Some (s : string) (h : MFArrayType) :
  from_string s = Some h <-> PyStr.upper s = MFArrayType_value h.
Proof.
  unfold from_string, MFArrayType_members, PyStr.eqb. simpl.
  destruct (String.eqb_spec (PyStr.upper s) "INTERNAL") as [E1|N1].
  { split; intros H.
    - now inversion H.
    - destruct h; simpl in H; rewrite E1 in H; try discriminate; reflexivity. }
  destruct (String.eqb_spec (PyStr.upper s) "CONSTANT") as [E2|N2].
  { split; intros H.
    - now inversion H.
    - destruct h; simpl in H; rewrite E2 in H; try discriminate; reflexivity. }
  destruct (String.eqb_spec (PyStr.upper s) "OPEN/CLOSE") as [E3|N3].
  { split; intros H.
    - now inversion H.
    - destruct h; simpl in H; rewrite E3 in H; try discriminate; reflexivity. }
  split; intros H; [discriminate|].
  destruct h; simpl in H; congruence.
Qed.

Lemma from_string_None (s : string) :
  from_string s = None <-> forall h, PyStr.upper s <> MFArrayType_value h.
Proof.
  split.
  - intros H h E. apply from_string_Some in E. congruence.
  - intros H. destruct (from_string s) as [h|] eqn:E; [|reflexivity].
    apply from_string_Some in E. now apply H in E.
Qed.

(** C10. [from_string] undoes [to_string] on each of the three members;
    its result does not depend on the case of the letters of its
    argument; and on a string that is no member's keyword it returns
    [None] (it is a total function: no exception). *)
Theorem from_string_to_string :
  (forall h, from_string (to_string h) = Some h) /\
  (forall s, from_string (PyStr.upper s) = from_string s /\
             from_string (PyStr.lower s) = from_string s) /\
  (forall s, (forall h, PyStr.upper s <> MFArrayType_value h) -> from_string s = None).
Proof.
  split; [|split].
  - intros []; reflexivity.
  - intros s. unfold from_string. now rewrite upper_idem, upper_lower.
  - intros s H. now apply from_string_None.
Qed.

Lemma from_string_to_string_witness :
  from_string (to_string external) = Some external /\
  from_string "open/Close" = from_string "OPEN/CLOSE" /\
  from_string "LAYERED" = None.
Proof.
  destruct from_string_to_string as (H1 & H2 & H3).
  split; [apply H1|split].
  - rewrite <- (proj1 (H2 "open/Close")). reflexivity.
  - apply H3. intros []; vm_compute; discriminate.
Defined.

(** ** read_array *)

Lemma remaining_cons (f : stream) (l : string) (rest : list string) :
  remaining f = l :: rest ->
  content f !! pos f = Some l /\ remaining (mk_stream (content f) (S (pos f))) = rest.
Proof.
  unfold remaining. simpl. intros H. split.
  - rewrite <- (Nat.add_0_r (pos f)), <- lookup_drop, H. reflexivity.
  - replace (S (pos f)) with (pos f + 1) by lia.
    rewrite <- drop_drop, H. reflexivity.
Qed.

Lemma remaining_nil (f : stream) :
  remaining f = [] -> content f !! pos f = None.
Proof.
  unfold remaining. intros H.
  rewrite <- (Nat.add_0_r (pos f)), <- lookup_drop, H. reflexivity.
Qed.

(** The loop stops after the longest matching prefix, whatever it had
    collected before, as soon as it is given one turn more than there
    are lines left. *)
Lemma read_array_loop_spec (fuel : nat) :
  forall (f : stream) (astr : list string),
    List.length (remaining f) < fuel ->
    read_array_loop fuel f astr =
      ((astr ++ map line_strip (take (numeric_prefix (remaining f)) (remaining f)))%list,
       mk_stream (content f) (pos f + numeric_prefix (remaining f))).
Proof.
  induction fuel as [|fuel IH]; intros f astr Hlen; [lia|].
  simpl. unfold readline, tell, seek.
  destruct (remaining f) as [|l rest] eqn:Hrem.
  - rewrite (remaining_nil f Hrem). simpl.
    rewrite app_nil_r, Nat.add_0_r. reflexivity.
  - destruct (remaining_cons f l rest Hrem) as [Hl Hrest].
    rewrite Hl. simpl.
    destruct (numeric_only (line_strip l)) eqn:Hm; simpl.
    + rewrite IH by (rewrite Hrest; simpl in Hlen; lia).
      rewrite Hrest. simpl. rewrite <- app_assoc. simpl.
      f_equal. f_equal. lia.
    + rewrite app_nil_r, Nat.add_0_r. reflexivity.
Qed.

Lemma numeric_prefix_spec (ls : list string) :
  numeric_prefix ls <= List.length ls /\
  Forall (fun l => numeric_only (line_strip l) = true) (take (numeric_prefix ls) ls) /\
  match ls !! numeric_prefix ls with
  | Some l => numeric_only (line_strip l) = false
  | None => True
  end.
Proof.
  induction ls as [|l ls (IH1 & IH2 & IH3)]; simpl.
  - repeat split; constructor.
  - destruct (numeric_only (line_strip l)) eqn:Hm; simpl.
    + repeat split; [lia| |exact IH3]. constructor; assumption.
    + repeat split; [lia|constructor|assumption].
Qed.

(** C5, as stated, fails: the pattern is not tried on the lines of the
    stream but on what [line_strip] makes of them. The line [1.0, 2.0]
    does not match the pattern (a comma) and is consumed, its two
    numbers read; a line of three spaces matches the pattern and is not
    consumed. *)
Lemma read_array_matches_stripped_lines :
  let f := StringIO (text ["1.0, 2.0"; "END"]) in
  let g := StringIO (text ["   "; "1.0 2.0"]) in
  fst (readline f) = ("1.0, 2.0" ++ PyStr.nl)%string /\
  numeric_only (fst (readline f)) = false /\
  pos (snd (read_array f)) = 1 /\
  fst (read_array f) = mk_ndarray [1%float; 2%float] [2] /\
  fst (readline g) = ("   " ++ PyStr.nl)%string /\
  numeric_only (fst (readline g)) = true /\
  pos (snd (read_array g)) = 0 /\
  fst (read_array g) = mk_ndarray [] [0].
Proof. cbv zeta. repeat split; vm_compute; reflexivity. Qed.

(** C5, amended. [read_array] consumes exactly the longest prefix of the
    lines left in the stream that match the numeric pattern once
    stripped by [line_strip] (comment removed, surrounding blanks
    trimmed, commas turned into spaces): every consumed line does, and
    the line after them, if there is one, does not. The array is the
    stripped consumed lines, joined by spaces, read as one flat sequence
    of floats, and the stream is left at the beginning of the first line
    that does not match, which the next [readline] returns. *)
Theorem read_array_consumes_numeric_prefix (f : stream) :
  exists k : nat,
    let consumed := take k (remaining f) in
    Forall (fun l => numeric_only (line_strip l) = true) consumed /\
    match remaining f !! k with
    | Some l => numeric_only (line_strip l) = false
    | None => k = List.length (remaining f)
    end /\
    fst (read_array f) = genfromtxt (PyStr.join " " (map line_strip consumed)) /\
    ashape (fst (read_array f)) = [List.length (data (fst (read_array f)))] /\
    content (snd (read_array f)) = content f /\
    pos (snd (read_array f)) = pos f + k /\
    remaining (snd (read_array f)) = drop k (remaining f) /\
    fst (readline (snd (read_array f))) = default EmptyString (remaining f !! k).
Proof.
  exists (numeric_prefix (remaining f)).
  destruct (numeric_prefix_spec (remaining f)) as (Hle & Hall & Hnext).
  unfold read_array.
  rewrite read_array_loop_spec by lia. simpl.
  repeat split.
  - exact Hall.
  - destruct (remaining f !! numeric_prefix (remaining f)) eqn:E; [exact Hnext|].
    apply lookup_ge_None in E. lia.
  - unfold genfromtxt. simpl. now rewrite length_map.
  - unfold remaining. simpl. now rewrite drop_drop.
  - unfold readline. simpl.
    unfold remaining. rewrite lookup_drop.
    destruct (content f !! (pos f + numeric_prefix (drop (pos f) (content f)))); reflexivity.
Qed.

(** ** The declared shape *)

Lemma iadd_unfold x o : __iadd__ x o = inplace __iadd__ PrimFloat.add PrimFloat.add x o.
Proof. destruct x; reflexivity. Qed.
Lemma isub_unfold x o : __isub__ x o = inplace __isub__ PrimFloat.sub PrimFloat.sub x o.
Proof. destruct x; reflexivity. Qed.
Lemma imul_unfold x o : __imul__ x o = inplace __imul__ PrimFloat.mul PrimFloat.mul x o.
Proof. destruct x; reflexivity. Qed.
Lemma itruediv_unfold x o :
  __itruediv__ x o = inplace __itruediv__ PrimFloat.div PrimFloat.div x o.
Proof. destruct x; reflexivity. Qed.

Lemma inplace_declared layer_op fl fn x o :
  declared (snd (inplace layer_op fl fn x o)) = declared x.
Proof.
  unfold inplace. destruct x as [a [] b|a ls].
  - destruct (items_iop fl b o); reflexivity.
  - destruct (buffer_iop fn b o); reflexivity.
  - destruct (forM _ ls). reflexivity.
Qed.

Ltac break_match :=
  match goal with
  | |- context [match ?e with _ => _ end] => destruct e eqn:?
  | |- context [if ?e then _ else _] => destruct e eqn:?
  | |- context [let '(_, _) := ?e in _] => destruct e eqn:?
  end.

Lemma setitem_declared x key v : declared (snd (__setitem__ x key v)) = declared x.
Proof.
  destruct x as [a [] b|a ls]; cbn [__setitem__];
    repeat (try reflexivity; break_match).
Qed.

Lemma forMi_all_shapes (f : nat -> MFArray -> result unit * MFArray) (ls : list MFArray) :
  Forall (fun x => forall i, all_shapes (snd (f i x)) = all_shapes x) ls ->
  forall n, flat_map all_shapes (snd (forMi f n ls)) = flat_map all_shapes ls.
Proof.
  induction 1 as [|x ls Hx Hls IH]; intros n; simpl; [reflexivity|].
  specialize (Hx n). destruct (f n x) as [r x']. simpl in Hx.
  destruct r; simpl.
  - specialize (IH (S n)). destruct (forMi f (S n) ls) as [r' ls']. simpl in *.
    now rewrite Hx, IH.
  - now rewrite Hx.
  - now rewrite Hx.
Qed.

Lemma inplace_all_shapes layer_op fl fn x o :
  (forall a ls, x = Layered a ls ->
     Forall (fun mfa => all_shapes (snd (layer_op mfa o)) = all_shapes mfa) ls) ->
  all_shapes (snd (inplace layer_op fl fn x o)) = all_shapes x.
Proof.
  intros H. unfold inplace. destruct x as [a [] b|a ls].
  - destruct (items_iop fl b o); reflexivity.
  - destruct (buffer_iop fn b o); reflexivity.
  - specialize (H a ls eq_refl). unfold forM.
    pose proof (forMi_all_shapes (fun _ mfa => layer_op mfa o) ls) as Hf.
    destruct (forMi _ 0 ls) as [r ls'] eqn:E. simpl.
    specialize (Hf ltac:(eapply Forall_impl; [exact H|]; cbv beta; auto) 0).
    rewrite E in Hf. simpl in Hf. now rewrite Hf.
Qed.

Lemma recursive_iop_all_shapes (op : MFArray -> operand -> result unit * MFArray) fl fn :
  (forall x o, op x o = inplace op fl fn x o) ->
  forall x o, all_shapes (snd (op x o)) = all_shapes x.
Proof.
  intros Hop x o. induction x as [a l b|a ls IH] using MFArray_induction.
  - rewrite Hop. apply inplace_all_shapes. intros ? ? [=].
  - rewrite Hop. apply inplace_all_shapes. intros a' ls' [= <- <-]. exact IH.
Qed.

Lemma setitem_all_shapes x :
  forall key v, all_shapes (snd (__setitem__ x key v)) = all_shapes x.
Proof.
  induction x as [a l b|a ls IH] using MFArray_induction; intros key v.
  - destruct l; cbn [__setitem__]; repeat (try reflexivity; break_match).
  - cbn [__setitem__].
    destruct (raw (Layered a ls)) as [values| |]; [|reflexivity..].
    destruct (setitem values key v) as [values'| |]; [|reflexivity..].
    pose proof (forMi_all_shapes
                  (fun ix mfa => __setitem__ mfa [] (OArray (row values' ix))) ls) as Hf.
    destruct (forMi _ 0 ls) as [r ls'] eqn:E. simpl.
    specialize (Hf ltac:(eapply Forall_impl; [exact IH|]; cbv beta; auto) 0).
    rewrite E in Hf. simpl in Hf. now rewrite Hf.
Qed.

(** C9. No operation changes the shape an array was built with: after
    [__setitem__], the [value] setter, each in-place operator, a read of
    [value] or [raw], and [write], both [self.shape] and [self._shape]
    are what they were before the call, whether the call returned or
    raised; and so are those of every layer, at any depth, the array
    holds (the [value] setter given an array makes a layered array drop
    its layers, which it does not change). *)
Theorem shape_never_mutated (pow : float -> float -> float) (m : method) (x : MFArray) :
  shape (attrs_of (after pow m x)) = shape (attrs_of x) /\
  _shape (attrs_of (after pow m x)) = _shape (attrs_of x) /\
  (replaces_value m = false -> all_shapes (after pow m x) = all_shapes x).
Proof.
  assert (H : declared (after pow m x) = declared x).
  { destruct m; simpl.
    - apply setitem_declared.
    - unfold value_setter. destruct value0 as [v|]; [|reflexivity].
      destruct (shape_is_tuple _ _); reflexivity.
    - rewrite iadd_unfold. apply inplace_declared.
    - rewrite isub_unfold. apply inplace_declared.
    - rewrite imul_unfold. apply inplace_declared.
    - rewrite itruediv_unfold. apply inplace_declared.
    - apply inplace_declared.
    - apply inplace_declared.
    - reflexivity.
    - reflexivity.
    - reflexivity. }
  unfold declared in H. injection H as H1 H2.
  split; [exact H1|]. split; [exact H2|]. intros Hm.
  pose proof (recursive_iop_all_shapes __itruediv__ _ _ itruediv_unfold) as Hdiv.
  destruct m as [key v|[v|]|o|o|o|o|o|o| | |]; simpl; try discriminate; try reflexivity.
  - apply setitem_all_shapes.
  - apply (recursive_iop_all_shapes __iadd__ _ _ iadd_unfold).
  - apply (recursive_iop_all_shapes __isub__ _ _ isub_unfold).
  - apply (recursive_iop_all_shapes __imul__ _ _ imul_unfold).
  - apply Hdiv.
  - apply inplace_all_shapes. intros a ls _. apply Forall_forall. intros; apply Hdiv.
  - apply inplace_all_shapes. intros a ls _. apply Forall_forall. intros; apply Hdiv.
Qed.

(** ** In-place arithmetic *)

(** An in-place operator whose two branches apply the same operation
    replaces, in an array that is not layered, every number of the
    buffer by the operation applied to it and the scalar operand. *)
Lemma inplace_elementwise layer_op fl fn a d s v :
  inplace layer_op fl fn (Flat a false (BArray (mk_ndarray d s))) (OScalar v) =
    (Ok tt, Flat a false (BArray (mk_ndarray (map (fun x => fn x v) d) s))).
Proof. reflexivity. Qed.

(** C7. [//=] and, on a layered array, [**=] do not apply their own
    operation: both run [/=]. On the array holding 7.0, [x //= 2.0]
    leaves 3.5 (floor division gives 3.0); on the two layers holding 3.0
    and 4.0, [x **= 2.0] leaves 1.5 and 2.0 (the squares are 9.0 and
    16.0). In general [__ifloordiv__] is [__itruediv__], and [__ipow__]
    on layers is [__itruediv__] whatever the power function. *)
Theorem floordiv_and_layered_pow_divide :
  raw (snd (__ifloordiv__ internal_7 (OScalar 2%float)))
    = Ok (mk_ndarray [3.5%float] [1]) /\
  (forall pow, raw (snd (__ipow__ pow layered_34 (OScalar 2%float)))
    = Ok (mk_ndarray [1.5%float; 2%float] [2; 1])) /\
  (forall x other, __ifloordiv__ x other = __itruediv__ x other) /\
  (forall pow a ls other,
     __ipow__ pow (Layered a ls) other = __itruediv__ (Layered a ls) other).
Proof.
  split; [|split; [|split]].
  - vm_compute. reflexivity.
  - intros pow. vm_compute. reflexivity.
  - intros x other. unfold __ifloordiv__. now rewrite itruediv_unfold.
  - intros pow a ls other. unfold __ipow__. now rewrite itruediv_unfold.
Qed.

(** ** Writing and loading again *)

(** C1. The factor of a Constant or External array is not written: the
    text [write] produces for the Constant array holding 5.0 with factor
    2.0 is the name line and [CONSTANT 5.0], and for the External array
    of [a.txt] with factor 2.0 the name line and [OPEN/CLOSE a.txt].
    Loading either text gives an array of the same variant and the same
    raw values (and path) whose [_factor] is [None], so that its
    [factor] is 1.0 where the written array's was 2.0. *)
Theorem constant_and_external_factor_lost :
  write constant_5 = (text ["  A"; "    CONSTANT 5.0"], Ok tt) /\
  write external_a = (text ["  A"; "    OPEN/CLOSE a.txt"], Ok tt) /\
  (exists x f,
     load IPRN ∅ (StringIO (fst (write constant_5))) "." (ShapeTuple [Some 3]) true no_kwargs
       = Ok (x, f) /\
     _how (attrs_of x) = _how (attrs_of constant_5) /\
     raw x = raw constant_5 /\
     _factor (attrs_of constant_5) = Some 2%float /\
     _factor (attrs_of x) = None /\
     factor constant_5 = Ok (Own 2%float) /\
     factor x = Ok (Own 1%float)) /\
  (exists x f,
     load IPRN {[ "./a.txt" := text ["7.0 8.0 9.5"] ]}
       (StringIO (fst (write external_a))) "." (ShapeTuple [Some 3]) true no_kwargs
       = Ok (x, f) /\
     _how (attrs_of x) = _how (attrs_of external_a) /\
     _path (attrs_of x) = _path (attrs_of external_a) /\
     raw x = raw external_a /\
     _factor (attrs_of external_a) = Some 2%float /\
     _factor (attrs_of x) = None /\
     factor external_a = Ok (Own 2%float) /\
     factor x = Ok (Own 1%float)).
Proof.
  split; [vm_compute; reflexivity|].
  split; [vm_compute; reflexivity|].
  split.
  - eexists _, _. split; [vm_compute; reflexivity|].
    repeat split; vm_compute; reflexivity.
  - eexists _, _. split; [vm_compute; reflexivity|].
    repeat split; vm_compute; reflexivity.
Qed.

(** ** Assignment to a Constant array *)

(** C2, as stated, fails: assigning 1.000001 to the first cell of the
    Constant array of two cells holding 1.0 updates the values to
    1.000001 and 1.0, which are not all equal, and the array is not
    promoted to Internal: it stays Constant and keeps 1.000001 alone. *)
Lemma unequal_values_keep_constant :
  let value := OScalar 1.000001%float in
  let x' := snd (__setitem__ constant_1 [0%Z] value) in
  (r ← raw constant_1; setitem r [0%Z] value)
    = Ok (mk_ndarray [1.000001%float; 1%float] [2]) /\
  all_equal [1.000001%float; 1%float] = false /\
  how x' <> Ok (Own (Some internal)) /\
  how x' = Ok (Own (Some constant)) /\
  x' = Flat (attrs_of constant_1) false (BScalar 1.000001%float).
Proof.
  cbv zeta. split; [vm_compute; reflexivity|].
  split; [vm_compute; reflexivity|].
  split; [vm_compute; discriminate|].
  split; vm_compute; reflexivity.
Qed.

(** C2, amended. On a Constant array that is not layered,
    [__setitem__] returns and, the updated flat values being [values]
    with first item [v0]: when every item is close to [v0]
    ([numpy.allclose], |v - v0| <= 1e-8 + 1e-5 |v0|) the array stays
    Constant and holds [v0] alone; otherwise it becomes Internal and
    holds [values]; [how] answers accordingly. *)
Theorem constant_collapse (a : attrs) (b : buffer) (key : list Z) (value : operand)
    (r r' : ndarray float) (v0 : float) (rest : list float) :
  _how a = Some constant ->
  raw (Flat a false b) = Ok r ->
  setitem r key value = Ok r' ->
  data r' = v0 :: rest ->
  let values := ravel r' in
  let x' := snd (__setitem__ (Flat a false b) key value) in
  fst (__setitem__ (Flat a false b) key value) = Ok tt /\
  (allclose values v0 = true ->
     x' = Flat a false (BScalar v0) /\ how x' = Ok (Own (Some constant))) /\
  (allclose values v0 = false ->
     x' = Flat (set_how a (Some internal)) false (BArray values) /\
     how x' = Ok (Own (Some internal))).
Proof.
  intros Hhow Hraw Hset Hdata values x'. subst x' values.
  cbn [__setitem__]. rewrite Hraw, Hset.
  destruct (decide (_how a = Some constant)) as [_|N]; [|contradiction].
  change (data (ravel r')) with (data r'). rewrite Hdata.
  destruct (allclose (ravel r') v0) eqn:E;
    cbn [negb fst snd]; repeat split; intros; try discriminate;
    cbn [how set_how _how]; try rewrite Hhow; reflexivity.
Qed.

Lemma constant_collapse_witness :
  (let x' := snd (__setitem__ constant_1 [0%Z] (OScalar 1.5%float)) in
   x' = Flat (set_how (attrs_of constant_1) (Some internal)) false
          (BArray (mk_ndarray [1.5%float; 1%float] [2])) /\
   how x' = Ok (Own (Some internal))) /\
  (let x' := snd (__setitem__ constant_1 [] (OScalar 1.5%float)) in
   x' = Flat (attrs_of constant_1) false (BScalar 1.5%float) /\
   how x' = Ok (Own (Some constant))).
Proof.
  split.
  - refine (proj2 (proj2 (constant_collapse (attrs_of constant_1) (BScalar 1%float)
      [0%Z] (OScalar 1.5%float) (mk_ndarray [1%float; 1%float] [2])
      (mk_ndarray [1.5%float; 1%float] [2]) 1.5%float [1%float]
      eq_refl eq_refl eq_refl eq_refl)) _).
    vm_compute. reflexivity.
  - refine (proj1 (proj2 (constant_collapse (attrs_of constant_1) (BScalar 1%float)
      [] (OScalar 1.5%float) (mk_ndarray [1%float; 1%float] [2])
      (mk_ndarray [1.5%float; 1.5%float] [2]) 1.5%float [1.5%float]
      eq_refl eq_refl eq_refl eq_refl)) _).
    vm_compute. reflexivity.
Defined.

(** ** Unknown control lines *)

(** C4, as stated, fails: the first token of the control line
    [iprn 1 constant 5.0] is none of the three keywords, yet the load
    returns a Constant array, the [iprn] pair being dropped before the
    keyword is looked at. *)
Lemma iprn_first_control_line_loads :
  let f := StringIO (text ["    iprn 1 constant 5.0"]) in
  (exists f1, multi_line_strip f = Ok ("iprn 1 constant 5.0", f1)) /\
  PyStr.split "iprn 1 constant 5.0" = ["iprn"; "1"; "constant"; "5.0"] /\
  from_string "iprn" = None /\
  _load IPRN ∅ f "." (ShapeTuple [Some 3]) None
    = Ok (MFArray_init (ShapeTuple [Some 3]) (BScalar 5%float) (Some constant)
            None None None,
          mk_stream (content f) 1).
Proof.
  cbv zeta. split; [eexists; vm_compute; reflexivity|].
  repeat split; vm_compute; reflexivity.
Qed.

(** C4, amended. When the control line (the next line of the stream
    that is not blank or a comment), once the [iprn] keyword and the
    token after it have been removed, starts with a token that is none
    of INTERNAL, CONSTANT and OPEN/CLOSE in any case of letters, [_load]
    raises [NotImplementedError], the code's error for an unknown
    representation, and returns no array. *)
Theorem unknown_keyword_raises (iprn : string) (fs : gmap string string) (f f1 : stream)
    (cwd : string) (shape : shape_t) (name : option string)
    (line first : string) (rest : list string) :
  multi_line_strip f = Ok (line, f1) ->
  drop_iprn iprn (PyStr.split line) = Ok (first :: rest) ->
  (forall h, PyStr.upper first <> MFArrayType_value h) ->
  _load iprn fs f cwd shape name = Raise NotImplementedError.
Proof.
  intros Hline Hdrop Hunknown.
  apply from_string_None in Hunknown.
  unfold _load. rewrite Hline. cbn [mbind result_bind bind].
  rewrite Hdrop. cbn [mbind result_bind bind token lookup list_lookup].
  rewrite Hunknown. reflexivity.
Qed.

Lemma unknown_keyword_raises_witness :
  _load IPRN ∅ (StringIO (text ["  # comment"; "    Layer 5.0 IPRN 3"])) "."
    (ShapeTuple [Some 3]) None = Raise NotImplementedError.
Proof.
  apply (unknown_keyword_raises IPRN ∅ _
           (mk_stream [("  # comment" ++ PyStr.nl)%string;
                       ("    Layer 5.0 IPRN 3" ++ PyStr.nl)%string] 2)
           "." _ None "layer 5.0 iprn 3" "layer" ["5.0"]).
  - vm_compute. reflexivity.
  - vm_compute. reflexivity.
  - intros []; vm_compute; discriminate.
Defined.

(** ** Loading *)

Lemma bind_Ok {A B : Type} (r : result A) (k : A -> result B) (b : B) :
  r ≫= k = Ok b -> exists a, r = Ok a /\ k a = Ok b.
Proof. destruct r; simpl; intros H; try discriminate. eauto. Qed.

Ltac inv_bind H :=
  let a := fresh "a" in
  let E := fresh "E" in
  apply bind_Ok in H; destruct H as (a & E & H).

(** What [_load] returns is an array that is not layered, built with
    the shape and the name it was given. *)
Lemma _load_Ok iprn fs f cwd sh name x f' :
  _load iprn fs f cwd sh name = Ok (x, f') ->
  exists b h fa p, x = MFArray_init sh b (Some h) fa name p.
Proof.
  unfold _load. intros H.
  inv_bind H. destruct a as [line f1].
  inv_bind H. inv_bind H. inv_bind H.
  destruct a1 as [[[array extpath] clpos] f2].
  inv_bind H. inversion H; subst.
  destruct (from_string a0) as [h|] eqn:Eh; [|discriminate].
  eauto 6.
Qed.

Lemma load_layers_Ok iprn fs cwd lshp nlay :
  forall f layers f',
    load_layers iprn fs nlay f cwd lshp = Ok (layers, f') <->
    loads iprn fs cwd lshp f layers f' /\ List.length layers = nlay.
Proof.
  induction nlay as [|n IH]; intros f layers f'; simpl.
  - split.
    + intros H. inversion H; subst. split; [constructor|reflexivity].
    + intros [H Hlen]. destruct layers; [|discriminate]. now inversion H.
  - split.
    + intros H. inv_bind H. destruct a as [mfa f1].
      inv_bind H. destruct a as [objs f2]. inversion H; subst.
      apply IH in E0 as [Hl Hlen].
      split; [econstructor; eassumption|simpl; now rewrite Hlen].
    + intros [H Hlen]. destruct H as [|f0 mfa f1 layers f' H1 H2]; [discriminate|].
      simpl in Hlen. injection Hlen as Hlen.
      rewrite H1. simpl.
      rewrite (proj2 (IH f1 layers f') (conj H2 Hlen)). reflexivity.
Qed.

Lemma loads_layers iprn fs cwd lshp f layers f' :
  loads iprn fs cwd lshp f layers f' ->
  Forall (fun mfa => layered mfa = false /\
                     shape (attrs_of mfa) = lshp /\ _shape (attrs_of mfa) = lshp /\
                     name (attrs_of mfa) = None /\
                     how mfa = Ok (Own (_how (attrs_of mfa))) /\
                     factor mfa = Ok (Own (factor_of (attrs_of mfa)))) layers.
Proof.
  induction 1 as [|f mfa f1 layers f' H1 H2 IH]; constructor; [|exact IH].
  apply _load_Ok in H1 as (b & h & fa & p & ->). repeat split.
Qed.

Lemma mapM_Ok {A B : Type} (f : A -> result B) (g : A -> B) (l : list A) :
  Forall (fun x => f x = Ok (g x)) l -> mapM f l = Ok (map g l).
Proof.
  induction 1 as [|x l Hx Hl IH]; simpl; [reflexivity|].
  rewrite Hx. simpl. fold (mapM f). rewrite IH. reflexivity.
Qed.

(** C6, as stated, fails: the header line [A X LAYERED] ends in LAYERED,
    and [load] reads one array that is not layered, whose [how] is its
    own and no list: the test is on the second token of the header. *)
Lemma header_ending_in_layered_not_layered :
  let f := StringIO (text ["  A X LAYERED"; "    CONSTANT 5.0"]) in
  (exists f1, multi_line_strip f = Ok ("a x layered", f1)) /\
  last (PyStr.split "a x layered") = Some "layered" /\
  exists x f',
    load IPRN ∅ f "." (ShapeTuple [Some 1; Some 3]) true no_kwargs = Ok (x, f') /\
    layered x = false /\
    how x = Ok (Own (Some constant)).
Proof.
  cbv zeta. split; [eexists; vm_compute; reflexivity|].
  split; [vm_compute; reflexivity|].
  eexists _, _. split; [vm_compute; reflexivity|].
  split; vm_compute; reflexivity.
Qed.

(** C6, amended. When layered loading is requested, by the [layered]
    keyword argument or by a header line whose second token is LAYERED,
    for a shape whose first dimension is [L], [load] runs [_load]
    exactly [L] times, one after the other on the stream, each for the
    rest of the shape, and returns when all of them do. The array it
    returns is layered around the [L] arrays read, its own [_how],
    [_factor] and [_path] are [None], each layer is an array of the rest
    of the shape that is not layered, and [how] and [factor] answer with
    the list of the layers' own. *)
Theorem load_layered (iprn : string) (fs : gmap string string) (f f1 : stream)
    (cwd : string) (shape sh : shape_t) (header : bool) (kwargs : load_kwargs)
    (name : option string) (L : nat) (lshp : list (option nat)) :
  layered_requested header kwargs f name f1 ->
  resolve_shape shape kwargs = Ok sh ->
  sh = ShapeTuple (Some L :: lshp) ->
  (forall x f',
     load iprn fs f cwd shape header kwargs = Ok (x, f') <->
     exists layers,
       loads iprn fs cwd (ShapeTuple lshp) f1 layers f' /\
       List.length layers = L /\
       x = Layered (mk_attrs name sh sh None None None) layers) /\
  (forall x f',
     load iprn fs f cwd shape header kwargs = Ok (x, f') ->
     layered x = true /\
     _how (attrs_of x) = None /\ _factor (attrs_of x) = None /\
     _path (attrs_of x) = None /\
     exists layers,
       x = Layered (attrs_of x) layers /\
       List.length layers = L /\
       Forall (fun mfa => layered mfa = false /\
                          _shape (attrs_of mfa) = ShapeTuple lshp) layers /\
       how x = Ok (PerLayer (map (fun mfa => Own (_how (attrs_of mfa))) layers)) /\
       factor x = Ok (PerLayer (map (fun mfa => Own (factor_of (attrs_of mfa))) layers))).
Proof.
  intros Hreq Hres ->.
  assert (Hload : load iprn fs f cwd shape header kwargs =
                  '(objs, f') ← load_layers iprn fs L f1 cwd (ShapeTuple lshp);
                  Ok (Layered (mk_attrs name (ShapeTuple (Some L :: lshp))
                                 (ShapeTuple (Some L :: lshp)) None None None) objs, f')).
  { unfold load.
    destruct Hreq as [(-> & Hk & -> & ->)|(-> & line & n & tokens & Hl & Hs & -> & Hk)].
    - cbn [mbind result_bind bind]. rewrite Hres, Hk. reflexivity.
    - rewrite Hl. cbn [mbind result_bind bind]. rewrite Hs.
      cbn [token lookup list_lookup mbind result_bind bind].
      rewrite Hres.
      destruct Hk as [Hk|Hk].
      + rewrite Hk. destruct (_ && _); reflexivity.
      + destruct tokens as [|t tokens]; [discriminate|].
        injection Hk as ->. reflexivity. }
  assert (Hiff : forall x f',
     load iprn fs f cwd shape header kwargs = Ok (x, f') <->
     exists layers,
       loads iprn fs cwd (ShapeTuple lshp) f1 layers f' /\
       List.length layers = L /\
       x = Layered (mk_attrs name (ShapeTuple (Some L :: lshp))
                      (ShapeTuple (Some L :: lshp)) None None None) layers).
  { intros x f'. rewrite Hload. split.
    - intros H. inv_bind H. destruct a as [objs f2]. inversion H; subst.
      apply load_layers_Ok in E as [H1 H2]. eauto.
    - intros (layers & H1 & H2 & ->).
      rewrite (proj2 (load_layers_Ok iprn fs cwd _ L f1 layers f') (conj H1 H2)).
      reflexivity. }
  split; [exact Hiff|].
  intros x f' H. apply Hiff in H as (layers & H1 & H2 & ->).
  pose proof (loads_layers _ _ _ _ _ _ _ H1) as Hall.
  repeat split. exists layers. repeat split; [exact H2| | |].
  - eapply Forall_impl; [exact Hall|]. cbv beta. tauto.
  - cbn [how]. rewrite (mapM_Ok how (fun mfa => Own (_how (attrs_of mfa)))); [reflexivity|].
    eapply Forall_impl; [exact Hall|]. cbv beta. tauto.
  - cbn [factor].
    rewrite (mapM_Ok factor (fun mfa => Own (factor_of (attrs_of mfa)))); [reflexivity|].
    eapply Forall_impl; [exact Hall|]. cbv beta. tauto.
Qed.

Lemma load_layered_witness :
  let f := StringIO (text ["  A LAYERED"; "    CONSTANT 5.0";
                           "    INTERNAL FACTOR 2.0"; "      1.0 2.0 3.0"]) in
  exists x f',
    load IPRN ∅ f "." (ShapeTuple [Some 2; Some 3]) true no_kwargs = Ok (x, f') /\
    layered x = true /\
    _how (attrs_of x) = None /\ _factor (attrs_of x) = None /\
    how x = Ok (PerLayer [Own (Some constant); Own (Some internal)]) /\
    factor x = Ok (PerLayer [Own 1%float; Own 2%float]).
Proof.
  cbv zeta.
  set (f := StringIO (text ["  A LAYERED"; "    CONSTANT 5.0";
                           "    INTERNAL FACTOR 2.0"; "      1.0 2.0 3.0"])).
  assert (Hreq : layered_requested true no_kwargs f (Some "a") (mk_stream (content f) 1)).
  { right. split; [reflexivity|].
    exists "a layered", "a", ["layered"].
    split; [vm_compute; reflexivity|].
    split; [vm_compute; reflexivity|].
    split; [reflexivity|]. right. reflexivity. }
  destruct (load_layered IPRN ∅ f (mk_stream (content f) 1) "."
              (ShapeTuple [Some 2; Some 3]) (ShapeTuple [Some 2; Some 3]) true
              no_kwargs (Some "a") 2 [Some 3] Hreq eq_refl eq_refl) as [_ H].
  eexists _, _. split; [vm_compute; reflexivity|].
  specialize (H _ _ ltac:(vm_compute; reflexivity)).
  destruct H as (H1 & H2 & H3 & _ & _).
  split; [exact H1|]. split; [exact H2|]. split; [exact H3|].
  split; vm_compute; reflexivity.
Defined.

(** ** Shape resolution *)

(** C8, as stated, fails: with a dimensions block that gives [nlay],
    [nrow] and [ncol] and a memory path that has no [dis] component, the
    symbolic shape is not resolved and the array is built with it. *)
Lemma shape_unresolved_without_dis :
  let dimensions : gmap string nat := {[ "nlay" := 1; "nrow" := 2; "ncol" := 3 ]} in
  let kwargs := mk_kwargs false (Some "k") None {[ "dimensions" := dimensions ]}
                  (Some "sim/gwf/npf") in
  let f := StringIO (text ["    CONSTANT 5.0"]) in
  resolve_shape (ShapeStr "(nlay, nrow, ncol)") kwargs
    = Ok (ShapeStr "(nlay, nrow, ncol)") /\
  resolve_shape (ShapeStr "(nlay, nrow, ncol)") kwargs
    <> Ok (ShapeTuple [Some 1; Some 2; Some 3]) /\
  exists x f',
    load IPRN ∅ f "." (ShapeStr "(nlay, nrow, ncol)") false kwargs = Ok (x, f') /\
    _shape (attrs_of x) = ShapeStr "(nlay, nrow, ncol)".
Proof.
  cbv zeta. split; [vm_compute; reflexivity|].
  split; [vm_compute; discriminate|].
  eexists _, _. split; vm_compute; reflexivity.
Qed.

(** The array [load] returns is built with the resolved shape. *)
Lemma load_shape iprn fs f cwd shape0 header kwargs sh x f' :
  resolve_shape shape0 kwargs = Ok sh ->
  load iprn fs f cwd shape0 header kwargs = Ok (x, f') ->
  shape (attrs_of x) = sh /\ _shape (attrs_of x) = sh.
Proof.
  intros Hres H. unfold load in H.
  inv_bind H. destruct a as [[name lay] f1].
  rewrite Hres in H. cbn [mbind result_bind bind] in H.
  destruct lay.
  - destruct sh as [[|c s]|n|[|[nlay|] lshp]]; try discriminate.
    inv_bind H. destruct a as [objs f2]. inversion H; subst. split; reflexivity.
  - apply _load_Ok in H as (b & h & fa & p & ->). split; reflexivity.
Qed.

(** C8, amended. Given a symbolic shape, no model shape, a dimensions
    block and a memory path that has a [dis] component, the shape is
    resolved to [(nlay, nrow, ncol)] when [nrow] and [ncol] are both
    given and not 0, else to [(nlay, ncpl)] when [ncpl] is given and not
    0, else to [nodes] when it is given and not 0, and is left as it is
    otherwise; the array [load] returns is built with the resolved
    shape. *)
Theorem shape_resolution (iprn : string) (fs : gmap string string) (f : stream)
    (cwd s : string) (header : bool) (kwargs : load_kwargs)
    (dimensions : gmap string nat) (mempath : string) :
  truthy_tuple (kw_model_shape kwargs) = false ->
  kw_blk_params kwargs !! "dimensions" = Some dimensions ->
  kw_mempath kwargs = Some mempath ->
  PyStr.mem "dis" (PyStr.split_on "/" mempath) = true ->
  let nlay := dimensions !! "nlay" in
  let nrow := dimensions !! "nrow" in
  let ncol := dimensions !! "ncol" in
  let ncpl := dimensions !! "ncpl" in
  let nodes := dimensions !! "nodes" in
  exists resolved,
    resolve_shape (ShapeStr s) kwargs = Ok resolved /\
    (truthy_dim nrow = true -> truthy_dim ncol = true ->
     resolved = ShapeTuple [nlay; nrow; ncol]) /\
    (truthy_dim nrow && truthy_dim ncol = false -> truthy_dim ncpl = true ->
     resolved = ShapeTuple [nlay; ncpl]) /\
    (truthy_dim nrow && truthy_dim ncol = false -> truthy_dim ncpl = false ->
     forall n, nodes = Some (S n) -> resolved = ShapeInt (S n)) /\
    (truthy_dim nrow && truthy_dim ncol = false -> truthy_dim ncpl = false ->
     truthy_dim nodes = false -> resolved = ShapeStr s) /\
    (forall x f',
       load iprn fs f cwd (ShapeStr s) header kwargs = Ok (x, f') ->
       shape (attrs_of x) = resolved /\ _shape (attrs_of x) = resolved).
Proof.
  intros Hms Hdim Hmp Hdis nlay nrow ncol ncpl nodes.
  assert (Hres : resolve_shape (ShapeStr s) kwargs =
                 Ok (if truthy_dim nrow && truthy_dim ncol
                     then ShapeTuple [nlay; nrow; ncol]
                     else if truthy_dim ncpl then ShapeTuple [nlay; ncpl]
                     else if truthy_dim nodes then ShapeInt (default 0 nodes)
                     else ShapeStr s)).
  { unfold resolve_shape. rewrite Hms, Hdim, Hmp, Hdis.
    fold nlay nrow ncol ncpl nodes.
    destruct (truthy_dim nrow && truthy_dim ncol); [reflexivity|].
    destruct (truthy_dim ncpl); [reflexivity|].
    destruct (truthy_dim nodes); reflexivity. }
  eexists. split; [exact Hres|].
  split; [intros -> ->; reflexivity|].
  split; [intros -> ->; reflexivity|].
  split; [intros -> -> n ->; reflexivity|].
  split; [intros -> -> ->; reflexivity|].
  intros x f' H. exact (load_shape _ _ _ _ _ _ _ _ _ _ Hres H).
Qed.

Lemma shape_resolution_witness :
  let dimensions : gmap string nat := {[ "nlay" := 1; "nrow" := 2; "ncol" := 3; "ncpl" := 6 ]} in
  let kwargs := mk_kwargs false (Some "k") None {[ "dimensions" := dimensions ]}
                  (Some "sim/gwf/dis") in
  let f := StringIO (text ["    CONSTANT 5.0"]) in
  resolve_shape (ShapeStr "(nlay, nrow, ncol)") kwargs
    = Ok (ShapeTuple [Some 1; Some 2; Some 3]) /\
  exists x f',
    load IPRN ∅ f "." (ShapeStr "(nlay, nrow, ncol)") false kwargs = Ok (x, f') /\
    _shape (attrs_of x) = ShapeTuple [Some 1; Some 2; Some 3].
Proof.
  cbv zeta.
  set (dimensions := ({[ "nlay" := 1; "nrow" := 2; "ncol" := 3; "ncpl" := 6 ]}
                        : gmap string nat)).
  set (kwargs := mk_kwargs false (Some "k") None {[ "dimensions" := dimensions ]}
                   (Some "sim/gwf/dis")).
  set (f := StringIO (text ["    CONSTANT 5.0"])).
  destruct (shape_resolution IPRN ∅ f "." "(nlay, nrow, ncol)" false kwargs dimensions
              "sim/gwf/dis" eq_refl ltac:(vm_compute; reflexivity) eq_refl
              ltac:(vm_compute; reflexivity))
    as (resolved & Hres & H1 & _ & _ & _ & Hload).
  rewrite (H1 ltac:(vm_compute; reflexivity) ltac:(vm_compute; reflexivity)) in *.
  split; [exact Hres|].
  eexists _, _. split; [vm_compute; reflexivity|].
  exact (proj2 (Hload _ _ ltac:(vm_compute; reflexivity))).
Defined.

(** ** value, raw and factor *)

Lemma mapM_Forall2 {A B : Type} (f : A -> result B) (l : list A) (rs : list B) :
  mapM f l = Ok rs -> Forall2 (fun x r => f x = Ok r) l rs.
Proof.
  revert rs. induction l as [|x l IH]; intros rs H; simpl in H.
  - inversion H. constructor.
  - inv_bind H. fold (mapM f) in H. inv_bind H. inversion H; subst.
    constructor; [assumption|]. now apply IH.
Qed.

Lemma Forall2_mapM {A B : Type} (f : A -> result B) (l : list A) (rs : list B) :
  Forall2 (fun x r => f x = Ok r) l rs -> mapM f l = Ok rs.
Proof.
  induction 1 as [|x r l rs Hx Hl IH]; simpl; [reflexivity|].
  rewrite Hx. simpl. fold (mapM f). rewrite IH. reflexivity.
Qed.

Lemma option_all_Some {A : Type} (l : list (option A)) (r : list A) :
  option_all l = Some r <-> l = map Some r.
Proof.
  revert r. induction l as [|[x|] l IH]; intros r; simpl.
  - split; [intros [= <-]; reflexivity|]. destruct r; [reflexivity|discriminate].
  - destruct (option_all l) as [r'|] eqn:E; simpl.
    + split.
      * intros [= <-]. simpl. f_equal. now apply IH.
      * destruct r as [|y r]; [discriminate|]. intros [= -> H].
        apply IH in H. now injection H as ->.
    + split; [discriminate|].
      destruct r as [|y r]; [discriminate|]. intros [= -> H].
      apply IH in H. discriminate.
  - split; [discriminate|]. destruct r; discriminate.
Qed.

Lemma chunks_concat {A : Type} (sz : nat) (ds : list (list A)) :
  Forall (fun d => List.length d = sz) ds ->
  chunks sz (List.length ds) (List.concat ds) = ds.
Proof.
  induction 1 as [|d ds Hd Hds IH]; simpl; [reflexivity|].
  rewrite take_app_length' by (symmetry; exact Hd).
  rewrite drop_app_length' by (symmetry; exact Hd). now rewrite IH.
Qed.

Lemma chunks_lengths {A : Type} (sz n : nat) (l : list A) :
  List.length l = n * sz ->
  List.length (chunks sz n l) = n /\
  Forall (fun d => List.length d = sz) (chunks sz n l).
Proof.
  revert l. induction n as [|n IH]; intros l H; simpl.
  - split; [reflexivity|constructor].
  - destruct (IH (drop sz l)) as [H1 H2]; [rewrite length_drop; lia|].
    split; [now rewrite H1|]. constructor; [|exact H2].
    rewrite length_take. lia.
Qed.

Lemma length_concat_uniform {A : Type} (sz : nat) (ds : list (list A)) :
  Forall (fun d => List.length d = sz) ds ->
  List.length (List.concat ds) = List.length ds * sz.
Proof.
  induction 1 as [|d ds Hd Hds IH]; simpl; [reflexivity|].
  rewrite length_app, IH, Hd. reflexivity.
Qed.

Lemma prod_ones (k : nat) (s : list nat) : prod (repeat 1 k ++ s) = prod s.
Proof. induction k as [|k IH]; simpl; [reflexivity|]. unfold prod in *. simpl. lia. Qed.

Lemma prod_cons (n : nat) (s : list nat) : prod (n :: s) = n * prod s.
Proof. reflexivity. Qed.

Lemma stretch_length {A : Type} (vs : list nat) :
  forall (ts : list nat) (d d' : list A),
    List.length d = prod vs -> stretch vs ts d = Some d' -> List.length d' = prod ts.
Proof.
  induction vs as [|v vs IH]; intros [|t ts] d d' Hd H; simpl in H; try discriminate.
  - now injection H as <-.
  - rewrite prod_cons in *.
    destruct (v =? t)%nat eqn:Evt.
    + apply Nat.eqb_eq in Evt. subst t.
      destruct (option_all _) as [ds|] eqn:Eds; [|discriminate].
      injection H as <-.
      apply option_all_Some in Eds.
      destruct (chunks_lengths (prod vs) v d) as [Hn Hsz]; [lia|].
      assert (Hall : Forall (fun r => List.length r = prod ts) ds /\ List.length ds = v).
      { clear Hd. revert ds Eds Hn. generalize (chunks (prod vs) v d) Hsz. clear - IH.
        intros cs Hcs. revert v.
        induction Hcs as [|c cs Hc Hcs IHcs]; intros v [|r ds] E Hn;
          simpl in *; try discriminate.
        - split; [constructor|assumption].
        - injection E as E1 E2. subst v.
          destruct (IHcs _ ds E2 eq_refl) as [H1 H2].
          split; [|now rewrite H2]. constructor; [|exact H1].
          eapply IH; eassumption. }
      destruct Hall as [Hall Hlen].
      rewrite (length_concat_uniform _ _ Hall). now rewrite Hlen.
    + destruct (v =? 1)%nat eqn:Ev1; [|discriminate].
      apply Nat.eqb_eq in Ev1. subst v.
      destruct (stretch vs ts d) as [r|] eqn:Er; [|discriminate].
      injection H as <-.
      assert (Hr : List.length r = prod ts) by (eapply IH; [|exact Er]; lia).
      rewrite (length_concat_uniform (prod ts)).
      * now rewrite repeat_length.
      * apply Forall_forall. intros y Hy. apply list_elem_of_In, repeat_spec in Hy. now subst.
Qed.

Lemma broadcast_to_length {A : Type} (a : ndarray A) (ts : list nat) (d : list A) :
  List.length (data a) = prod (ashape a) ->
  broadcast_to a ts = Some d -> List.length d = prod ts.
Proof.
  unfold broadcast_to. intros Ha H.
  destruct (List.length (ashape a) <=? List.length ts)%nat; [|discriminate].
  eapply stretch_length; [|exact H]. now rewrite prod_ones.
Qed.

Lemma ones_wf (d : list nat) : wf_array (ones d).
Proof. unfold wf_array, ones. simpl. apply repeat_length. Qed.

Lemma scale_wf (a : ndarray float) (v : float) : wf_array a -> wf_array (scale a v).
Proof. unfold wf_array, scale. simpl. now rewrite length_map. Qed.

Lemma binop_wf f (a b r : ndarray float) :
  wf_array a -> wf_array b -> binop f a b = Ok r -> wf_array r.
Proof.
  unfold binop, wf_array. intros Ha Hb H.
  destruct (broadcast_shapes _ _) as [s|]; [|discriminate].
  destruct (broadcast_to a s) as [da|] eqn:Ea; [|discriminate].
  destruct (broadcast_to b s) as [db|] eqn:Eb; [|discriminate].
  injection H as <-. simpl.
  rewrite length_zip_with.
  rewrite (broadcast_to_length a s da Ha Ea), (broadcast_to_length b s db Hb Eb). lia.
Qed.

Lemma item_floats_all (vs : list (ndarray float)) :
  option_all (map item_floats (map float_item vs)) = Some (map data vs).
Proof. induction vs as [|v vs IH]; simpl; [reflexivity|]. now rewrite IH. Qed.

Lemma shapes_agree (s : list nat) (vs : list (ndarray float)) :
  forallb (fun i => shape_eqb (item_shape i) s) (map float_item vs) = true <->
  Forall (fun a => ashape a = s) vs.
Proof.
  induction vs as [|v vs IH]; simpl.
  - split; [constructor|reflexivity].
  - rewrite andb_true_iff, IH. unfold shape_eqb. rewrite bool_decide_eq_true.
    split; [intros [H1 H2]; now constructor|intros H; now inversion H].
Qed.

Lemma array_cons (v : ndarray float) (vs : list (ndarray float)) :
  array (map float_item (v :: vs)) =
    if forallb (fun i => shape_eqb (item_shape i) (ashape v)) (map float_item (v :: vs))
    then match option_all (map item_floats (map float_item (v :: vs))) with
         | Some ds =>
             Ok (FloatArray (mk_ndarray (List.concat ds)
                               (List.length (map float_item (v :: vs)) :: ashape v)))
         | None =>
             Ok (ObjectArray
                   (mk_ndarray (List.concat (map item_objects (map float_item (v :: vs))))
                      (List.length (map float_item (v :: vs)) :: ashape v)))
         end
    else Raise ValueError.
Proof. reflexivity. Qed.

(** [np.array] of a non-empty list of float arrays of one shape. *)
Lemma array_floats (s : list nat) (vs : list (ndarray float)) :
  vs <> [] -> Forall (fun a => ashape a = s) vs ->
  array (map float_item vs)
    = Ok (FloatArray (mk_ndarray (List.concat (map data vs)) (List.length vs :: s))).
Proof.
  intros Hne Hall. destruct vs as [|v vs]; [contradiction|].
  rewrite array_cons.
  assert (Hv : ashape v = s) by now inversion Hall. rewrite Hv.
  rewrite (proj2 (shapes_agree s (v :: vs)) Hall).
  rewrite item_floats_all. now rewrite length_map.
Qed.

Lemma stack_Ok (rs : list (ndarray float)) (r : ndarray float) :
  stack rs = Ok r ->
  (rs = [] /\ r = mk_ndarray [] [0]) \/
  (rs <> [] /\ exists s, Forall (fun a => ashape a = s) rs /\
     r = mk_ndarray (List.concat (map data rs)) (List.length rs :: s)).
Proof.
  unfold stack. fold float_item. intros H.
  destruct rs as [|v vs].
  - left. simpl in H. now injection H as <-.
  - right. split; [discriminate|]. exists (ashape v).
    rewrite array_cons in H.
    destruct (forallb _ _) eqn:E; [|discriminate].
    apply shapes_agree in E. split; [exact E|].
    rewrite item_floats_all in H. simpl in H. rewrite length_map in H.
    now injection H as <-.
Qed.

Lemma rows_stack (s : list nat) (rs : list (ndarray float)) :
  Forall (fun a => ashape a = s) rs -> Forall wf_array rs ->
  rows (mk_ndarray (List.concat (map data rs)) (List.length rs :: s)) = rs.
Proof.
  intros Hs Hwf. unfold rows. cbn [ashape data].
  rewrite <- (length_map data rs).
  rewrite chunks_concat.
  - rewrite map_map. clear Hwf.
    induction Hs as [|[d s'] rs Hr Hs IH]; simpl; [reflexivity|].
    simpl in Hr. subst s'. now rewrite IH.
  - apply Forall_map. apply Forall_forall. intros a Ha.
    rewrite Forall_forall in Hs, Hwf.
    unfold wf_array in Hwf. rewrite (Hwf a Ha), (Hs a Ha). reflexivity.
Qed.

(** What [raw] returns is a NumPy array. *)
Lemma raw_wf (x : MFArray) :
  forall r, well_formed x -> raw x = Ok r -> wf_array r.
Proof.
  induction x as [a l b|a ls IH] using MFArray_induction; intros r Hwf H.
  - inversion Hwf as [a' l' b' Hb|]; subst. destruct l; cbn [raw] in H.
    + unfold no_attribute in H. inv_bind H. destruct a0; [|discriminate].
      injection H as <-. reflexivity.
    + destruct (decide (_how a = Some constant)).
      * inv_bind H. unfold np_ones in E. destruct (dims_of _); [|discriminate].
        injection E as <-.
        destruct b as [|v|arr]; simpl in H; [discriminate| |].
        -- injection H as <-. apply scale_wf, ones_wf.
        -- eapply binop_wf; [apply ones_wf|apply Hb; reflexivity|exact H].
      * destruct b as [|v|arr]; simpl in H; try discriminate.
        destruct (dims_of _); [|discriminate].
        unfold reshape in H. destruct (_ =? _)%nat eqn:E; [|discriminate].
        injection H as <-. unfold wf_array. simpl. now apply Nat.eqb_eq.
  - inversion Hwf as [|a' ls' Hls]; subst. cbn [raw] in H.
    inv_bind H. rename a0 into rs. apply mapM_Forall2 in E.
    assert (Hrs : Forall wf_array rs).
    { clear H Hwf. revert IH Hls.
      induction E as [|x r0 ls rs Hx E IHE]; intros IH Hls; constructor.
      - apply Forall_cons in IH as [IH1 _]. apply Forall_cons in Hls as [Hl1 _].
        now apply IH1.
      - apply Forall_cons in IH as [_ IH2]. apply Forall_cons in Hls as [_ Hl2].
        now apply IHE. }
    apply stack_Ok in H as [[-> ->]|(Hne & s & Hs & ->)]; [reflexivity|].
    unfold wf_array. cbn [data ashape]. rewrite prod_cons.
    rewrite (length_concat_uniform (prod s)).
    + now rewrite length_map.
    + apply Forall_map. apply Forall_forall. intros y Hy.
      rewrite Forall_forall in Hs, Hrs.
      unfold wf_array in Hrs. rewrite (Hrs y Hy), (Hs y Hy). reflexivity.
Qed.

Lemma scale_by_shape (fs : per_layer float) (r : ndarray float) :
  ashape (scale_by fs r) = ashape r.
Proof. destruct fs; reflexivity. Qed.

Lemma after_values_same (n : nat) (x : MFArray) : after_values n x = x.
Proof. induction n as [|n IH]; simpl; [reflexivity|exact IH]. Qed.

Lemma value_scaled (x : MFArray) :
  forall r, well_formed x -> raw x = Ok r ->
  exists fs, factor x = Ok fs /\ value x = Ok (Some (FloatArray (scale_by fs r))) /\
             (forall a b, x = Flat a false b -> fs = Own (default 1%float (_factor a))).
Proof.
  induction x as [a l b|a ls IH] using MFArray_induction; intros r Hwf H.
  - destruct l; cbn [raw] in H.
    + (* the layered flag on a buffer: no item, empty arrays *)
      unfold no_attribute in H. inv_bind H.
      destruct a0 as [|i items]; [|discriminate]. injection H as <-.
      exists (PerLayer []). cbn [factor value]. unfold no_attribute. rewrite E.
      destruct b; [discriminate|..]; repeat split; intros; discriminate.
    + exists (Own (factor_of a)). cbn [factor scale_by]. split; [reflexivity|].
      split; [|intros a' b' [= <- <-]; unfold factor_of; now destruct (_factor a)].
      destruct b as [|v|arr].
      * (* no data: [raw] raises *)
        destruct (decide (_how a = Some constant)).
        -- inv_bind H. discriminate.
        -- discriminate.
      * cbn [value]. destruct (decide (_how a = Some constant)); [|discriminate].
        inv_bind H. rewrite E. cbn [mbind result_bind bind]. rewrite H. reflexivity.
      * cbn [value]. destruct (decide (_how a = Some constant)).
        -- inv_bind H. rewrite E. cbn [mbind result_bind bind]. rewrite H. reflexivity.
        -- rewrite H. reflexivity.
  - inversion Hwf as [|a' ls' Hls]; subst. cbn [raw] in H.
    inv_bind H. rename a0 into rs. apply mapM_Forall2 in E.
    assert (Hrs : Forall wf_array rs).
    { clear - E Hls. induction E as [|x r0 ls rs Hx E IHE]; constructor.
      - apply Forall_cons in Hls as [Hl1 _]. eapply raw_wf; eassumption.
      - apply Forall_cons in Hls as [_ Hl2]. now apply IHE. }
    (* the factors and the values of the layers *)
    assert (Hlayers : exists fss,
              Forall2 (fun x fs => factor x = Ok fs) ls fss /\
              Forall2 (fun x v => value x = Ok (float_item v)) ls
                (zip_with scale_by fss rs) /\
              List.length fss = List.length rs).
    { clear H Hwf Hrs. revert IH Hls.
      induction E as [|x r0 ls rs Hx E IHE]; intros IH Hls.
      - exists []. repeat split; constructor.
      - apply Forall_cons in IH as [IH1 IH2]. apply Forall_cons in Hls as [Hl1 Hl2].
        destruct (IHE IH2 Hl2) as (fss & F1 & F2 & F3).
        destruct (IH1 r0 Hl1 Hx) as (fs & G1 & G2 & _).
        exists (fs :: fss). repeat split; [constructor; assumption| |simpl; now rewrite F3].
        simpl. constructor; assumption. }
    destruct Hlayers as (fss & F1 & F2 & F3).
    exists (PerLayer fss). cbn [factor value].
    rewrite (Forall2_mapM _ _ _ F1). split; [reflexivity|].
    split; [|intros; discriminate].
    assert (F2' : mapM value ls = Ok (map float_item (zip_with scale_by fss rs))).
    { apply Forall2_mapM. clear - F2.
      induction F2; simpl; constructor; assumption. }
    rewrite F2'. cbn [mbind result_bind bind].
    apply stack_Ok in H as [[-> ->]|(Hne & s & Hs & ->)].
    + destruct fss; [|discriminate]. reflexivity.
    + rewrite (array_floats s).
      * cbn [mbind result_bind bind scale_by ashape]. do 3 f_equal.
        rewrite (rows_stack s rs Hs Hrs).
        rewrite length_zip_with, F3, Nat.min_id. f_equal.
        clear. revert rs. induction fss as [|fs fss IHf]; intros [|r0 rs]; simpl; try reflexivity.
        now rewrite IHf.
      * destruct rs; [contradiction|]. destruct fss; [discriminate|]. discriminate.
      * clear - Hs F3. revert rs Hs F3.
        induction fss as [|fs fss IHf]; intros [|r0 rs] Hs F3; simpl; try constructor.
        -- rewrite scale_by_shape. now apply Forall_cons in Hs as [? _].
        -- apply IHf; [now apply Forall_cons in Hs as [_ ?]|]. simpl in F3. lia.
Qed.

(** C3. On an array that holds data (every buffer being a NumPy array,
    and [raw] returning [r]), [value] returns [r] multiplied item by
    item by what [factor] returns: the one factor of an array that is
    not layered, 1.0 when [_factor] is [None], whichever of Internal,
    Constant and External it is, and the factors of the layers, row by
    row, of a layered one. Reading [value] leaves the object as it was:
    after any number of reads [raw] returns [r] again. *)
Theorem value_is_raw_times_factor (x : MFArray) (r : ndarray float) :
  well_formed x ->
  raw x = Ok r ->
  exists fs,
    factor x = Ok fs /\
    fst (value_call x) = Ok (Some (FloatArray (scale_by fs r))) /\
    (forall a b, x = Flat a false b -> fs = Own (default 1%float (_factor a))) /\
    (forall n, after_values n x = x /\ raw (after_values n x) = Ok r).
Proof.
  intros Hwf H. destruct (value_scaled x r Hwf H) as (fs & H1 & H2 & H3).
  exists fs. repeat split; try assumption.
  - apply after_values_same.
  - now rewrite after_values_same.
Qed.

Lemma value_is_raw_times_factor_witness :
  fst (value_call constant_5)
    = Ok (Some (FloatArray (mk_ndarray [10%float; 10%float; 10%float] [3]))) /\
  raw (after_values 2 constant_5) = Ok (mk_ndarray [5%float; 5%float; 5%float] [3]) /\
  fst (value_call layered_34)
    = Ok (Some (FloatArray (mk_ndarray [3%float; 4%float] [2; 1]))).
Proof.
  assert (W5 : well_formed constant_5) by (constructor; intros arr [=]).
  assert (W34 : well_formed layered_34).
  { constructor. repeat constructor.
    - intros arr [= <-]. reflexivity.
    - intros arr [=]. }
  destruct (value_is_raw_times_factor constant_5
              (mk_ndarray [5%float; 5%float; 5%float] [3]) W5 eq_refl)
    as (fs & H1 & H2 & H3 & H4).
  destruct (value_is_raw_times_factor layered_34
              (mk_ndarray [3%float; 4%float] [2; 1]) W34 eq_refl)
    as (fs' & H1' & H2' & _ & _).
  injection H1 as <-. injection H1' as <-.
  split; [exact H2|]. split; [exact (proj2 (H4 2))|exact H2'].
Defined.
(** ** The binary operators *)

Lemma binary_unfold (pow : float -> float -> float) (op : operator) (x : MFArray)
    (o : operand) :
  binary pow op x o = in_place pow op x o.
Proof.
  destruct op; simpl;
    [unfold __add__; now rewrite iadd_unfold
    |unfold __sub__; now rewrite isub_unfold
    |unfold __mul__; now rewrite imul_unfold
    |unfold __truediv__; now rewrite itruediv_unfold
    |reflexivity
    |reflexivity].
Qed.

Lemma forMi_all_attrs (f : nat -> MFArray -> result unit * MFArray) (ls : list MFArray) :
  Forall (fun x => forall i, all_attrs (snd (f i x)) = all_attrs x) ls ->
  forall n, flat_map all_attrs (snd (forMi f n ls)) = flat_map all_attrs ls.
Proof.
  induction 1 as [|x ls Hx Hls IH]; intros n; simpl; [reflexivity|].
  specialize (Hx n). destruct (f n x) as [r x']. simpl in Hx.
  destruct r; simpl.
  - specialize (IH (S n)). destruct (forMi f (S n) ls) as [r' ls']. simpl in *.
    now rewrite Hx, IH.
  - now rewrite Hx.
  - now rewrite Hx.
Qed.

Lemma inplace_all_attrs layer_op fl fn x o :
  (forall a ls, x = Layered a ls ->
     Forall (fun mfa => all_attrs (snd (layer_op mfa o)) = all_attrs mfa) ls) ->
  all_attrs (snd (inplace layer_op fl fn x o)) = all_attrs x.
Proof.
  intros H. unfold inplace. destruct x as [a [] b|a ls].
  - destruct (items_iop fl b o); reflexivity.
  - destruct (buffer_iop fn b o); reflexivity.
  - specialize (H a ls eq_refl). unfold forM.
    pose proof (forMi_all_attrs (fun _ mfa => layer_op mfa o) ls) as Hf.
    destruct (forMi _ 0 ls) as [r ls'] eqn:E. simpl.
    specialize (Hf ltac:(eapply Forall_impl; [exact H|]; cbv beta; auto) 0).
    rewrite E in Hf. simpl in Hf. now rewrite Hf.
Qed.

Lemma recursive_iop_all_attrs (op : MFArray -> operand -> result unit * MFArray) fl fn :
  (forall x o, op x o = inplace op fl fn x o) ->
  forall x o, all_attrs (snd (op x o)) = all_attrs x.
Proof.
  intros Hop x o. induction x as [a l b|a ls IH] using MFArray_induction.
  - rewrite Hop. apply inplace_all_attrs. intros ? ? [=].
  - rewrite Hop. apply inplace_all_attrs. intros a' ls' [= <- <-]. exact IH.
Qed.

Lemma in_place_all_attrs (pow : float -> float -> float) (op : operator) (x : MFArray)
    (o : operand) :
  all_attrs (snd (in_place pow op x o)) = all_attrs x.
Proof.
  pose proof (recursive_iop_all_attrs __itruediv__ _ _ itruediv_unfold) as Hdiv.
  destruct op; simpl.
  - apply (recursive_iop_all_attrs __iadd__ _ _ iadd_unfold).
  - apply (recursive_iop_all_attrs __isub__ _ _ isub_unfold).
  - apply (recursive_iop_all_attrs __imul__ _ _ imul_unfold).
  - apply Hdiv.
  - apply inplace_all_attrs. intros a ls _. apply Forall_forall. intros; apply Hdiv.
  - apply inplace_all_attrs. intros a ls _. apply Forall_forall. intros; apply Hdiv.
Qed.


Lemma forMi_mapM {B : Type} (q : MFArray -> result B)
    (f : nat -> MFArray -> result unit * MFArray) (ls : list MFArray) :
  Forall (fun x => forall i, q (snd (f i x)) = q x) ls ->
  forall n, mapM q (snd (forMi f n ls)) = mapM q ls.
Proof.
  induction 1 as [|x ls Hx Hls IH]; intros n; simpl; [reflexivity|].
  specialize (Hx n). destruct (f n x) as [r x']. simpl in Hx.
  destruct r; simpl.
  - specialize (IH (S n)). destruct (forMi f (S n) ls) as [r' ls']. simpl in *.
    fold (mapM q). now rewrite Hx, IH.
  - now rewrite Hx.
  - now rewrite Hx.
Qed.

Lemma length_rows (a : ndarray float) (n : nat) (s : list nat) :
  ashape a = n :: s -> List.length (rows a) = n.
Proof.
  unfold rows. intros ->. rewrite length_map.
  generalize (data a). induction n as [|n IH]; intros d; simpl; [reflexivity|].
  now rewrite IH.
Qed.

(** Whether the loop over a buffer has an item to fail on depends on the
    shape of the buffer alone once it has more than one axis. *)
Lemma items_iop_no_attribute {A : Type} fl b o b' (empty : A) :
  items_iop fl b o = Ok b' -> no_attribute b' empty = no_attribute b empty.
Proof.
  unfold items_iop. intros H. inv_bind H.
  destruct b as [|v|arr]; try (injection H as <-; reflexivity).
  destruct (ashape arr) as [|n [|m s]] eqn:Es; try (injection H as <-; reflexivity).
  inv_bind H. injection H as <-.
  unfold no_attribute, iter_buffer. cbn [ashape]. rewrite Es.
  cbn [mbind result_bind bind].
  pose proof (length_rows arr n (m :: s) Es) as H1.
  pose proof (length_rows (mk_ndarray (List.concat (map data a0)) (n :: m :: s)) n (m :: s)
                eq_refl) as H2.
  destruct (rows arr), (rows (mk_ndarray _ _)); simpl in *; try reflexivity; lia.
Qed.

Lemma inplace_query {A : Type} (q : MFArray -> result (per_layer A)) (get : attrs -> A)
    layer_op fl fn x o :
  (forall a b, q (Flat a true b) = no_attribute b (PerLayer [])) ->
  (forall a b, q (Flat a false b) = Ok (Own (get a))) ->
  (forall a ls, q (Layered a ls) = (l ← mapM q ls; Ok (PerLayer l))) ->
  (forall a ls, x = Layered a ls ->
     Forall (fun mfa => q (snd (layer_op mfa o)) = q mfa) ls) ->
  q (snd (inplace layer_op fl fn x o)) = q x.
Proof.
  intros Q1 Q2 Q3 H. unfold inplace. destruct x as [a [] b|a ls].
  - destruct (items_iop fl b o) eqn:E; try reflexivity.
    simpl. rewrite !Q1. eapply items_iop_no_attribute; eassumption.
  - destruct (buffer_iop fn b o); simpl; rewrite ?Q2; reflexivity.
  - specialize (H a ls eq_refl). unfold forM.
    pose proof (forMi_mapM q (fun _ mfa => layer_op mfa o) ls) as Hf.
    destruct (forMi _ 0 ls) as [r ls'] eqn:E. simpl.
    specialize (Hf ltac:(eapply Forall_impl; [exact H|]; cbv beta; auto) 0).
    rewrite E in Hf. simpl in Hf. now rewrite !Q3, Hf.
Qed.

Lemma in_place_query {A : Type} (q : MFArray -> result (per_layer A)) (get : attrs -> A)
    (pow : float -> float -> float) (op : operator) :
  (forall a b, q (Flat a true b) = no_attribute b (PerLayer [])) ->
  (forall a b, q (Flat a false b) = Ok (Own (get a))) ->
  (forall a ls, q (Layered a ls) = (l ← mapM q ls; Ok (PerLayer l))) ->
  forall x o, q (snd (in_place pow op x o)) = q x.
Proof.
  intros Q1 Q2 Q3.
  assert (Hrec : forall (f : MFArray -> operand -> result unit * MFArray) fl fn,
             (forall x o, f x o = inplace f fl fn x o) ->
             forall x o, q (snd (f x o)) = q x).
  { intros f fl fn Hf x o. induction x as [a l b|a ls IH] using MFArray_induction.
    - rewrite Hf. eapply inplace_query; eauto. intros ? ? [=].
    - rewrite Hf. eapply inplace_query; eauto. intros a' ls' [= <- <-]. exact IH. }
  pose proof (Hrec __itruediv__ _ _ itruediv_unfold) as Hdiv.
  intros x o. destruct op; simpl.
  - apply (Hrec __iadd__ _ _ iadd_unfold).
  - apply (Hrec __isub__ _ _ isub_unfold).
  - apply (Hrec __imul__ _ _ imul_unfold).
  - apply Hdiv.
  - eapply inplace_query; eauto. intros a ls _. apply Forall_forall. intros; apply Hdiv.
  - eapply inplace_query; eauto. intros a ls _. apply Forall_forall. intros; apply Hdiv.
Qed.

(** X2. Arithmetic changes numbers only: after any of the twelve
    operators, in-place or binary, whether the call returned or raised,
    the array and every layer it holds, at any depth, have the name,
    shape, [_how], [_factor] and [_path] they had before, and the [how]
    and [factor] properties answer as before. In particular a Constant
    array stays Constant and the factor is never folded into the stored
    numbers. *)
Theorem arithmetic_keeps_attributes (pow : float -> float -> float) (op : operator)
    (x : MFArray) (o : operand) :
  all_attrs (snd (in_place pow op x o)) = all_attrs x /\
  all_attrs (snd (binary pow op x o)) = all_attrs x /\
  how (snd (in_place pow op x o)) = how x /\
  factor (snd (in_place pow op x o)) = factor x.
Proof.
  split; [apply in_place_all_attrs|].
  split; [rewrite binary_unfold; apply in_place_all_attrs|].
  split.
  - apply (in_place_query how _how); intros; reflexivity.
  - apply (in_place_query factor factor_of); intros; reflexivity.
Qed.
(** ** The value setter *)

Lemma reshape_same (v : ndarray float) :
  wf_array v -> reshape v (ashape v) = Ok v.
Proof.
  unfold wf_array, reshape. intros ->. rewrite Nat.eqb_refl. now destruct v.
Qed.

Lemma option_all_map_Some {A : Type} (l : list A) : option_all (map Some l) = Some l.
Proof. now apply option_all_Some. Qed.

(** X3. The [value] setter stores what it is given as the raw numbers.
    On an array that is not layered nor Constant, built with a tuple
    shape, assigning an array [v] of that shape makes [raw] return [v]
    and [value] return [v] times the factor (so a read of [value] gives
    back what was assigned only under factor 1.0); an array of any other
    shape is refused with [ValueError] and [None] is ignored, the object
    staying as it was. An array built with an integer shape refuses
    every array, a tuple never being equal to an integer. *)
Theorem value_setter_stores_raw (a : attrs) (b : buffer) (v : ndarray float)
    (dims : list nat) :
  shape a = ShapeTuple (map Some dims) ->
  _shape a = shape a ->
  _how a <> Some constant ->
  wf_array v ->
  let x := Flat a false b in
  (ashape v = dims ->
     value_setter x (Some v) = (Ok tt, Flat a false (BArray v)) /\
     raw (snd (value_setter x (Some v))) = Ok v /\
     value (snd (value_setter x (Some v)))
       = Ok (Some (FloatArray (scale v (factor_of a))))) /\
  (ashape v <> dims -> value_setter x (Some v) = (Raise ValueError, x)) /\
  value_setter x None = (Ok tt, x) /\
  (forall a' l b' n, shape a' = ShapeInt n ->
     value_setter (Flat a' l b') (Some v) = (Raise ValueError, Flat a' l b')).
Proof.
  intros Hshape Hsame Hhow Hwf x. subst x.
  assert (Htest : shape_is_tuple (shape a) (ashape v) = bool_decide (dims = ashape v)).
  { rewrite Hshape. unfold shape_is_tuple. now rewrite option_all_map_Some. }
  assert (Hre : ashape v = dims -> np_reshape (BArray v) (_shape a) = Ok v).
  { intros <-. unfold np_reshape. rewrite Hsame, Hshape. cbn [dims_of].
    rewrite option_all_map_Some. now apply reshape_same. }
  split; [|split; [|split]].
  - intros Hv.
    assert (Hset : value_setter (Flat a false b) (Some v) = (Ok tt, Flat a false (BArray v))).
    { unfold value_setter. cbn [attrs_of layered]. rewrite Htest.
      now rewrite bool_decide_eq_true_2. }
    rewrite Hset. cbn [snd raw value].
    destruct (decide (_how a = Some constant)); [contradiction|].
    rewrite (Hre Hv). repeat split.
  - intros Hv. unfold value_setter. cbn [attrs_of layered]. rewrite Htest.
    now rewrite bool_decide_eq_false_2 by congruence.
  - reflexivity.
  - intros a' l b' n Hn. unfold value_setter. cbn [attrs_of]. now rewrite Hn.
Qed.

Lemma value_setter_stores_raw_witness :
  let x := MFArray_init (ShapeTuple [Some 3]) (BArray (mk_ndarray [7%float; 8%float; 9.5%float] [3]))
             (Some internal) (Some 2%float) (Some "a") None in
  let v := mk_ndarray [1%float; 2%float; 3%float] [3] in
  raw (snd (value_setter x (Some v))) = Ok v /\
  value (snd (value_setter x (Some v)))
    = Ok (Some (FloatArray (mk_ndarray [2%float; 4%float; 6%float] [3]))) /\
  value_setter x (Some (mk_ndarray [1%float; 2%float] [2])) = (Raise ValueError, x).
Proof.
  cbv zeta.
  pose proof (value_setter_stores_raw
                (mk_attrs (Some "a") (ShapeTuple [Some 3]) (ShapeTuple [Some 3])
                   (Some internal) (Some 2%float) None)
                (BArray (mk_ndarray [7%float; 8%float; 9.5%float] [3]))
                (mk_ndarray [1%float; 2%float; 3%float] [3]) [3]
                eq_refl eq_refl ltac:(discriminate) eq_refl) as (H1 & _).
  pose proof (value_setter_stores_raw
                (mk_attrs (Some "a") (ShapeTuple [Some 3]) (ShapeTuple [Some 3])
                   (Some internal) (Some 2%float) None)
                (BArray (mk_ndarray [7%float; 8%float; 9.5%float] [3]))
                (mk_ndarray [1%float; 2%float] [2]) [3]
                eq_refl eq_refl ltac:(discriminate) eq_refl) as (_ & H2 & _).
  destruct (H1 eq_refl) as (_ & Hr & Hv).
  split; [exact Hr|]. split; [exact Hv|]. apply H2. discriminate.
Defined.

(** X4. The [value] setter breaks a layered array. Given an array of the
    declared shape with at least one row, it replaces the sequence of
    layers by the array and leaves the [layered] flag set, after which
    [raw], [value], [factor], [how] and [write] all fail with
    [AttributeError], the loop over the layers finding numbers or rows
    where it expects arrays with attributes of their own. *)
Theorem value_setter_breaks_layered (x : MFArray) (v : ndarray float)
    (n : nat) (s dims : list nat) (nm : string) :
  layered x = true ->
  shape (attrs_of x) = ShapeTuple (map Some dims) ->
  name (attrs_of x) = Some nm ->
  ashape v = dims -> dims = S n :: s -> wf_array v ->
  let x' := snd (value_setter x (Some v)) in
  fst (value_setter x (Some v)) = Ok tt /\
  x' = Flat (attrs_of x) true (BArray v) /\
  raw x' = Raise AttributeError /\
  value x' = Raise AttributeError /\
  factor x' = Raise AttributeError /\
  how x' = Raise AttributeError /\
  snd (write x') = Raise AttributeError.
Proof.
  intros Hlay Hshape Hname Hv Hdims Hwf x'.
  assert (Hset : value_setter x (Some v) = (Ok tt, Flat (attrs_of x) true (BArray v))).
  { unfold value_setter. rewrite Hshape. unfold shape_is_tuple.
    rewrite option_all_map_Some. unfold shape_eqb.
    rewrite bool_decide_eq_true_2 by easy. now rewrite Hlay. }
  subst x'. rewrite Hset. cbn [fst snd].
  assert (Hno : forall (A : Type) (e : A), no_attribute (BArray v) e = Raise AttributeError).
  { intros A e. unfold no_attribute, iter_buffer. rewrite Hv, Hdims.
    destruct s as [|m s'].
    - unfold wf_array in Hwf. rewrite Hv, Hdims in Hwf.
      destruct (data v); [simpl in Hwf; unfold prod in Hwf; simpl in Hwf; lia|reflexivity].
    - pose proof (length_rows v (S n) (m :: s') ltac:(congruence)) as Hr.
      destruct (rows v); [discriminate|reflexivity]. }
  repeat split; cbn [raw value factor how write]; rewrite ?Hname, ?Hno; try reflexivity.
Qed.

Lemma value_setter_breaks_layered_witness :
  let x' := snd (value_setter layered_34 (Some (mk_ndarray [1%float; 2%float] [2; 1]))) in
  raw layered_34 = Ok (mk_ndarray [3%float; 4%float] [2; 1]) /\
  raw x' = Raise AttributeError /\ value x' = Raise AttributeError.
Proof.
  cbv zeta. split; [reflexivity|].
  pose proof (value_setter_breaks_layered layered_34 (mk_ndarray [1%float; 2%float] [2; 1])
                1 [1] [2; 1] "a" eq_refl eq_refl eq_refl eq_refl eq_refl eq_refl)
    as (_ & _ & H1 & H2 & _).
  split; assumption.
Defined.
(** ** Assignment and reading back *)






Lemma concat_chunks {A : Type} (sz n : nat) :
  forall l : list A, List.length l = n * sz -> List.concat (chunks sz n l) = l.
Proof.
  induction n as [|n IH]; intros l H; simpl.
  - destruct l; [reflexivity|discriminate].
  - rewrite IH by (rewrite length_drop; lia). apply take_drop.
Qed.















(** ** Iteration *)

(** X7. Iterating an array yields its raw numbers, the factor not
    applied, in storage order: the stored numbers themselves for an
    Internal or External array, as many as its shape says; [1.0 * c]
    once per cell for a Constant array holding the number [c]; and, for
    a layered array, the numbers of its layers, one layer after the
    other. *)
Theorem iter_yields_raw :
  (forall a b dims items,
     _how a <> Some constant -> dims_of (_shape a) = Some dims ->
     __iter__ (Flat a false b) = Ok items ->
     exists arr, b = BArray arr /\ items = data arr /\ List.length items = prod dims) /\
  (forall a c dims,
     _how a = Some constant -> dims_of (_shape a) = Some dims ->
     __iter__ (Flat a false (BScalar c))
       = Ok (repeat (PrimFloat.mul 1 c) (prod dims))) /\
  (forall a ls items,
     __iter__ (Layered a ls) = Ok items ->
     exists per_layer,
       Forall2 (fun mfa l => __iter__ mfa = Ok l) ls per_layer /\
       items = List.concat per_layer).
Proof.
  split; [|split].
  - intros a b dims items Hnc Hd H. unfold __iter__ in H. inv_bind H.
    cbn [raw] in E. destruct (decide (_how a = Some constant)); [contradiction|].
    unfold np_reshape in E. destruct b as [|v|arr]; try discriminate.
    rewrite Hd in E. unfold reshape in E.
    destruct (_ =? _)%nat eqn:El; [|discriminate].
    injection E as <-. injection H as <-. exists arr. cbn [ravel data].
    repeat split. now apply Nat.eqb_eq.
  - intros a c dims Hc Hd. unfold __iter__. cbn [raw].
    destruct (decide (_how a = Some constant)); [|contradiction].
    unfold np_ones. rewrite Hd. cbn [mbind result_bind bind times_value scale ones ravel data].
    f_equal. generalize (prod dims). intros n.
    induction n as [|n IH]; simpl; [reflexivity|]. now rewrite IH.
  - intros a ls items H. unfold __iter__ in H. inv_bind H. injection H as <-.
    cbn [raw] in E. inv_bind E. rename a1 into rs. apply mapM_Forall2 in E0.
    exists (map data rs). split.
    + clear E. induction E0 as [|x r ls rs Hx E0 IH]; simpl; constructor; [|exact IH].
      unfold __iter__. rewrite Hx. reflexivity.
    + apply stack_Ok in E as [[-> ->]|(_ & s & _ & ->)]; reflexivity.
Qed.

Lemma iter_yields_raw_witness :
  __iter__ constant_5 = Ok [5%float; 5%float; 5%float] /\
  exists per_layer,
    Forall2 (fun mfa l => __iter__ mfa = Ok l)
      [MFArray_init (ShapeTuple [Some 1]) (BArray (mk_ndarray [3%float] [1]))
         (Some internal) None None None;
       MFArray_init (ShapeTuple [Some 1]) (BScalar 4%float) (Some constant) None None None]
      per_layer /\
    [3%float; 4%float] = List.concat per_layer.
Proof.
  destruct iter_yields_raw as (_ & H2 & H3). split.
  - exact (H2 (attrs_of constant_5) 5%float [3] eq_refl eq_refl).
  - exact (H3 (attrs_of layered_34)
             [MFArray_init (ShapeTuple [Some 1]) (BArray (mk_ndarray [3%float] [1]))
                (Some internal) None None None;
              MFArray_init (ShapeTuple [Some 1]) (BScalar 4%float) (Some constant) None
                None None]
             [3%float; 4%float] eq_refl).
Defined.
(** ** Loading: what is read from the stream *)

Lemma multi_line_strip_from_blank (blanks rest : list string) :
  Forall (fun l => line_strip l = EmptyString) blanks ->
  forall n, multi_line_strip_from (blanks ++ rest)%list n
            = multi_line_strip_from rest (n + List.length blanks).
Proof.
  induction 1 as [|l blanks Hl Hb IH]; intros n; simpl.
  - now rewrite Nat.add_0_r.
  - rewrite Hl. simpl. rewrite IH. f_equal. lia.
Qed.

Lemma remaining_advance (f : stream) (k : nat) :
  remaining (mk_stream (content f) (pos f + k)) = drop k (remaining f).
Proof. unfold remaining. simpl. now rewrite drop_drop. Qed.

Lemma multi_line_strip_blank (f : stream) (blanks rest : list string) :
  remaining f = (blanks ++ rest)%list ->
  Forall (fun l => line_strip l = EmptyString) blanks ->
  multi_line_strip f =
    multi_line_strip (mk_stream (content f) (pos f + List.length blanks)).
Proof.
  intros Hrem Hb. unfold multi_line_strip.
  rewrite remaining_advance, Hrem, drop_app_length. cbn [pos content].
  now rewrite multi_line_strip_from_blank.
Qed.

(** X8. Blank lines and comment lines before a header or a control line
    do not count: [_load], and [load] reading a header, return from a
    stream what they return from the same stream advanced past such
    lines. When no other line is left they never return:
    [multi_line_strip] keeps reading the empty string the end of the
    stream gives. *)
Theorem blank_lines_are_skipped (iprn : string) (fs : gmap string string) (f : stream)
    (cwd : string) (sh : shape_t) (name : option string) (kwargs : load_kwargs)
    (blanks rest : list string) :
  remaining f = (blanks ++ rest)%list ->
  Forall (fun l => line_strip l = EmptyString) blanks ->
  let g := mk_stream (content f) (pos f + List.length blanks) in
  _load iprn fs f cwd sh name = _load iprn fs g cwd sh name /\
  load iprn fs f cwd sh true kwargs = load iprn fs g cwd sh true kwargs /\
  (rest = [] ->
   _load iprn fs f cwd sh name = Diverge /\
   load iprn fs f cwd sh true kwargs = Diverge).
Proof.
  intros Hrem Hb g.
  pose proof (multi_line_strip_blank f blanks rest Hrem Hb) as Hm. fold g in Hm.
  split; [|split].
  - unfold _load. now rewrite Hm.
  - unfold load. now rewrite Hm.
  - intros ->.
    assert (Hd : multi_line_strip f = Diverge).
    { rewrite Hm. unfold multi_line_strip, g.
      rewrite remaining_advance, Hrem, drop_app_length. reflexivity. }
    split; [unfold _load|unfold load]; now rewrite Hd.
Qed.

Lemma blank_lines_are_skipped_witness :
  let f := StringIO (text ["# head"; ""; "CONSTANT 5.0"]) in
  _load IPRN ∅ f "." (ShapeInt 3) None
    = _load IPRN ∅ (mk_stream (content f) 2) "." (ShapeInt 3) None /\
  _load IPRN ∅ (StringIO (text ["# head"; ""])) "." (ShapeInt 3) None = Diverge.
Proof.
  cbv zeta. split.
  - exact (proj1 (blank_lines_are_skipped IPRN ∅
             (StringIO (text ["# head"; ""; "CONSTANT 5.0"])) "." (ShapeInt 3)
             None no_kwargs
             [("# head" ++ PyStr.nl)%string; PyStr.nl]
             [("CONSTANT 5.0" ++ PyStr.nl)%string]
             eq_refl ltac:(repeat constructor))).
  - exact (proj1 (proj2 (proj2 (blank_lines_are_skipped IPRN ∅
             (StringIO (text ["# head"; ""])) "." (ShapeInt 3) None no_kwargs
             [("# head" ++ PyStr.nl)%string; PyStr.nl] [] eq_refl ltac:(repeat constructor)))
             eq_refl)).
Defined.
(** X9. A model shape settles a symbolic shape before the dimensions
    block is looked at: given a model shape that is not empty, the shape
    [(nodes)] is resolved to the product of the model shape, as one
    integer, and any other string to the model shape itself, whatever
    the block parameters and the memory path hold; a shape that is not a
    string is used as given. The array [load] returns is built with the
    resolved shape. *)
Theorem model_shape_resolution (iprn : string) (fs : gmap string string) (f : stream)
    (cwd s : string) (header : bool) (kwargs : load_kwargs) (ms : list nat) :
  kw_model_shape kwargs = Some ms -> ms <> [] ->
  let resolved :=
    if PyStr.eqb s "(nodes)" then ShapeInt (prod ms) else ShapeTuple (map Some ms) in
  resolve_shape (ShapeStr s) kwargs = Ok resolved /\
  (forall x f',
     load iprn fs f cwd (ShapeStr s) header kwargs = Ok (x, f') ->
     shape (attrs_of x) = resolved /\ _shape (attrs_of x) = resolved) /\
  (forall n, resolve_shape (ShapeInt n) kwargs = Ok (ShapeInt n)) /\
  (forall dims, resolve_shape (ShapeTuple dims) kwargs = Ok (ShapeTuple dims)).
Proof.
  intros Hms Hne resolved.
  assert (Hres : resolve_shape (ShapeStr s) kwargs = Ok resolved).
  { unfold resolve_shape. rewrite Hms. destruct ms as [|m ms']; [contradiction|].
    cbn [truthy_tuple default]. subst resolved. now destruct (PyStr.eqb s "(nodes)"). }
  split; [exact Hres|]. split; [|split; reflexivity].
  intros x f' H. exact (load_shape _ _ _ _ _ _ _ _ _ _ Hres H).
Qed.

Lemma model_shape_resolution_witness :
  let dimensions : gmap string nat := {[ "nlay" := 1; "nrow" := 2; "ncol" := 3 ]} in
  let kwargs := mk_kwargs false None (Some [4; 5]) {[ "dimensions" := dimensions ]}
                  (Some "sim/gwf/dis") in
  resolve_shape (ShapeStr "(nodes)") kwargs = Ok (ShapeInt 20) /\
  resolve_shape (ShapeStr "(nlay, nrow, ncol)") kwargs = Ok (ShapeTuple [Some 4; Some 5]).
Proof.
  cbv zeta. split.
  - exact (proj1 (model_shape_resolution IPRN ∅ (StringIO "") "." "(nodes)" true
             (mk_kwargs false None (Some [4; 5])
                {[ "dimensions" := ({[ "nlay" := 1; "nrow" := 2; "ncol" := 3 ]} : gmap string nat) ]}
                (Some "sim/gwf/dis")) [4; 5] eq_refl ltac:(discriminate))).
  - exact (proj1 (model_shape_resolution IPRN ∅ (StringIO "") "." "(nlay, nrow, ncol)" true
             (mk_kwargs false None (Some [4; 5])
                {[ "dimensions" := ({[ "nlay" := 1; "nrow" := 2; "ncol" := 3 ]} : gmap string nat) ]}
                (Some "sim/gwf/dis")) [4; 5] eq_refl ltac:(discriminate))).
Defined.

Lemma multi_line_strip_from_Ok (ls : list string) :
  forall (n : nat) (line : string) (m : nat),
    multi_line_strip_from ls n = Ok (line, m) ->
    exists blanks ctl rest,
      ls = (blanks ++ ctl :: rest)%list /\
      Forall (fun l => line_strip l = EmptyString) blanks /\
      line_strip ctl <> EmptyString /\
      line = PyStr.lower (line_strip ctl) /\
      m = n + List.length blanks + 1.
Proof.
  induction ls as [|l ls IH]; intros n line m H; simpl in H; [discriminate|].
  destruct (PyStr.is_empty (line_strip l)) eqn:E.
  - apply IH in H as (blanks & ctl & rest & -> & Hb & Hc & -> & ->).
    exists (l :: blanks), ctl, rest. repeat split; try assumption.
    + constructor; [|exact Hb]. now destruct (line_strip l).
    + simpl. lia.
  - injection H as <- <-. exists [], l, ls. repeat split.
    + constructor.
    + intros E'. rewrite E' in E. discriminate.
    + simpl. lia.
Qed.

Lemma multi_line_strip_Ok (f f1 : stream) (line : string) :
  multi_line_strip f = Ok (line, f1) ->
  exists blanks ctl rest,
    remaining f = (blanks ++ ctl :: rest)%list /\
    Forall (fun l => line_strip l = EmptyString) blanks /\
    line_strip ctl <> EmptyString /\
    line = PyStr.lower (line_strip ctl) /\
    content f1 = content f /\
    pos f1 = pos f + List.length blanks + 1 /\
    remaining f1 = rest.
Proof.
  unfold multi_line_strip. intros H. inv_bind H. destruct a as [l m].
  injection H as <- <-.
  apply multi_line_strip_from_Ok in E as (blanks & ctl & rest & Hrem & Hb & Hc & -> & ->).
  exists blanks, ctl, rest. repeat split; try assumption.
  unfold remaining in *. cbn [content pos].
  rewrite <- Nat.add_assoc, <- drop_drop, Hrem.
  rewrite drop_app_add'; reflexivity.
Qed.

Lemma read_array_stream (f : stream) :
  content (snd (read_array f)) = content f /\
  remaining (snd (read_array f)) = drop (numeric_prefix (remaining f)) (remaining f).
Proof.
  destruct (numeric_prefix_spec (remaining f)) as (Hle & _ & _).
  unfold read_array. rewrite read_array_loop_spec by lia. cbn [snd content].
  split; [reflexivity|]. apply remaining_advance.
Qed.

(** X10. What [_load] reads. When it returns, the stream holds, from
    where it stood, blank or comment lines, then the control line, then
    the rest; afterwards it stands right after the control line for a
    Constant or External array (the numbers of the latter are read from
    its own file) and, for an Internal array, after the longest run of
    numeric lines that follows the control line. The text of the stream
    is not changed, and the array is not layered and has the shape and
    the name given to the call. *)
Theorem _load_consumes (iprn : string) (fs : gmap string string) (f f' : stream)
    (cwd : string) (sh : shape_t) (nm : option string) (x : MFArray) :
  _load iprn fs f cwd sh nm = Ok (x, f') ->
  exists blanks ctl rest,
    remaining f = (blanks ++ ctl :: rest)%list /\
    Forall (fun l => line_strip l = EmptyString) blanks /\
    line_strip ctl <> EmptyString /\
    content f' = content f /\
    remaining f' =
      (if decide (_how (attrs_of x) = Some internal)
       then drop (numeric_prefix rest) rest else rest) /\
    layered x = false /\ shape (attrs_of x) = sh /\ name (attrs_of x) = nm.
Proof.
  intros H. unfold _load in H.
  inv_bind H. destruct a as [line f1].
  apply multi_line_strip_Ok in E
    as (blanks & ctl & rest & Hrem & Hb & Hc & _ & Hcont & _ & Hrest).
  exists blanks, ctl, rest.
  inv_bind H. inv_bind H. inv_bind H.
  destruct a1 as [[[array extpath] clpos] f2].
  inv_bind H. injection H as <- <-.
  split; [exact Hrem|]. split; [exact Hb|]. split; [exact Hc|].
  cbn [MFArray_init attrs_of _how layered shape name].
  destruct (from_string a0) as [[]|]; [| | |discriminate].
  - destruct (read_array f1) as [arr f3] eqn:Er. injection E1 as _ _ _ <-.
    pose proof (read_array_stream f1) as [R1 R2]. rewrite Er in R1, R2. cbn [snd] in R1, R2.
    rewrite decide_True by reflexivity.
    repeat split; [congruence|]. now rewrite R2, Hrest.
  - inv_bind E1. inv_bind E1. injection E1 as _ _ _ <-.
    rewrite decide_False by discriminate. repeat split; assumption.
  - inv_bind E1. destruct (fs !! path_join cwd a2); [|discriminate].
    destruct (read_array (StringIO s)). injection E1 as _ _ _ <-.
    rewrite decide_False by discriminate. repeat split; assumption.
Qed.

Lemma _load_consumes_witness :
  let f := StringIO (text ["# k"; "  INTERNAL FACTOR 2.0"; "  1.0 2.0"; " 3.0"; "END"; "4.0"]) in
  let x := MFArray_init (ShapeInt 3) (BArray (mk_ndarray [1%float; 2%float; 3%float] [3]))
             (Some internal) (Some 2%float) None None in
  let f' := mk_stream (content f) 4 in
  exists blanks ctl rest,
    remaining f = (blanks ++ ctl :: rest)%list /\
    Forall (fun l => line_strip l = EmptyString) blanks /\
    line_strip ctl <> EmptyString /\
    content f' = content f /\
    remaining f' =
      (if decide (_how (attrs_of x) = Some internal)
       then drop (numeric_prefix rest) rest else rest) /\
    layered x = false /\ shape (attrs_of x) = ShapeInt 3 /\ name (attrs_of x) = None.
Proof.
  cbv zeta.
  apply (_load_consumes IPRN ∅ _ _ "." (ShapeInt 3) None).
  vm_compute. reflexivity.
Defined.
(** ** The control line *)

Lemma _load_control (iprn : string) (fs : gmap string string) (f f1 : stream)
    (cwd : string) (sh : shape_t) (nm : option string)
    (line kw : string) (rest : list string) :
  multi_line_strip f = Ok (line, f1) ->
  drop_iprn iprn (PyStr.split line) = Ok (kw :: rest) ->
  (PyStr.upper kw = "CONSTANT" ->
   _load iprn fs f cwd sh nm =
     match rest with
     | [] => Raise IndexError
     | [v] =>
         c ← py_float v;
         Ok (MFArray_init sh (BScalar c) (Some constant) None nm None, f1)
     | [v; _] => _ ← py_float v; Raise IndexError
     | v :: _ :: t :: _ =>
         c ← py_float v; fct ← py_float t;
         Ok (MFArray_init sh (BScalar c) (Some constant) (Some fct) nm None, f1)
     end) /\
  (PyStr.upper kw = "INTERNAL" ->
   _load iprn fs f cwd sh nm =
     match rest with
     | [] | [_] =>
         Ok (MFArray_init sh (BArray (fst (read_array f1))) (Some internal) None nm None,
             snd (read_array f1))
     | _ :: t :: _ =>
         fct ← py_float t;
         Ok (MFArray_init sh (BArray (fst (read_array f1))) (Some internal) (Some fct) nm None,
             snd (read_array f1))
     end).
Proof.
  intros Hline Hdrop. split; intros Hkw.
  - apply (proj2 (from_string_Some kw constant)) in Hkw.
    unfold _load. rewrite Hline. cbn [mbind result_bind bind].
    rewrite Hdrop. cbn [mbind result_bind bind token lookup list_lookup].
    rewrite Hkw.
    destruct rest as [|v [|k [|t rest']]]; try reflexivity;
      change (token ?l 1) with (Ok v : result string);
      cbn [mbind result_bind bind]; destruct (py_float v); try reflexivity;
      cbn [mbind result_bind bind]; try reflexivity.
    match goal with
    | |- context [token ?l ?n] => change (token l n) with (Ok t : result string)
    end.
    cbn [mbind result_bind bind List.length Nat.ltb Nat.leb].
    destruct (py_float t); reflexivity.
  - apply (proj2 (from_string_Some kw internal)) in Hkw.
    unfold _load. rewrite Hline. cbn [mbind result_bind bind].
    rewrite Hdrop. cbn [mbind result_bind bind token lookup list_lookup].
    rewrite Hkw. destruct (read_array f1) as [arr f2].
    destruct rest as [|k [|t rest']]; try reflexivity.
    cbn [mbind result_bind bind].
    match goal with
    | |- context [token ?l ?n] => change (token l n) with (Ok t : result string)
    end.
    cbn [mbind result_bind bind List.length Nat.ltb Nat.leb fst snd].
    destruct (py_float t); reflexivity.
Qed.

(** X11. The grammar of a control line as [_load] reads it, the [iprn]
    pair removed. After CONSTANT the next token is the value; a factor
    is read only when the line has more than two tokens, and then from
    the token after the next one, which is never compared with FACTOR:
    [CONSTANT] alone and [CONSTANT 5.0 FACTOR] both raise [IndexError].
    After INTERNAL the factor is the third token when there is one,
    whatever the second, and INTERNAL followed by one token has no
    factor. Tokens beyond the factor are ignored. *)
Theorem control_line_grammar (iprn : string) (fs : gmap string string) (f f1 : stream)
    (cwd : string) (sh : shape_t) (nm : option string)
    (line kw : string) (rest : list string) :
  multi_line_strip f = Ok (line, f1) ->
  drop_iprn iprn (PyStr.split line) = Ok (kw :: rest) ->
  (PyStr.upper kw = "CONSTANT" ->
   _load iprn fs f cwd sh nm =
     match rest with
     | [] => Raise IndexError
     | [v] =>
         c ← py_float v;
         Ok (MFArray_init sh (BScalar c) (Some constant) None nm None, f1)
     | [v; _] => _ ← py_float v; Raise IndexError
     | v :: _ :: t :: _ =>
         c ← py_float v; fct ← py_float t;
         Ok (MFArray_init sh (BScalar c) (Some constant) (Some fct) nm None, f1)
     end) /\
  (PyStr.upper kw = "INTERNAL" ->
   _load iprn fs f cwd sh nm =
     match rest with
     | [] | [_] =>
         Ok (MFArray_init sh (BArray (fst (read_array f1))) (Some internal) None nm None,
             snd (read_array f1))
     | _ :: t :: _ =>
         fct ← py_float t;
         Ok (MFArray_init sh (BArray (fst (read_array f1))) (Some internal) (Some fct) nm None,
             snd (read_array f1))
     end).
Proof. exact (_load_control iprn fs f f1 cwd sh nm line kw rest). Qed.

Lemma control_line_grammar_witness :
  _load IPRN ∅ (StringIO (text ["  CONSTANT 5.0 FACTOR"])) "." (ShapeInt 3) None
    = Raise IndexError /\
  _load IPRN ∅ (StringIO (text ["  CONSTANT 5.0 TIMES 2.0 more"])) "." (ShapeInt 3) None
    = Ok (MFArray_init (ShapeInt 3) (BScalar 5%float) (Some constant) (Some 2%float) None None,
          mk_stream [("  CONSTANT 5.0 TIMES 2.0 more" ++ PyStr.nl)%string] 1).
Proof.
  split.
  - exact (proj1 (control_line_grammar IPRN ∅
             (StringIO (text ["  CONSTANT 5.0 FACTOR"]))
             (mk_stream [("  CONSTANT 5.0 FACTOR" ++ PyStr.nl)%string] 1)
             "." (ShapeInt 3) None "constant 5.0 factor" "constant" ["5.0"; "factor"]
             eq_refl eq_refl) eq_refl).
  - exact (proj1 (control_line_grammar IPRN ∅
             (StringIO (text ["  CONSTANT 5.0 TIMES 2.0 more"]))
             (mk_stream [("  CONSTANT 5.0 TIMES 2.0 more" ++ PyStr.nl)%string] 1)
             "." (ShapeInt 3) None "constant 5.0 times 2.0 more" "constant"
             ["5.0"; "times"; "2.0"; "more"]
             eq_refl eq_refl) eq_refl).
Defined.
(** ** Strings *)

Lemma append_cons (x : ascii) (a b : string) : String x a ++ b = String x (a ++ b).
Proof. reflexivity. Qed.

Lemma append_nil_l (a : string) : "" ++ a = a.
Proof. reflexivity. Qed.

Lemma append_assoc (a b c : string) : (a ++ b) ++ c = a ++ b ++ c.
Proof.
  induction a as [|x a IH]; [reflexivity|]. now rewrite !append_cons, IH.
Qed.

Lemma append_nil_r (a : string) : a ++ "" = a.
Proof. induction a as [|x a IH]; [reflexivity|]. now rewrite append_cons, IH. Qed.

Lemma is_empty_app (a b : string) :
  PyStr.is_empty (a ++ b) = PyStr.is_empty a && PyStr.is_empty b.
Proof. destruct a; reflexivity. Qed.

Lemma all_chars_app (p : ascii -> bool) (a b : string) :
  all_chars p (a ++ b) = all_chars p a && all_chars p b.
Proof.
  induction a as [|x a IH]; [reflexivity|].
  rewrite append_cons. simpl. rewrite IH. now rewrite andb_assoc.
Qed.

Lemma all_chars_impl (p q : ascii -> bool) (s : string) :
  (forall c, p c = true -> q c = true) -> all_chars p s = true -> all_chars q s = true.
Proof.
  intros Hpq. induction s as [|c s IH]; simpl; [reflexivity|].
  intros H. apply andb_true_iff in H as [H1 H2]. now rewrite (Hpq c H1), IH.
Qed.

Lemma all_chars_map (p : ascii -> bool) (f : ascii -> ascii) (s : string) :
  all_chars p (PyStr.map_chars f s) = all_chars (fun c => p (f c)) s.
Proof. induction s as [|c s IH]; simpl; [reflexivity|now rewrite IH]. Qed.

Lemma map_chars_id (f : ascii -> ascii) (s : string) :
  all_chars (fun c => Ascii.eqb (f c) c) s = true -> PyStr.map_chars f s = s.
Proof.
  induction s as [|c s IH]; simpl; [reflexivity|].
  intros H. apply andb_true_iff in H as [H1 H2].
  apply Ascii.eqb_eq in H1. now rewrite H1, IH.
Qed.

Lemma map_chars_app (f : ascii -> ascii) (a b : string) :
  PyStr.map_chars f (a ++ b) = PyStr.map_chars f a ++ PyStr.map_chars f b.
Proof.
  induction a as [|x a IH]; [reflexivity|].
  rewrite append_cons. simpl. now rewrite IH.
Qed.

Lemma rev_onto_app (s acc : string) : PyStr.rev_onto s acc = PyStr.rev s ++ acc.
Proof.
  unfold PyStr.rev. revert acc. induction s as [|c s IH]; intros acc; simpl; [reflexivity|].
  rewrite (IH (String c acc)), (IH (String c EmptyString)), append_assoc. reflexivity.
Qed.

Lemma rev_cons (c : ascii) (s : string) :
  PyStr.rev (String c s) = PyStr.rev s ++ String c EmptyString.
Proof. unfold PyStr.rev at 1. simpl. apply rev_onto_app. Qed.

Lemma rev_app (a b : string) : PyStr.rev (a ++ b) = PyStr.rev b ++ PyStr.rev a.
Proof.
  induction a as [|x a IH].
  - now rewrite append_nil_l, append_nil_r.
  - now rewrite append_cons, !rev_cons, IH, append_assoc.
Qed.

Lemma rev_involutive (s : string) : PyStr.rev (PyStr.rev s) = s.
Proof.
  induction s as [|c s IH]; [reflexivity|].
  rewrite rev_cons, rev_app, IH. reflexivity.
Qed.

Lemma all_chars_rev (p : ascii -> bool) (s : string) :
  all_chars p (PyStr.rev s) = all_chars p s.
Proof.
  induction s as [|c s IH]; [reflexivity|].
  rewrite rev_cons, all_chars_app, IH. simpl. rewrite andb_true_r. apply andb_comm.
Qed.

Lemma is_empty_rev (s : string) : PyStr.is_empty (PyStr.rev s) = PyStr.is_empty s.
Proof.
  destruct s as [|c s]; [reflexivity|].
  rewrite rev_cons, is_empty_app. simpl. apply andb_false_r.
Qed.

(** *** strip *)

Lemma starts_tight_app (a b : string) :
  starts_tight a = true -> starts_tight (a ++ b) = true.
Proof. destruct a; [discriminate|trivial]. Qed.

Lemma lstrip_spaces (pad s : string) :
  all_chars PyStr.is_space pad = true -> PyStr.lstrip (pad ++ s) = PyStr.lstrip s.
Proof.
  induction pad as [|c pad IH]; [reflexivity|]. rewrite append_cons. simpl.
  intros H. apply andb_true_iff in H as [H1 H2]. rewrite H1. now apply IH.
Qed.

Lemma lstrip_tight (s : string) : starts_tight s = true -> PyStr.lstrip s = s.
Proof.
  destruct s as [|c s]; [discriminate|]. simpl. intros H.
  now destruct (PyStr.is_space c).
Qed.

Lemma strip_core (pad w trail : string) :
  all_chars PyStr.is_space pad = true -> all_chars PyStr.is_space trail = true ->
  starts_tight w = true -> starts_tight (PyStr.rev w) = true ->
  PyStr.strip (pad ++ w ++ trail) = w.
Proof.
  intros Hp Ht Hw Hr. unfold PyStr.strip.
  rewrite (lstrip_spaces pad) by assumption.
  rewrite (lstrip_tight (w ++ trail)) by now apply starts_tight_app.
  rewrite rev_app, (lstrip_spaces (PyStr.rev trail)) by now rewrite all_chars_rev.
  rewrite (lstrip_tight (PyStr.rev w)) by assumption. apply rev_involutive.
Qed.

(** *** Words and lines of words *)

Lemma word_tight (w : string) :
  word w = true -> starts_tight w = true /\ starts_tight (PyStr.rev w) = true.
Proof.
  assert (H : forall s, word s = true -> starts_tight s = true).
  { intros [|c s]; [discriminate|]. unfold word, plain. simpl. intros H.
    apply andb_true_iff in H as [H _].
    repeat (apply andb_true_iff in H as [H _]). exact H. }
  intros Hw. split; [now apply H|]. apply H.
  unfold word in *. now rewrite is_empty_rev, all_chars_rev.
Qed.

Lemma join_cons2 (sep x y : string) (l : list string) :
  PyStr.join sep (x :: y :: l) = x ++ sep ++ PyStr.join sep (y :: l).
Proof. reflexivity. Qed.

Lemma join_tight (ws : list string) :
  ws <> [] -> Forall (fun w => word w = true) ws ->
  starts_tight (PyStr.join " " ws) = true /\
  starts_tight (PyStr.rev (PyStr.join " " ws)) = true.
Proof.
  intros Hne Hall. induction Hall as [|w ws Hw Hall IH]; [contradiction|].
  destruct (word_tight w Hw) as [H1 H2].
  destruct ws as [|w2 ws]; [simpl; now split|].
  rewrite join_cons2. split; [now apply starts_tight_app|].
  rewrite !rev_app. rewrite append_assoc.
  apply starts_tight_app. apply IH. discriminate.
Qed.

Lemma all_chars_join (p : ascii -> bool) (sep : string) (ws : list string) :
  all_chars p sep = true -> Forall (fun w => all_chars p w = true) ws ->
  all_chars p (PyStr.join sep ws) = true.
Proof.
  intros Hs Hall. induction Hall as [|w ws Hw Hall IH]; [reflexivity|].
  destruct ws as [|w2 ws]; [exact Hw|].
  rewrite join_cons2, !all_chars_app, Hw, Hs, IH. reflexivity.
Qed.

Lemma before_absent (x : ascii) (sep s : string) :
  all_chars (fun c => negb (Ascii.eqb c x)) s = true ->
  PyStr.before (String x sep) s = s.
Proof.
  induction s as [|c s IH]; simpl; [reflexivity|].
  intros H. apply andb_true_iff in H as [H1 H2].
  rewrite Ascii.eqb_sym. apply negb_true_iff in H1. rewrite H1. now rewrite IH.
Qed.

Lemma replace_absent (x y : ascii) (s : string) :
  all_chars (fun c => negb (Ascii.eqb c x)) s = true -> PyStr.replace_char x y s = s.
Proof.
  intros H. unfold PyStr.replace_char. apply map_chars_id.
  eapply all_chars_impl; [|exact H]. intros c Hc. cbv beta in *.
  apply negb_true_iff in Hc. rewrite Hc. apply Ascii.eqb_refl.
Qed.

Lemma line_char_quiet (x : ascii) :
  x = ";"%char \/ x = "#"%char \/ x = "!"%char ->
  forall c, line_char c = true -> negb (Ascii.eqb c x) = true.
Proof.
  intros Hx c. unfold line_char, plain.
  destruct (Ascii.eqb_spec c x) as [->|N]; [|reflexivity].
  destruct Hx as [->|[->| ->]]; vm_compute; intros H; exact H.
Qed.

(** [line_strip] of a line [write] produces, padding and newline
    around words separated by one space, is the words so separated. *)
Lemma line_strip_words (pad : string) (ws : list string) :
  all_chars PyStr.is_space pad = true ->
  ws <> [] -> Forall (fun w => word w = true) ws ->
  line_strip (pad ++ PyStr.join " " ws ++ PyStr.nl) = PyStr.join " " ws.
Proof.
  intros Hpad Hne Hws.
  assert (Hplain : all_chars line_char (PyStr.join " " ws) = true).
  { apply all_chars_join; [reflexivity|].
    eapply Forall_impl; [exact Hws|]. intros w Hw. cbv beta in *.
    unfold word in Hw. apply andb_true_iff in Hw as [_ Hw].
    eapply all_chars_impl; [|exact Hw]. intros c Hc. unfold line_char. now rewrite Hc. }
  assert (Hline : all_chars line_char (pad ++ PyStr.join " " ws ++ PyStr.nl) = true).
  { rewrite !all_chars_app, Hplain.
    rewrite (all_chars_impl PyStr.is_space line_char pad); [reflexivity| |exact Hpad].
    intros c Hc. unfold line_char. rewrite Hc. apply orb_true_r. }
  unfold line_strip.
  rewrite (before_absent ";") by
    (eapply all_chars_impl; [apply (line_char_quiet ";"); auto|exact Hline]).
  rewrite (before_absent "#") by
    (eapply all_chars_impl; [apply (line_char_quiet "#"); auto|exact Hline]).
  rewrite (before_absent "!") by
    (eapply all_chars_impl; [apply (line_char_quiet "!"); auto|exact Hline]).
  destruct (join_tight ws Hne Hws) as [T1 T2].
  rewrite strip_core by (try assumption; reflexivity).
  apply replace_absent.
  apply all_chars_join; [reflexivity|].
  eapply Forall_impl; [exact Hws|]. intros w Hw. cbv beta in *.
  unfold word in Hw. apply andb_true_iff in Hw as [_ Hw].
  eapply all_chars_impl; [|exact Hw]. intros c Hc. unfold plain in Hc.
  repeat (apply andb_true_iff in Hc as [Hc ?]). assumption.
Qed.
(** *** split *)

Lemma split_go_word (w : string) :
  forall cur rest : string,
    all_chars (fun c => negb (PyStr.is_space c)) w = true ->
    PyStr.split_go cur (w ++ rest) = PyStr.split_go (PyStr.rev_onto w cur) rest.
Proof.
  induction w as [|c w IH]; intros cur rest H; [reflexivity|].
  simpl in H. apply andb_true_iff in H as [H1 H2]. apply negb_true_iff in H1.
  rewrite append_cons. simpl. rewrite H1. now apply IH.
Qed.

Lemma word_no_space (w : string) :
  word w = true -> all_chars (fun c => negb (PyStr.is_space c)) w = true.
Proof.
  unfold word. intros H. apply andb_true_iff in H as [_ H].
  eapply all_chars_impl; [|exact H]. intros c Hc. unfold plain in Hc.
  repeat (apply andb_true_iff in Hc as [Hc _]). exact Hc.
Qed.

Lemma word_nonempty (w : string) : word w = true -> PyStr.is_empty w = false.
Proof. unfold word. intros H. apply andb_true_iff in H as [H _]. now apply negb_true_iff. Qed.

Lemma split_go_space (cur rest : string) :
  PyStr.is_empty cur = false ->
  PyStr.split_go cur (String " " rest) = PyStr.rev cur :: PyStr.split_go "" rest.
Proof. intros H. simpl. now rewrite H. Qed.

Lemma split_go_end (cur : string) :
  PyStr.is_empty cur = false -> PyStr.split_go cur "" = [PyStr.rev cur].
Proof. intros H. simpl. now rewrite H. Qed.

(** [split] undoes [" ".join] on words. *)
Lemma split_join (ws : list string) :
  Forall (fun w => word w = true) ws -> PyStr.split (PyStr.join " " ws) = ws.
Proof.
  unfold PyStr.split. induction 1 as [|w ws Hw Hall IH]; [reflexivity|].
  pose proof (word_no_space w Hw) as Hns. pose proof (word_nonempty w Hw) as Hne.
  assert (Hcur : PyStr.is_empty (PyStr.rev_onto w "") = false).
  { change (PyStr.rev_onto w "") with (PyStr.rev w). now rewrite is_empty_rev. }
  destruct ws as [|w2 ws].
  - change (PyStr.join " " [w]) with w. rewrite <- (append_nil_r w) at 1.
    rewrite split_go_word, split_go_end by assumption.
    change (PyStr.rev_onto w "") with (PyStr.rev w). now rewrite rev_involutive.
  - rewrite join_cons2, split_go_word by assumption.
    change (" " ++ PyStr.join " " (w2 :: ws))
      with (String " " (PyStr.join " " (w2 :: ws))).
    rewrite split_go_space by assumption.
    change (PyStr.rev_onto w "") with (PyStr.rev w). now rewrite rev_involutive, IH.
Qed.

(** *** Case *)

Lemma lower_join (ws : list string) :
  PyStr.lower (PyStr.join " " ws) = PyStr.join " " (map PyStr.lower ws).
Proof.
  unfold PyStr.lower. induction ws as [|w ws IH]; [reflexivity|].
  destruct ws as [|w2 ws]; [reflexivity|].
  change (map (PyStr.map_chars PyStr.lower_char) (w :: w2 :: ws))
    with (PyStr.map_chars PyStr.lower_char w
          :: map (PyStr.map_chars PyStr.lower_char) (w2 :: ws)).
  rewrite join_cons2, !map_chars_app, IH. reflexivity.
Qed.

Lemma plain_lower (c : ascii) : plain (PyStr.lower_char c) = plain c.
Proof. destruct c as [[] [] [] [] [] [] [] []]; reflexivity. Qed.

Lemma plain_upper (c : ascii) : plain (PyStr.upper_char c) = plain c.
Proof. destruct c as [[] [] [] [] [] [] [] []]; reflexivity. Qed.

Lemma word_map_chars (f : ascii -> ascii) (s : string) :
  (forall c, plain (f c) = plain c) -> word (PyStr.map_chars f s) = word s.
Proof.
  intros Hf. unfold word. rewrite all_chars_map. f_equal.
  - now destruct s.
  - induction s as [|c s IH]; simpl; [reflexivity|]. now rewrite Hf, IH.
Qed.

Lemma word_case (s : string) :
  word s = true -> word (PyStr.upper s) = true /\ word (PyStr.lower (PyStr.upper s)) = true.
Proof.
  intros Hw. unfold PyStr.upper, PyStr.lower.
  rewrite (word_map_chars PyStr.lower_char _ plain_lower).
  rewrite (word_map_chars PyStr.upper_char _ plain_upper). now split.
Qed.

(** *** Lines *)

Lemma lines_go_line (l : string) :
  forall cur rest : string,
    all_chars not_newline l = true ->
    PyStr.lines_go cur (l ++ PyStr.nl ++ rest)
      = (PyStr.rev cur ++ l ++ PyStr.nl) :: PyStr.lines_go "" rest.
Proof.
  induction l as [|c l IH]; intros cur rest H.
  - rewrite !append_nil_l. unfold PyStr.nl. rewrite append_cons, append_nil_l.
    simpl. now rewrite rev_cons.
  - simpl in H. apply andb_true_iff in H as [H1 H2].
    unfold not_newline in H1. apply negb_true_iff in H1.
    rewrite append_cons. simpl. rewrite H1, IH by assumption.
    now rewrite rev_cons, append_assoc.
Qed.

(** The lines of a text made of lines that each end in a newline. *)
Lemma lines_text (ls : list string) (rest : string) :
  Forall (fun l => all_chars not_newline l = true) ls ->
  PyStr.lines (PyStr.concat (map (fun l => l ++ PyStr.nl) ls) ++ rest)
    = (map (fun l => (l ++ PyStr.nl)%string) ls ++ PyStr.lines rest)%list.
Proof.
  unfold PyStr.lines. induction 1 as [|l ls Hl Hall IH]; [reflexivity|].
  simpl. rewrite !append_assoc, lines_go_line by assumption.
  rewrite IH. reflexivity.
Qed.

Lemma line_char_not_newline_words (pad : string) (ws : list string) :
  all_chars (fun c => Ascii.eqb c " ") pad = true ->
  Forall (fun w => word w = true) ws ->
  all_chars not_newline (pad ++ PyStr.join " " ws) = true.
Proof.
  intros Hp Hws. rewrite all_chars_app. apply andb_true_iff. split.
  - eapply all_chars_impl; [|exact Hp]. intros c Hc. cbv beta in Hc.
    apply Ascii.eqb_eq in Hc. now subst.
  - apply all_chars_join; [reflexivity|].
    eapply Forall_impl; [exact Hws|]. intros w Hw. cbv beta in *.
    eapply all_chars_impl; [|exact (word_no_space w Hw)].
    intros c Hc. cbv beta in Hc. unfold not_newline.
    destruct (Ascii.eqb_spec c (ascii_of_nat 10)) as [->|]; [discriminate|reflexivity].
Qed.

(** *** The numeric pattern *)

Lemma numeric_tail_spec (s : string) :
  all_chars not_newline s = true -> numeric_tail s = all_chars numeric_char s.
Proof.
  induction s as [|c s IH]; simpl; [reflexivity|].
  intros H. apply andb_true_iff in H as [H1 H2].
  unfold not_newline in H1. apply negb_true_iff in H1.
  rewrite IH by assumption. rewrite H1. now destruct (numeric_char c).
Qed.

Lemma numeric_only_spec (s : string) :
  all_chars not_newline s = true ->
  numeric_only s = negb (PyStr.is_empty s) && all_chars numeric_char s.
Proof.
  destruct s as [|c s]; [reflexivity|]. simpl. intros H.
  apply andb_true_iff in H as [_ H]. now rewrite numeric_tail_spec.
Qed.
(** *** The text of a float *)

Lemma digit_char (k : nat) : k < 10 -> PyStr.is_digit (ascii_of_nat (48 + k)) = true.
Proof. intros H. do 10 (destruct k as [|k]; [reflexivity|]). lia. Qed.

Lemma digits_of_unfold (fuel : nat) (n : Z) (acc : string) :
  PyFloat.digits_of (S fuel) n acc =
    let acc' := String (ascii_of_nat (48 + Z.to_nat (n mod 10))) acc in
    if (n <? 10)%Z then acc' else PyFloat.digits_of fuel (n / 10) acc'.
Proof. reflexivity. Qed.

Lemma digits_of_chars (fuel : nat) :
  forall (n : Z) (acc : string),
    all_chars PyStr.is_digit acc = true ->
    all_chars PyStr.is_digit (PyFloat.digits_of fuel n acc) = true /\
    (PyStr.is_empty acc = false -> PyStr.is_empty (PyFloat.digits_of fuel n acc) = false).
Proof.
  induction fuel as [|fuel IH]; intros n acc Hacc; [now split|].
  rewrite digits_of_unfold. cbv zeta.
  assert (Hd : PyStr.is_digit (ascii_of_nat (48 + Z.to_nat (n mod 10))) = true).
  { apply digit_char. pose proof (Z.mod_pos_bound n 10 ltac:(lia)). lia. }
  generalize dependent (ascii_of_nat (48 + Z.to_nat (n mod 10))). intros ch Hd.
  assert (Hacc' : all_chars PyStr.is_digit (String ch acc) = true).
  { cbn [all_chars]. now rewrite Hd, Hacc. }
  destruct (n <? 10)%Z.
  - split; [exact Hacc'|reflexivity].
  - destruct (IH (n / 10)%Z (String ch acc) Hacc') as [H1 H2].
    split; [exact H1|]. intros _. now apply H2.
Qed.

Lemma str_of_Z_chars (n : Z) :
  all_chars PyStr.is_digit (PyFloat.str_of_Z n) = true /\
  PyStr.is_empty (PyFloat.str_of_Z n) = false.
Proof.
  unfold PyFloat.str_of_Z. rewrite digits_of_unfold. cbv zeta.
  assert (Hd : PyStr.is_digit (ascii_of_nat (48 + Z.to_nat (n mod 10))) = true).
  { apply digit_char. pose proof (Z.mod_pos_bound n 10 ltac:(lia)). lia. }
  generalize dependent (ascii_of_nat (48 + Z.to_nat (n mod 10))). intros ch Hd.
  assert (Hacc' : all_chars PyStr.is_digit (String ch "") = true).
  { cbn [all_chars]. now rewrite Hd. }
  destruct (n <? 10)%Z.
  - split; [exact Hacc'|reflexivity].
  - destruct (digits_of_chars (Z.to_nat (Z.log2 n)) (n / 10)%Z (String ch "") Hacc')
      as [H1 H2].
    split; [exact H1|]. now apply H2.
Qed.

Lemma all_chars_substring (p : ascii -> bool) (s : string) :
  forall n m, all_chars p s = true -> all_chars p (String.substring n m s) = true.
Proof.
  induction s as [|c s IH]; intros n m H.
  - destruct n, m; reflexivity.
  - simpl in H. apply andb_true_iff in H as [H1 H2].
    destruct n as [|n].
    + destruct m as [|m]; [reflexivity|]. simpl. rewrite H1. now apply IH.
    + simpl. now apply IH.
Qed.

Lemma all_chars_repeat (p : ascii -> bool) (s : string) (n : nat) :
  all_chars p s = true -> all_chars p (PyStr.repeat_str s n) = true.
Proof.
  intros H. induction n as [|n IH]; [reflexivity|].
  simpl. now rewrite all_chars_app, H, IH.
Qed.

Lemma digit_float_char (s : string) :
  all_chars PyStr.is_digit s = true -> all_chars float_char s = true.
Proof.
  apply all_chars_impl. intros c Hc. unfold float_char. now rewrite Hc.
Qed.

Lemma layout_chars (ds : string) (decpt : Z) :
  all_chars PyStr.is_digit ds = true ->
  all_chars float_char (PyFloat.layout ds decpt) = true /\
  PyStr.is_empty (PyFloat.layout ds decpt) = false.
Proof.
  intros Hds. pose proof (digit_float_char ds Hds) as Hf.
  unfold PyFloat.layout.
  destruct ((decpt <? -3)%Z || (16 <? decpt)%Z).
  - destruct (str_of_Z_chars (Z.abs (decpt - 1))) as [Hz _].
    assert (Hp : all_chars float_char (PyFloat.pad2 (PyFloat.str_of_Z (Z.abs (decpt - 1)))) = true).
    { apply digit_float_char in Hz. unfold PyFloat.pad2.
      destruct (PyFloat.str_of_Z _) as [|c [|c' t]]; assumption. }
    assert (Hm : all_chars float_char
                   match ds with
                   | String c "" => ds
                   | String c tl => String c ("." ++ tl)
                   | "" => ds
                   end = true).
    { destruct ds as [|c [|c' t]]; assumption. }
    rewrite !all_chars_app, Hm, Hp, !is_empty_app.
    split; [now destruct (decpt - 1 <? 0)%Z|]. apply andb_false_r.
  - destruct (decpt <=? 0)%Z.
    + rewrite !all_chars_app, Hf, all_chars_repeat by reflexivity. now split.
    + destruct (Z.of_nat (String.length ds) <=? decpt)%Z.
      * rewrite !all_chars_app, Hf, all_chars_repeat, !is_empty_app by reflexivity.
        split; [reflexivity|]. rewrite andb_false_r. apply andb_false_r.
      * rewrite !all_chars_app, !all_chars_substring, !is_empty_app by assumption.
        split; [reflexivity|]. apply andb_false_r.
Qed.

(** [str] of a float is made of digits, the point, the sign, the [e] of
    an exponent and the letters of [inf] and [nan], and has at least one
    of them. *)
Lemma to_string_chars (x : float) :
  all_chars float_char (PyFloat.to_string x) = true /\
  PyStr.is_empty (PyFloat.to_string x) = false.
Proof.
  unfold PyFloat.to_string.
  destruct (Prim2SF x) as [s|s| |s m e]; try (destruct s; now split); [now split|].
  destruct (if (0 <=? e)%Z then _ else _) as [p q].
  destruct (PyFloat.shortest 16 (abs x) p q 1) as [[d k] n].
  destruct (str_of_Z_chars d) as [Hd _].
  destruct (layout_chars (PyFloat.str_of_Z d) (k + 1) Hd) as [H1 H2].
  rewrite all_chars_app, is_empty_app, H1, H2.
  split; [now destruct s|apply andb_false_r].
Qed.

Lemma float_char_plain (c : ascii) :
  float_char c = true -> plain c = true /\ Ascii.eqb (PyStr.lower_char c) c = true.
Proof.
  destruct c as [[] [] [] [] [] [] [] []]; intros H; try discriminate H; now split.
Qed.

Lemma float_word (s : string) :
  all_chars float_char s = true -> PyStr.is_empty s = false ->
  word s = true /\ PyStr.lower s = s.
Proof.
  intros Hc Hne. split.
  - unfold word. rewrite Hne. simpl.
    eapply all_chars_impl; [|exact Hc]. intros c H. now apply float_char_plain.
  - apply map_chars_id. eapply all_chars_impl; [|exact Hc].
    intros c H. now apply float_char_plain.
Qed.

Lemma to_string_word (x : float) :
  word (PyFloat.to_string x) = true /\ PyStr.lower (PyFloat.to_string x) = PyFloat.to_string x.
Proof. destruct (to_string_chars x). now apply float_word. Qed.
(** ** Writing an Internal array and loading the text *)

Lemma line_strip_padded (pad : string) (ws : list string) :
  all_chars PyStr.is_space pad = true ->
  ws <> [] -> Forall (fun w => word w = true) ws ->
  line_strip (padded pad ws) = PyStr.join " " ws /\
  PyStr.is_empty (PyStr.join " " ws) = false.
Proof.
  intros Hpad Hne Hws. split; [now apply line_strip_words|].
  destruct (join_tight ws Hne Hws) as [H _].
  now destruct (PyStr.join " " ws).
Qed.

(** The next line of the stream being a line of words, [multi_line_strip]
    returns the words in lower case. *)
Lemma multi_line_strip_padded (f : stream) (pad : string) (ws : list string)
    (rest : list string) :
  remaining f = padded pad ws :: rest ->
  all_chars PyStr.is_space pad = true ->
  ws <> [] -> Forall (fun w => word w = true) ws ->
  multi_line_strip f
    = Ok (PyStr.join " " (map PyStr.lower ws), mk_stream (content f) (S (pos f))).
Proof.
  intros Hrem Hpad Hne Hws.
  destruct (line_strip_padded pad ws Hpad Hne Hws) as [H1 H2].
  unfold multi_line_strip. rewrite Hrem. cbn [multi_line_strip_from].
  rewrite H1, H2. cbn [mbind result_bind bind]. now rewrite lower_join.
Qed.

Lemma padded_not_newline (pad : string) (ws : list string) :
  all_chars (fun c => Ascii.eqb c " ") pad = true ->
  Forall (fun w => word w = true) ws ->
  all_chars not_newline (pad ++ PyStr.join " " ws) = true.
Proof. apply line_char_not_newline_words. Qed.

Lemma padded_lines (p1 p2 p3 : string) (w1 w2 w3 : list string) :
  all_chars (fun c => Ascii.eqb c " ") p1 = true ->
  all_chars (fun c => Ascii.eqb c " ") p2 = true ->
  all_chars (fun c => Ascii.eqb c " ") p3 = true ->
  Forall (fun w => word w = true) w1 -> Forall (fun w => word w = true) w2 ->
  Forall (fun w => word w = true) w3 ->
  PyStr.lines (padded p1 w1 ++ padded p2 w2 ++ padded p3 w3)
    = [padded p1 w1; padded p2 w2; padded p3 w3].
Proof.
  intros P1 P2 P3 W1 W2 W3.
  pose proof (lines_text [p1 ++ PyStr.join " " w1; p2 ++ PyStr.join " " w2;
                          p3 ++ PyStr.join " " w3] ""
                ltac:(repeat constructor; now apply padded_not_newline)) as H.
  cbn [map PyStr.concat app] in H.
  change (PyStr.lines "") with (@nil string) in H.
  rewrite !append_assoc, !append_nil_r in H.
  unfold padded. rewrite !append_assoc. rewrite H. reflexivity.
Qed.

Lemma spaces_are_space (pad : string) :
  all_chars (fun c => Ascii.eqb c " ") pad = true -> all_chars PyStr.is_space pad = true.
Proof.
  apply all_chars_impl. intros c Hc. cbv beta in Hc. apply Ascii.eqb_eq in Hc. now subst.
Qed.

Lemma control_words_are_words (a : attrs) :
  Forall (fun w => word w = true) (control_words a) /\
  map PyStr.lower (control_words a) =
    "internal" :: match written_factor a with
                  | Some f => ["factor"; PyFloat.to_string f]
                  | None => []
                  end.
Proof.
  unfold control_words. destruct (written_factor a) as [f|].
  - destruct (to_string_word f) as [H1 H2]. split.
    + repeat constructor. exact H1.
    + cbn [map]. now rewrite H2.
  - split; [repeat constructor|reflexivity].
Qed.

(** What [write] gives for an Internal array of rank 1. *)
Lemma write_internal_text (a : attrs) (arr : ndarray float) (n : string) (m : nat) :
  _how a = Some internal -> name a = Some n ->
  dims_of (_shape a) = Some [m] -> List.length (data arr) = m ->
  write (Flat a false (BArray arr))
    = (name_line n ++ control_line a ++ data_line (data arr), Ok tt).
Proof.
  intros Hhow Hname Hdims Hlen. unfold write. cbn [raw].
  destruct (decide (_how a = Some constant)) as [E|_]; [congruence|].
  unfold np_reshape. rewrite Hdims. unfold reshape.
  replace (prod [m]) with m by (unfold prod; simpl; lia).
  rewrite Hlen, Nat.eqb_refl. cbn [mbind result_bind bind].
  unfold write_flat. rewrite Hhow, Hname. cbn [ashape]. f_equal.
  unfold name_line, control_line, data_line, padded, control_words, written_factor,
    factor_suffix, str_row.
  cbn [data]. destruct (_factor a) as [f|]; [destruct (PyFloat.truthy f)|];
    rewrite !append_assoc; reflexivity.
Qed.

Lemma not_iprn (a : attrs) :
  PyStr.mem "iprn" ("internal" :: match written_factor a with
                                   | Some f => ["factor"; PyFloat.to_string f]
                                   | None => []
                                   end) = false.
Proof.
  destruct (written_factor a) as [f|]; [|reflexivity].
  unfold PyStr.mem. cbn [existsb]. 
  replace (PyStr.eqb "iprn" (PyFloat.to_string f)) with false; [reflexivity|].
  symmetry. apply String.eqb_neq. intros E.
  destruct (to_string_chars f) as [H _]. rewrite <- E in H. discriminate.
Qed.

Lemma drop_iprn_absent (iprn : string) (tokens : list string) :
  PyStr.mem (PyStr.lower iprn) tokens = false -> drop_iprn iprn tokens = Ok tokens.
Proof. unfold drop_iprn. now intros ->. Qed.
Lemma read_array_last_line (lines : list string) (k : nat) (L : string) :
  remaining (mk_stream lines k) = [L] ->
  read_array (mk_stream lines k) =
    if numeric_only (line_strip L)
    then (genfromtxt (line_strip L), mk_stream lines (k + 1))
    else (genfromtxt "", mk_stream lines k).
Proof.
  intros Hrem. unfold read_array.
  rewrite read_array_loop_spec by lia. rewrite Hrem. cbn [numeric_prefix pos content].
  destruct (numeric_only (line_strip L)).
  - reflexivity.
  - cbn [take map app PyStr.join]. now rewrite Nat.add_0_r.
Qed.

(** The header and the control line of a written Internal array, as
    [load] reads them: what is then left to [read_array] is the line of
    numbers. *)
Lemma load_written_header (iprn : string) (fs : gmap string string) (cwd : string)
    (kwargs : load_kwargs) (a : attrs) (d : list float) (n : string) (sh : shape_t) :
  PyStr.lower iprn = "iprn" -> word n = true ->
  (forall s, sh <> ShapeStr s) -> kw_layered kwargs = false ->
  (forall f, written_factor a = Some f ->
     PyFloat.of_string (PyFloat.to_string f) = Some f) ->
  let lines := [name_line n; control_line a; data_line d] in
  load iprn fs (mk_stream lines 0) cwd sh true kwargs =
    Ok (MFArray_init sh (BArray (fst (read_array (mk_stream lines 2)))) (Some internal)
          (written_factor a) (Some (PyStr.lower (PyStr.upper n))) None,
        snd (read_array (mk_stream lines 2))).
Proof.
  intros Hiprn Hn Hsh Hlay Hfac lines.
  destruct (word_case n Hn) as [Hup Hlow].
  unfold load. rewrite Hlay.
  rewrite (multi_line_strip_padded (mk_stream lines 0) PAD [PyStr.upper n]
             [control_line a; data_line d] eq_refl eq_refl ltac:(discriminate)
             ltac:(repeat constructor; exact Hup)).
  cbn [mbind result_bind bind map pos content].
  rewrite (split_join [PyStr.lower (PyStr.upper n)]) by (repeat constructor; exact Hlow).
  cbn [token lookup list_lookup mbind result_bind bind List.length Nat.ltb Nat.leb andb].
  assert (Hres : resolve_shape sh kwargs = Ok sh).
  { destruct sh as [s|k|ds]; [now destruct (Hsh s)|reflexivity|reflexivity]. }
  rewrite Hres. cbn [mbind result_bind bind].
  destruct (control_words_are_words a) as [Hcw Hcl].
  assert (Hwl : Forall (fun w => word w = true) (map PyStr.lower (control_words a))).
  { rewrite Hcl. constructor; [reflexivity|].
    destruct (written_factor a) as [f|]; [|constructor].
    repeat constructor. apply to_string_word. }
  pose proof (multi_line_strip_padded (mk_stream lines 1) PAD2 (control_words a)
                [data_line d] eq_refl eq_refl ltac:(discriminate) Hcw) as Hm.
  cbn [pos content] in Hm.
  pose proof (_load_control iprn fs (mk_stream lines 1) (mk_stream lines 2) cwd sh
                (Some (PyStr.lower (PyStr.upper n)))
                (PyStr.join " " (map PyStr.lower (control_words a))) "internal"
                (match written_factor a with
                 | Some f => ["factor"; PyFloat.to_string f]
                 | None => []
                 end) Hm) as Hc.
  rewrite (split_join _ Hwl), Hcl in Hc.
  specialize (Hc (drop_iprn_absent iprn _ ltac:(rewrite Hiprn; apply not_iprn))).
  destruct Hc as [_ Hc]. rewrite (Hc eq_refl).
  destruct (written_factor a) as [f|] eqn:Ef; [|reflexivity].
  unfold py_float. rewrite (Hfac f eq_refl). reflexivity.
Qed.

Lemma to_string_words (d : list float) :
  Forall (fun w => word w = true) (map PyFloat.to_string d).
Proof.
  apply Forall_map. apply Forall_forall. intros v _. apply to_string_word.
Qed.

Lemma data_line_stripped (d : list float) :
  d <> [] ->
  line_strip (data_line d) = PyStr.join " " (map PyFloat.to_string d) /\
  numeric_only (PyStr.join " " (map PyFloat.to_string d))
    = all_chars numeric_char (PyStr.join " " (map PyFloat.to_string d)).
Proof.
  intros Hne.
  assert (Hne' : map PyFloat.to_string d <> []) by (destruct d; [contradiction|discriminate]).
  destruct (line_strip_padded PAD3 _ eq_refl Hne' (to_string_words d)) as [H1 H2].
  split; [exact H1|].
  rewrite numeric_only_spec, H2; [reflexivity|].
  exact (padded_not_newline "" _ eq_refl (to_string_words d)).
Qed.

Lemma genfromtxt_words (d : list float) :
  Forall (fun v => PyFloat.of_string (PyFloat.to_string v) = Some v) d ->
  genfromtxt (PyStr.join " " (map PyFloat.to_string d)) = mk_ndarray d [List.length d].
Proof.
  intros H. unfold genfromtxt. rewrite (split_join _ (to_string_words d)).
  rewrite length_map, map_map. f_equal.
  induction H as [|v d Hv Hd IH]; [reflexivity|]. simpl. now rewrite Hv, IH.
Qed.

Lemma numeric_text_chars (s : string) :
  numeric_text s = true -> all_chars numeric_char s = true.
Proof.
  unfold numeric_text. intros H. apply andb_true_iff in H as [_ H].
  eapply all_chars_impl; [|exact H]. intros c Hc. cbv beta in Hc.
  unfold numeric_char. now rewrite Hc.
Qed.

Lemma float_numeric_char (c : ascii) :
  float_char c = true -> numeric_char c = (PyStr.is_digit c || Ascii.eqb c ".").
Proof. destruct c as [[] [] [] [] [] [] [] []]; intros H; try discriminate H; reflexivity. Qed.

Lemma not_numeric_text_chars (v : float) :
  numeric_text (PyFloat.to_string v) = false ->
  all_chars numeric_char (PyFloat.to_string v) = false.
Proof.
  destruct (to_string_chars v) as [Hc Hne]. unfold numeric_text. rewrite Hne.
  cbn [negb andb]. revert Hc. generalize (PyFloat.to_string v). clear.
  induction s as [|c s IH]; simpl; [discriminate|].
  intros Hc H. apply andb_true_iff in Hc as [H1 H2].
  rewrite (float_numeric_char c H1).
  destruct (PyStr.is_digit c || Ascii.eqb c "."); [|reflexivity]. simpl in *. now apply IH.
Qed.

Lemma all_chars_join_false (p : ascii -> bool) (sep : string) (ws : list string) :
  Exists (fun w => all_chars p w = false) ws -> all_chars p (PyStr.join sep ws) = false.
Proof.
  induction 1 as [w ws Hw|w ws Hex IH].
  - destruct ws as [|w2 ws]; [exact Hw|].
    now rewrite join_cons2, all_chars_app, Hw.
  - destruct ws as [|w2 ws]; [inversion Hex|].
    rewrite join_cons2, !all_chars_app, IH. now rewrite !andb_false_r.
Qed.
(** X12. Writing and loading again, for an Internal array of rank 1
    that is not layered and holds at least one number. Its name being a
    token (no blank, no comma, none of [;], [#] and [!]), the text of
    every number being made of digits and points and read back by
    [float] as the number, and so the factor when one is written,
    [write] produces the name line, the control line and one line of
    numbers, and [load] reads from them, up to the end of the text, an
    Internal array with the same numbers and raw values. Its name is the
    name written in lower case, and its factor is the factor written: a
    factor of 0 is not written and is loaded as none. *)
Theorem internal_round_trip (iprn : string) (fs : gmap string string) (cwd : string)
    (kwargs : load_kwargs) (a : attrs) (arr : ndarray float) (n : string) (m : nat) :
  PyStr.lower iprn = "iprn" ->
  _how a = Some internal -> name a = Some n -> word n = true ->
  dims_of (_shape a) = Some [m] -> List.length (data arr) = m -> m <> 0 ->
  Forall (fun v => numeric_text (PyFloat.to_string v) = true /\
                   PyFloat.of_string (PyFloat.to_string v) = Some v) (data arr) ->
  (forall f, written_factor a = Some f ->
     PyFloat.of_string (PyFloat.to_string f) = Some f) ->
  kw_layered kwargs = false ->
  let x := Flat a false (BArray arr) in
  let t := name_line n ++ control_line a ++ data_line (data arr) in
  let y := MFArray_init (_shape a) (BArray (mk_ndarray (data arr) [m])) (Some internal)
             (written_factor a) (Some (PyStr.lower (PyStr.upper n))) None in
  write x = (t, Ok tt) /\
  load iprn fs (StringIO t) cwd (_shape a) true kwargs = Ok (y, mk_stream (PyStr.lines t) 3) /\
  remaining (mk_stream (PyStr.lines t) 3) = [] /\
  raw y = raw x /\ raw x = Ok (mk_ndarray (data arr) [m]).
Proof.
  intros Hiprn Hhow Hname Hn Hdims Hlen Hm Hdata Hfac Hlay x t y.
  assert (Hne : data arr <> []) by (intros E; rewrite E in Hlen; simpl in Hlen; lia).
  assert (Hsh : forall s, _shape a <> ShapeStr s).
  { intros s E. rewrite E in Hdims. discriminate. }
  destruct (word_case n Hn) as [Hup _].
  destruct (control_words_are_words a) as [Hcw _].
  assert (Hlines : PyStr.lines t = [name_line n; control_line a; data_line (data arr)]).
  { apply padded_lines; try reflexivity; try assumption.
    - repeat constructor. exact Hup.
    - apply to_string_words. }
  destruct (data_line_stripped (data arr) Hne) as [Hstrip Hnum].
  assert (Hread : read_array (mk_stream (PyStr.lines t) 2)
                  = (mk_ndarray (data arr) [m], mk_stream (PyStr.lines t) 3)).
  { rewrite Hlines.
    rewrite (read_array_last_line [name_line n; control_line a; data_line (data arr)] 2
               (data_line (data arr)) eq_refl).
    rewrite Hstrip, Hnum.
    rewrite all_chars_join; [|reflexivity|].
    - rewrite genfromtxt_words, Hlen; [reflexivity|].
      eapply Forall_impl; [exact Hdata|]. now intros v [_ H].
    - apply Forall_map. eapply Forall_impl; [exact Hdata|].
      intros v [H _]. now apply numeric_text_chars. }
  assert (Hraw : raw x = Ok (mk_ndarray (data arr) [m])).
  { subst x. cbn [raw].
    destruct (decide (_how a = Some constant)) as [E|_]; [congruence|].
    unfold np_reshape. rewrite Hdims. unfold reshape.
    replace (prod [m]) with m by (unfold prod; simpl; lia).
    now rewrite Hlen, Nat.eqb_refl. }
  split; [now apply (write_internal_text a arr n m)|]. split; [|split; [|split]].
  - unfold StringIO.
    pose proof (load_written_header iprn fs cwd kwargs a (data arr) n (_shape a)
                  Hiprn Hn Hsh Hlay Hfac) as Hload.
    cbv zeta in Hload. rewrite <- Hlines in Hload. rewrite Hread in Hload. exact Hload.
  - rewrite Hlines. reflexivity.
  - rewrite Hraw. subst y. unfold MFArray_init. cbn [raw _how _shape].
    destruct (decide (Some internal = Some constant)) as [E|_]; [discriminate|].
    unfold np_reshape. rewrite Hdims. unfold reshape. cbn [data].
    replace (prod [m]) with m by (unfold prod; simpl; lia).
    now rewrite Hlen, Nat.eqb_refl.
  - exact Hraw.
Qed.

Lemma internal_round_trip_witness :
  let a := mk_attrs (Some "k33") (ShapeTuple [Some 3]) (ShapeTuple [Some 3])
             (Some internal) (Some 1.5%float) None in
  let arr := mk_ndarray [7%float; 8%float; 9.5%float] [3] in
  let t := text ["  K33"; "    INTERNAL FACTOR 1.5"; "      7.0 8.0 9.5"] in
  write (Flat a false (BArray arr)) = (t, Ok tt) /\
  load IPRN ∅ (StringIO t) "." (ShapeTuple [Some 3]) true no_kwargs
    = Ok (Flat a false (BArray arr), mk_stream (PyStr.lines t) 3).
Proof.
  cbv zeta.
  pose proof (internal_round_trip IPRN ∅ "." no_kwargs
                (mk_attrs (Some "k33") (ShapeTuple [Some 3]) (ShapeTuple [Some 3])
                   (Some internal) (Some 1.5%float) None)
                (mk_ndarray [7%float; 8%float; 9.5%float] [3]) "k33" 3
                eq_refl eq_refl eq_refl eq_refl eq_refl eq_refl ltac:(discriminate)
                ltac:(repeat constructor)
                ltac:(intros f [= <-]; vm_compute; reflexivity)
                eq_refl) as (H1 & H2 & _).
  split; [exact H1|exact H2].
Defined.

(** X13. An Internal array of rank 1 that holds a number whose text is
    not made of digits and points only (a negative number, one written
    with an exponent, [inf], [nan]) is written but not read again: the
    line of numbers does not match the pattern of [read_array], so that
    [load] returns an Internal array without numbers, whose [raw] raises
    [ValueError], and leaves the stream on the line of numbers. *)
Theorem internal_non_numeric_not_read (iprn : string) (fs : gmap string string)
    (cwd : string) (kwargs : load_kwargs) (a : attrs) (arr : ndarray float) (n : string)
    (m : nat) :
  PyStr.lower iprn = "iprn" ->
  _how a = Some internal -> name a = Some n -> word n = true ->
  dims_of (_shape a) = Some [m] -> List.length (data arr) = m ->
  Exists (fun v => numeric_text (PyFloat.to_string v) = false) (data arr) ->
  (forall f, written_factor a = Some f ->
     PyFloat.of_string (PyFloat.to_string f) = Some f) ->
  kw_layered kwargs = false ->
  let x := Flat a false (BArray arr) in
  let t := name_line n ++ control_line a ++ data_line (data arr) in
  let y := MFArray_init (_shape a) (BArray (mk_ndarray [] [0])) (Some internal)
             (written_factor a) (Some (PyStr.lower (PyStr.upper n))) None in
  write x = (t, Ok tt) /\
  load iprn fs (StringIO t) cwd (_shape a) true kwargs = Ok (y, mk_stream (PyStr.lines t) 2) /\
  remaining (mk_stream (PyStr.lines t) 2) = [data_line (data arr)] /\
  raw x = Ok (mk_ndarray (data arr) [m]) /\ raw y = Raise ValueError.
Proof.
  intros Hiprn Hhow Hname Hn Hdims Hlen Hdata Hfac Hlay x t y.
  assert (Hne : data arr <> []) by (intros E; rewrite E in Hdata; inversion Hdata).
  assert (Hm : m <> 0) by (destruct (data arr); [contradiction|simpl in Hlen; lia]).
  assert (Hsh : forall s, _shape a <> ShapeStr s).
  { intros s E. rewrite E in Hdims. discriminate. }
  destruct (word_case n Hn) as [Hup _].
  destruct (control_words_are_words a) as [Hcw _].
  assert (Hlines : PyStr.lines t = [name_line n; control_line a; data_line (data arr)]).
  { apply padded_lines; try reflexivity; try assumption.
    - repeat constructor. exact Hup.
    - apply to_string_words. }
  destruct (data_line_stripped (data arr) Hne) as [Hstrip Hnum].
  assert (Hread : read_array (mk_stream (PyStr.lines t) 2)
                  = (mk_ndarray [] [0], mk_stream (PyStr.lines t) 2)).
  { rewrite Hlines.
    rewrite (read_array_last_line [name_line n; control_line a; data_line (data arr)] 2
               (data_line (data arr)) eq_refl).
    rewrite Hstrip, Hnum.
    rewrite all_chars_join_false; [reflexivity|].
    apply Exists_fmap. eapply Exists_impl; [exact Hdata|].
    intros v Hv. now apply not_numeric_text_chars. }
  split; [now apply (write_internal_text a arr n m)|]. split; [|split; [|split]].
  - unfold StringIO.
    pose proof (load_written_header iprn fs cwd kwargs a (data arr) n (_shape a)
                  Hiprn Hn Hsh Hlay Hfac) as Hload.
    cbv zeta in Hload. rewrite <- Hlines in Hload. rewrite Hread in Hload. exact Hload.
  - rewrite Hlines. reflexivity.
  - subst x. cbn [raw].
    destruct (decide (_how a = Some constant)) as [E|_]; [congruence|].
    unfold np_reshape. rewrite Hdims. unfold reshape.
    replace (prod [m]) with m by (unfold prod; simpl; lia).
    now rewrite Hlen, Nat.eqb_refl.
  - subst y. unfold MFArray_init. cbn [raw _how _shape].
    destruct (decide (Some internal = Some constant)) as [E|_]; [discriminate|].
    unfold np_reshape. rewrite Hdims. unfold reshape. cbn [data List.length].
    replace (prod [m]) with m by (unfold prod; simpl; lia).
    destruct m; [contradiction|reflexivity].
Qed.

Lemma internal_non_numeric_not_read_witness :
  let a := mk_attrs (Some "k33") (ShapeTuple [Some 2]) (ShapeTuple [Some 2])
             (Some internal) None None in
  let arr := mk_ndarray [1%float; (-2.5)%float] [2] in
  let t := text ["  K33"; "    INTERNAL"; "      1.0 -2.5"] in
  write (Flat a false (BArray arr)) = (t, Ok tt) /\
  load IPRN ∅ (StringIO t) "." (ShapeTuple [Some 2]) true no_kwargs
    = Ok (MFArray_init (ShapeTuple [Some 2]) (BArray (mk_ndarray [] [0])) (Some internal)
            None (Some "k33") None,
          mk_stream (PyStr.lines t) 2).
Proof.
  cbv zeta.
  pose proof (internal_non_numeric_not_read IPRN ∅ "." no_kwargs
                (mk_attrs (Some "k33") (ShapeTuple [Some 2]) (ShapeTuple [Some 2])
                   (Some internal) None None)
                (mk_ndarray [1%float; (-2.5)%float] [2]) "k33" 2
                eq_refl eq_refl eq_refl eq_refl eq_refl eq_refl
                ltac:(right; left; vm_compute; reflexivity)
                ltac:(intros f [=])
                eq_refl) as (H1 & H2 & _).
  split; [exact H1|exact H2].
Defined.
(** ** What [write] does not handle *)

(** X14. [write] lays out an Internal array of rank 1, 2 or 3 only. For
    an Internal array that is not layered, of rank 0 or of rank 4 or
    more, the variable holding the text of the numbers is never
    assigned: the call raises [UnboundLocalError] and writes nothing.
    So it does when [_how] is [None], no branch assigning the text to
    write. *)
Theorem write_rank_limits (a : attrs) (arr : ndarray float) (n : string)
    (dims : list nat) :
  name a = Some n ->
  dims_of (_shape a) = Some dims -> List.length (data arr) = prod dims ->
  (_how a = Some internal /\ (List.length dims = 0 \/ 3 < List.length dims)) \/
  _how a = None ->
  write (Flat a false (BArray arr)) = (EmptyString, Raise UnboundLocalError).
Proof.
  intros Hname Hdims Hlen H. unfold write. cbn [raw].
  destruct (decide (_how a = Some constant)) as [E|_].
  { destruct H as [[H _]|H]; congruence. }
  unfold np_reshape. rewrite Hdims. unfold reshape.
  rewrite Hlen, Nat.eqb_refl. cbn [mbind result_bind bind].
  unfold write_flat. rewrite Hname. cbn [ashape].
  destruct H as [[Hi Hr]|Hn]; [rewrite Hi|now rewrite Hn].
  destruct dims as [|d1 [|d2 [|d3 [|d4 dims']]]]; simpl in Hr; try lia; reflexivity.
Qed.

Lemma write_rank_limits_witness :
  write (MFArray_init (ShapeTuple [Some 1; Some 1; Some 1; Some 2])
           (BArray (mk_ndarray [1%float; 2%float] [2])) (Some internal) None (Some "a") None)
    = (EmptyString, Raise UnboundLocalError).
Proof.
  apply (write_rank_limits
           (mk_attrs (Some "a") (ShapeTuple [Some 1; Some 1; Some 1; Some 2])
              (ShapeTuple [Some 1; Some 1; Some 1; Some 2]) (Some internal) None None)
           (mk_ndarray [1%float; 2%float] [2]) "a" [1; 1; 1; 2] eq_refl eq_refl eq_refl).
  left. split; [reflexivity|]. right. simpl. lia.
Defined.
Lemma join_cons (sep x : string) (l : list string) :
  PyStr.join sep (x :: l) =
    x ++ match l with [] => "" | _ :: _ => sep ++ PyStr.join sep l end.
Proof. destruct l; [now rewrite append_nil_r|reflexivity]. Qed.

Lemma word_app (u w : string) : word u = true -> word w = true -> word (u ++ w) = true.
Proof.
  unfold word. intros Hu Hw.
  apply andb_true_iff in Hu as [Hu1 Hu2]. apply andb_true_iff in Hw as [_ Hw2].
  rewrite is_empty_app, all_chars_app, Hu2, Hw2.
  apply negb_true_iff in Hu1. now rewrite Hu1.
Qed.

Lemma float_words_not_iprn (ws : list string) :
  Forall (fun w => all_chars float_char w = true) ws -> PyStr.mem "iprn" ws = false.
Proof.
  induction 1 as [|w ws Hw Hall IH]; [reflexivity|].
  unfold PyStr.mem in *. cbn [existsb]. rewrite IH, orb_false_r.
  apply String.eqb_neq. intros E. rewrite <- E in Hw. discriminate.
Qed.

Lemma float_words_not_iprn_after (kw : string) (ws : list string) :
  PyStr.eqb "iprn" kw = false ->
  Forall (fun w => all_chars float_char w = true) ws -> PyStr.mem "iprn" (kw :: ws) = false.
Proof.
  intros Hkw Hws. unfold PyStr.mem. cbn [existsb]. rewrite Hkw.
  exact (float_words_not_iprn ws Hws).
Qed.

Lemma factor_suffix_written (a : attrs) :
  written_factor a = None -> factor_suffix a = "".
Proof.
  unfold written_factor, factor_suffix.
  destruct (_factor a) as [f|]; [|reflexivity].
  now destruct (PyFloat.truthy f).
Qed.

(** X15. An Internal array of rank 2 that is not layered is written in
    a form that does not load. [write] starts the first row right after
    the keyword, with neither newline nor blank between them, so that,
    no factor being written, the control line starts with the token
    INTERNAL followed by the text of the first number, and [load] raises
    [NotImplementedError], as it does for an unknown keyword. *)
Theorem rank2_internal_not_loadable (iprn : string) (fs : gmap string string)
    (cwd : string) (kwargs : load_kwargs) (a : attrs) (arr : ndarray float) (n : string)
    (r c : nat) :
  PyStr.lower iprn = "iprn" ->
  _how a = Some internal -> name a = Some n -> word n = true ->
  dims_of (_shape a) = Some [S r; S c] -> List.length (data arr) = S r * S c ->
  written_factor a = None -> kw_layered kwargs = false ->
  exists (t rest : string) (v0 : float) (others : list float),
    write (Flat a false (BArray arr)) = (t, Ok tt) /\
    take (S c) (data arr) = v0 :: others /\
    t = name_line n
        ++ padded PAD2 (("INTERNAL" ++ PyFloat.to_string v0) :: map PyFloat.to_string others)
        ++ rest /\
    load iprn fs (StringIO t) cwd (_shape a) true kwargs = Raise NotImplementedError.
Proof.
  intros Hiprn Hhow Hname Hn Hdims Hlen Hfac Hlay.
  destruct (data arr) as [|v0 d'] eqn:Ed; [simpl in Hlen; lia|].
  set (others := take c d').
  set (ws := ("INTERNAL" ++ PyFloat.to_string v0) :: map PyFloat.to_string others).
  set (tail := map str_row
                 (map (fun d => mk_ndarray d [S c])
                    (chunks (prod [S c]) r (drop (prod [S c]) (v0 :: d'))))).
  set (rest := match tail with
               | [] => ""
               | _ :: _ => PAD3 ++ PyStr.join (PyStr.nl ++ PAD3) tail ++ PyStr.nl
               end).
  exists (name_line n ++ padded PAD2 ws ++ rest), rest, v0, others.
  assert (Hprod : prod [S c] = S c) by (unfold prod; simpl; lia).
  assert (Hwrite : write (Flat a false (BArray arr))
                   = (name_line n ++ padded PAD2 ws ++ rest, Ok tt)).
  { unfold write. cbn [raw].
    destruct (decide (_how a = Some constant)) as [E|_]; [congruence|].
    unfold np_reshape. rewrite Hdims. unfold reshape. rewrite Ed.
    replace (prod [S r; S c]) with (S r * S c) by (unfold prod; simpl; lia).
    rewrite Hlen, Nat.eqb_refl. cbn [mbind result_bind bind].
    unfold write_flat. rewrite Hhow, Hname. cbn [ashape]. f_equal.
    rewrite (factor_suffix_written a Hfac).
    unfold grid2, rows. cbn [ashape data chunks map]. fold tail.
    rewrite join_cons. unfold str_row at 1. cbn [data]. rewrite Hprod.
    cbn [take map]. fold others.
    unfold name_line, padded, ws, rest.
    rewrite (join_cons " " ("INTERNAL" ++ PyFloat.to_string v0)).
    rewrite (join_cons " " (PyFloat.to_string v0)).
    destruct tail; rewrite !append_assoc; reflexivity. }
  split; [exact Hwrite|]. split; [reflexivity|]. split; [reflexivity|].
  destruct (word_case n Hn) as [Hup Hlow].
  destruct (to_string_word v0) as [Hw0 Hl0].
  assert (Hws : Forall (fun w => word w = true) ws).
  { constructor; [now apply word_app|apply to_string_words]. }
  assert (Hlines : PyStr.lines (name_line n ++ padded PAD2 ws ++ rest)
                   = name_line n :: padded PAD2 ws :: PyStr.lines rest).
  { pose proof (lines_text [PAD ++ PyStr.upper n; PAD2 ++ PyStr.join " " ws] rest
                  ltac:(repeat constructor;
                        [exact (padded_not_newline PAD [PyStr.upper n] eq_refl
                                  ltac:(repeat constructor; exact Hup))
                        |exact (padded_not_newline PAD2 ws eq_refl Hws)])) as H.
    cbn [map PyStr.concat app] in H.
    rewrite !append_assoc, append_nil_l in H.
    unfold name_line, padded. rewrite !append_assoc. exact H. }
  unfold StringIO. rewrite Hlines.
  set (lines := name_line n :: padded PAD2 ws :: PyStr.lines rest).
  unfold load. rewrite Hlay.
  rewrite (multi_line_strip_padded (mk_stream lines 0) PAD [PyStr.upper n]
             (padded PAD2 ws :: PyStr.lines rest) eq_refl eq_refl ltac:(discriminate)
             ltac:(repeat constructor; exact Hup)).
  cbn [mbind result_bind bind map pos content].
  rewrite (split_join [PyStr.lower (PyStr.upper n)]) by (repeat constructor; exact Hlow).
  cbn [token lookup list_lookup mbind result_bind bind List.length Nat.ltb Nat.leb andb].
  assert (Hres : resolve_shape (_shape a) kwargs = Ok (_shape a)).
  { destruct (_shape a) as [s|k|ds]; [discriminate|reflexivity|reflexivity]. }
  rewrite Hres. cbn [mbind result_bind bind].
  unfold _load.
  rewrite (multi_line_strip_padded (mk_stream lines 1) PAD2 ws (PyStr.lines rest)
             eq_refl eq_refl ltac:(discriminate) Hws).
  cbn [mbind result_bind bind pos content].
  assert (Hlow_ws : map PyStr.lower ws
                    = ("internal" ++ PyFloat.to_string v0) :: map PyFloat.to_string others).
  { unfold ws. cbn [map]. f_equal.
    - unfold PyStr.lower. rewrite map_chars_app. fold (PyStr.lower (PyFloat.to_string v0)).
      now rewrite Hl0.
    - rewrite map_map. apply map_ext. intros v. apply to_string_word. }
  rewrite Hlow_ws.
  rewrite split_join by (constructor; [now apply word_app|apply to_string_words]).
  rewrite drop_iprn_absent.
  - cbn [mbind result_bind bind token lookup list_lookup].
    assert (Hnone : from_string ("internal" ++ PyFloat.to_string v0) = None).
    { apply from_string_None. intros h E.
      unfold PyStr.upper in E. rewrite map_chars_app in E.
      destruct (to_string_chars v0) as [_ Hne].
      destruct (PyFloat.to_string v0) as [|ch s]; [discriminate|].
      destruct h; discriminate E. }
    rewrite Hnone. reflexivity.
  - rewrite Hiprn. unfold PyStr.mem. cbn [existsb].
    replace (PyStr.eqb "iprn" ("internal" ++ PyFloat.to_string v0)) with false by reflexivity.
    apply float_words_not_iprn.
    apply Forall_map. apply Forall_forall. intros v _. apply to_string_chars.
Qed.

Lemma rank2_internal_not_loadable_witness :
  exists t,
    write internal_2x2 = (t, Ok tt) /\
    t = text ["  A"; "    INTERNAL1.0 2.0"; "      3.0 4.0"] /\
    load IPRN ∅ (StringIO t) "." (ShapeTuple [Some 2; Some 2]) true no_kwargs
      = Raise NotImplementedError.
Proof.
  destruct (rank2_internal_not_loadable IPRN ∅ "." no_kwargs
              (mk_attrs (Some "a") (ShapeTuple [Some 2; Some 2]) (ShapeTuple [Some 2; Some 2])
                 (Some internal) None None)
              (mk_ndarray [1%float; 2%float; 3%float; 4%float] [4]) "a" 1 1
              eq_refl eq_refl eq_refl eq_refl eq_refl eq_refl eq_refl eq_refl)
    as (t & rest & v0 & others & H1 & H2 & H3 & H4).
  exists t. split; [exact H1|]. split; [|exact H4].
  change (write internal_2x2) with
    (text ["  A"; "    INTERNAL1.0 2.0"; "      3.0 4.0"], Ok tt : result unit) in H1.
  now injection H1.
Defined.
(** ** Layered arrays: writing *)

Lemma concat_app (l1 l2 : list string) :
  PyStr.concat (l1 ++ l2)%list = PyStr.concat l1 ++ PyStr.concat l2.
Proof.
  induction l1 as [|x l1 IH]; [reflexivity|].
  cbn [app PyStr.concat]. now rewrite IH, append_assoc.
Qed.

Lemma with_newlines_app (l1 l2 : list string) :
  with_newlines (l1 ++ l2)%list = (with_newlines l1 ++ with_newlines l2)%list.
Proof. apply map_app. Qed.

Lemma prod_one (c : nat) : prod [c] = c.
Proof. unfold prod. simpl. lia. Qed.

Lemma prod_two (r c : nat) : prod [r; c] = r * c.
Proof. unfold prod. simpl. lia. Qed.

Lemma control_words_text (a : attrs) :
  PAD2 ++ to_string internal ++ factor_suffix a = body PAD2 (control_words a).
Proof.
  unfold body, control_words, written_factor, factor_suffix.
  destruct (_factor a) as [f|]; [destruct (PyFloat.truthy f)|]; reflexivity.
Qed.

(** The rows of a grid, each after the padding and before a newline. *)
Lemma grid_lines (rowtexts : list string) :
  rowtexts <> [] ->
  PAD3 ++ PyStr.join (PyStr.nl ++ PAD3) rowtexts ++ PyStr.nl
    = PyStr.concat (with_newlines (map (fun s => PAD3 ++ s) rowtexts)).
Proof.
  induction rowtexts as [|s l IH]; [contradiction|]. intros _.
  destruct l as [|s2 l].
  - cbn [PyStr.join map with_newlines PyStr.concat]. now rewrite !append_assoc, append_nil_r.
  - rewrite join_cons2.
    change (with_newlines (map (fun s => PAD3 ++ s) (s :: s2 :: l)))
      with (((PAD3 ++ s) ++ PyStr.nl)
            :: with_newlines (map (fun s => PAD3 ++ s) (s2 :: l))).
    cbn [PyStr.concat]. rewrite <- IH by discriminate.
    rewrite !append_assoc. reflexivity.
Qed.

Lemma write_layer_internal (ldims : list nat) (mfa : MFArray) (a : attrs) (d : list float)
    (vl : option string * option string) :
  layer_shape ldims -> internal_layer ldims mfa (a, d) ->
  exists vl',
    write_layer mfa vl = Ok (PyStr.concat (with_newlines (layer_bodies a d ldims)), vl').
Proof.
  intros Hshape ([s ->] & Hhow & Hdims & Hlen & _ & _).
  destruct vl as [v lines]. unfold write_layer. cbn [raw attrs_of].
  destruct (decide (_how a = Some constant)) as [E|_]; [congruence|].
  unfold np_reshape. rewrite Hdims. unfold reshape. cbn [data].
  rewrite Hlen, Nat.eqb_refl. cbn [mbind result_bind bind ashape].
  rewrite Hhow. rewrite control_words_text.
  destruct ldims as [|[|m] [|[|c] [|x ldims]]]; try contradiction.
  - eexists. cbn [mbind result_bind bind]. do 2 f_equal.
    unfold layer_bodies, with_newlines, body, str_row. cbn [map PyStr.concat data].
    rewrite !append_assoc, append_nil_r. reflexivity.
  - eexists. cbn [mbind result_bind bind]. do 2 f_equal.
    rewrite <- !append_assoc. rewrite (append_assoc _ PAD3).
    unfold grid2, rows. cbn [ashape data]. rewrite prod_one.
    rewrite !append_assoc.
    rewrite grid_lines by (cbn [chunks map]; discriminate).
    unfold layer_bodies, layer_rows.
    change (with_newlines (?x :: ?l)) with ((x ++ PyStr.nl) :: with_newlines l).
    cbn [PyStr.concat]. rewrite !append_assoc. do 2 f_equal.
    rewrite !map_map. reflexivity.
Qed.

Lemma write_layers_internal (ldims : list nat) (ls : list MFArray)
    (ads : list (attrs * list float)) :
  layer_shape ldims -> Forall2 (internal_layer ldims) ls ads ->
  forall vl,
    write_layers ls vl =
      (PyStr.concat
         (with_newlines (flat_map (fun '(a, d) => layer_bodies a d ldims) ads)),
       Ok tt).
Proof.
  intros Hshape H. induction H as [|mfa [a d] ls ads Hl Hls IH]; intros vl; [reflexivity|].
  destruct (write_layer_internal ldims mfa a d vl Hshape Hl) as [vl' Hw].
  cbn [write_layers flat_map]. rewrite Hw, IH.
  now rewrite with_newlines_app, concat_app.
Qed.

(** What [write] gives for a layered array of Internal layers. *)
Lemma write_layered_text (a : attrs) (n : string) (ldims : list nat) (ls : list MFArray)
    (ads : list (attrs * list float)) :
  name a = Some n -> layer_shape ldims -> Forall2 (internal_layer ldims) ls ads ->
  write (Layered a ls)
    = (PyStr.concat (with_newlines (layered_bodies n ldims ads)), Ok tt).
Proof.
  intros Hname Hshape H. unfold write. rewrite Hname.
  rewrite (write_layers_internal ldims ls ads Hshape H).
  unfold layered_bodies.
  change (with_newlines (?x :: ?l)) with ((x ++ PyStr.nl) :: with_newlines l).
  cbn [PyStr.concat]. f_equal. unfold body. cbn [PyStr.join].
  rewrite !append_assoc. reflexivity.
Qed.
(** ** Layered arrays: loading *)

Lemma body_nl (pad : string) (ws : list string) : body pad ws ++ PyStr.nl = padded pad ws.
Proof. unfold body, padded. apply append_assoc. Qed.

Lemma lines_bodies (bodies : list string) :
  Forall (fun l => all_chars not_newline l = true) bodies ->
  PyStr.lines (PyStr.concat (with_newlines bodies)) = with_newlines bodies.
Proof.
  intros H. pose proof (lines_text bodies "" H) as E.
  rewrite append_nil_r in E. change (PyStr.lines "") with (@nil string) in E.
  now rewrite app_nil_r in E.
Qed.

Lemma numeric_word (w : string) : numeric_text w = true -> word w = true.
Proof.
  unfold numeric_text, word. intros H. apply andb_true_iff in H as [H1 H2].
  rewrite H1. cbn [andb]. eapply all_chars_impl; [|exact H2].
  intros c Hc. cbv beta in Hc.
  destruct c as [[] [] [] [] [] [] [] []]; try discriminate Hc; reflexivity.
Qed.

Lemma numeric_row_words (ws : list string) :
  numeric_row ws -> Forall (fun w => word w = true) ws.
Proof. intros [_ H]. eapply Forall_impl; [exact H|]. apply numeric_word. Qed.

Lemma numeric_row_line (pad : string) (ws : list string) :
  all_chars (fun c => Ascii.eqb c " ") pad = true -> numeric_row ws ->
  line_strip (padded pad ws) = PyStr.join " " ws /\
  numeric_only (line_strip (padded pad ws)) = true.
Proof.
  intros Hpad Hrow. pose proof (numeric_row_words ws Hrow) as Hws.
  destruct Hrow as [Hne Hnum].
  destruct (line_strip_padded pad ws (spaces_are_space pad Hpad) Hne Hws) as [H1 H2].
  split; [exact H1|]. rewrite H1.
  rewrite numeric_only_spec by exact (padded_not_newline "" ws eq_refl Hws).
  rewrite H2. cbn [negb andb]. apply all_chars_join; [reflexivity|].
  eapply Forall_impl; [exact Hnum|]. apply numeric_text_chars.
Qed.

Lemma numeric_prefix_rows (pad : string) (rows : list (list string)) (rest : list string) :
  all_chars (fun c => Ascii.eqb c " ") pad = true ->
  Forall numeric_row rows -> ends_array rest ->
  numeric_prefix (map (padded pad) rows ++ rest)%list = List.length rows /\
  map line_strip (take (List.length rows) (map (padded pad) rows ++ rest)%list)
    = map (PyStr.join " ") rows.
Proof.
  intros Hpad Hrows Hrest. induction Hrows as [|ws rows Hws Hrows IH].
  - cbn [map app List.length take]. split; [|reflexivity].
    destruct rest as [|l rest]; [reflexivity|]. simpl in Hrest. simpl. now rewrite Hrest.
  - destruct IH as [IH1 IH2]. destruct (numeric_row_line pad ws Hpad Hws) as [H1 H2].
    cbn [map app List.length take numeric_prefix]. rewrite H2, IH1, IH2, H1. now split.
Qed.

(** [read_array] on rows of numbers followed by a line that ends the
    array. *)
Lemma read_array_rows (f : stream) (pad : string) (rows : list (list string))
    (rest : list string) :
  remaining f = (map (padded pad) rows ++ rest)%list ->
  all_chars (fun c => Ascii.eqb c " ") pad = true ->
  Forall numeric_row rows -> ends_array rest ->
  read_array f = (genfromtxt (PyStr.join " " (map (PyStr.join " ") rows)),
                  mk_stream (content f) (pos f + List.length rows)).
Proof.
  intros Hrem Hpad Hrows Hrest.
  destruct (numeric_prefix_rows pad rows rest Hpad Hrows Hrest) as [H1 H2].
  unfold read_array. rewrite read_array_loop_spec by lia.
  rewrite Hrem, H1, H2. reflexivity.
Qed.

Lemma join_app (sep : string) (l1 l2 : list string) :
  l1 <> [] -> l2 <> [] ->
  PyStr.join sep (l1 ++ l2)%list = PyStr.join sep l1 ++ sep ++ PyStr.join sep l2.
Proof.
  intros H1 H2. induction l1 as [|x l1 IH]; [contradiction|].
  destruct l1 as [|y l1].
  - destruct l2; [contradiction|]. reflexivity.
  - change ((x :: y :: l1) ++ l2)%list with (x :: y :: (l1 ++ l2))%list.
    rewrite !join_cons2.
    change (y :: (l1 ++ l2))%list with ((y :: l1) ++ l2)%list.
    rewrite IH by discriminate. now rewrite !append_assoc.
Qed.

Lemma join_rows (rows : list (list string)) :
  Forall (fun ws => ws <> []) rows ->
  PyStr.join " " (map (PyStr.join " ") rows) = PyStr.join " " (List.concat rows).
Proof.
  induction 1 as [|ws rows Hws Hrows IH]; [reflexivity|].
  destruct rows as [|ws2 rows].
  - cbn [map PyStr.join List.concat]. now rewrite app_nil_r.
  - cbn [map] in IH |- *. rewrite join_cons2, IH.
    change (List.concat (ws :: ws2 :: rows)) with (ws ++ List.concat (ws2 :: rows))%list.
    rewrite join_app; [reflexivity|assumption|].
    apply Forall_cons in Hrows as [H2 _]. cbn [List.concat].
    destruct ws2; [contradiction|discriminate].
Qed.

(** The rows of the numbers [d], written and read again, give [d]. *)
Lemma genfromtxt_rows (drows : list (list float)) :
  Forall (fun row => row <> []) drows -> Forall (Forall readable) drows ->
  genfromtxt (PyStr.join " " (map (PyStr.join " ") (map (map PyFloat.to_string) drows)))
    = mk_ndarray (List.concat drows) [List.length (List.concat drows)].
Proof.
  intros Hne Hread.
  rewrite join_rows.
  - rewrite <- (concat_map PyFloat.to_string).
    apply genfromtxt_words. apply Forall_concat.
    eapply Forall_impl; [exact Hread|]. intros row Hrow. cbv beta in *.
    eapply Forall_impl; [exact Hrow|]. now intros v [_ H].
  - apply Forall_map. eapply Forall_impl; [exact Hne|]. intros row Hrow. cbv beta.
    destruct row; [contradiction|discriminate].
Qed.
(** [_load] on the control line [write] produces for an Internal
    array. *)
Lemma _load_internal_line (iprn : string) (fs : gmap string string) (f f1 : stream)
    (cwd : string) (sh : shape_t) (nm : option string) (a : attrs) :
  PyStr.lower iprn = "iprn" ->
  (forall x, written_factor a = Some x ->
     PyFloat.of_string (PyFloat.to_string x) = Some x) ->
  multi_line_strip f = Ok (PyStr.join " " (map PyStr.lower (control_words a)), f1) ->
  _load iprn fs f cwd sh nm =
    Ok (MFArray_init sh (BArray (fst (read_array f1))) (Some internal)
          (written_factor a) nm None,
        snd (read_array f1)).
Proof.
  intros Hiprn Hfac Hm.
  destruct (control_words_are_words a) as [Hcw Hcl].
  assert (Hwl : Forall (fun w => word w = true) (map PyStr.lower (control_words a))).
  { rewrite Hcl. constructor; [reflexivity|].
    destruct (written_factor a) as [x|]; [|constructor].
    repeat constructor. apply to_string_word. }
  pose proof (_load_control iprn fs f f1 cwd sh nm
                (PyStr.join " " (map PyStr.lower (control_words a))) "internal"
                (match written_factor a with
                 | Some x => ["factor"; PyFloat.to_string x]
                 | None => []
                 end) Hm) as Hc.
  rewrite (split_join _ Hwl), Hcl in Hc.
  specialize (Hc (drop_iprn_absent iprn _ ltac:(rewrite Hiprn; apply not_iprn))).
  destruct Hc as [_ Hc]. rewrite (Hc eq_refl).
  destruct (written_factor a) as [x|] eqn:Ef; [|reflexivity].
  unfold py_float. rewrite (Hfac x eq_refl). reflexivity.
Qed.

(** The rows of a layer: none is empty, and together they hold the
    numbers of the layer. *)
Lemma layer_rows_spec (d : list float) (ldims : list nat) :
  layer_shape ldims -> List.length d = prod ldims ->
  Forall (fun row => row <> []) (layer_rows d ldims) /\
  List.concat (layer_rows d ldims) = d /\
  (Forall readable d -> Forall (Forall readable) (layer_rows d ldims)).
Proof.
  intros Hshape Hlen.
  destruct ldims as [|[|m] [|[|c] [|x ldims]]]; try contradiction.
  - rewrite prod_one in Hlen. cbn [layer_rows List.concat]. rewrite app_nil_r.
    split; [|split; [reflexivity|]].
    + constructor; [|constructor]. destruct d; [discriminate|discriminate].
    + intros H. now constructor.
  - rewrite prod_two in Hlen. cbn [layer_rows].
    destruct (chunks_lengths (S c) (S m) d Hlen) as [_ Hsz].
    split; [|split].
    + eapply Forall_impl; [exact Hsz|]. intros row Hrow. cbv beta in *.
      destruct row; [discriminate|discriminate].
    + now apply concat_chunks.
    + intros H. rewrite <- (concat_chunks (S c) (S m) d Hlen) in H.
      revert H. generalize (chunks (S c) (S m) d). intros rows.
      induction rows as [|row rows IH]; intros H; [constructor|].
      cbn [List.concat] in H. apply Forall_app in H as [H1 H2].
      constructor; [exact H1|now apply IH].
Qed.

(** The lines of a layer after its control line: rows of numbers, then
    an empty line when the layer has rank 1. *)
Lemma layer_data_lines (a : attrs) (d : list float) (ldims : list nat) :
  layer_shape ldims ->
  exists pad trailing,
    all_chars (fun c => Ascii.eqb c " ") pad = true /\
    (trailing = [] \/ trailing = [PyStr.nl]) /\
    with_newlines (layer_bodies a d ldims) =
      (padded PAD2 (control_words a)
       :: map (padded pad) (map (map PyFloat.to_string) (layer_rows d ldims))
          ++ trailing)%list.
Proof.
  intros Hshape.
  destruct ldims as [|[|m] [|[|c] [|x ldims]]]; try contradiction.
  - exists (PAD3 ++ PAD3), [PyStr.nl]. split; [reflexivity|]. split; [now right|].
    unfold layer_bodies, with_newlines. cbn [map layer_rows app].
    now rewrite !body_nl.
  - exists PAD3, []. split; [reflexivity|]. split; [now left|].
    unfold layer_bodies, with_newlines. cbn [map]. rewrite body_nl, app_nil_r.
    f_equal. rewrite !map_map. apply map_ext. intros row. apply body_nl.
Qed.

Lemma readable_rows (drows : list (list float)) :
  Forall (fun row => row <> []) drows -> Forall (Forall readable) drows ->
  Forall numeric_row (map (map PyFloat.to_string) drows).
Proof.
  intros Hne Hread. apply Forall_map.
  apply Forall_forall. intros row Hin.
  rewrite Forall_forall in Hne, Hread. split.
  - specialize (Hne row Hin). destruct row; [contradiction|discriminate].
  - apply Forall_map. eapply Forall_impl; [exact (Hread row Hin)|]. now intros v [H _].
Qed.

(** [_load] reads one written layer, whatever blank lines come before
    it, up to the line that ends its numbers. *)
Lemma load_layer (iprn : string) (fs : gmap string string) (cwd : string) (lshp : shape_t)
    (ldims : list nat) (a : attrs) (d : list float) (f : stream)
    (blanks rest : list string) :
  PyStr.lower iprn = "iprn" -> layer_shape ldims ->
  List.length d = prod ldims -> Forall readable d ->
  (forall x, written_factor a = Some x ->
     PyFloat.of_string (PyFloat.to_string x) = Some x) ->
  remaining f = (blanks ++ with_newlines (layer_bodies a d ldims) ++ rest)%list ->
  Forall (fun l => line_strip l = "") blanks -> ends_array rest ->
  exists f' blanks',
    _load iprn fs f cwd lshp None = Ok (reloaded lshp (a, d), f') /\
    content f' = content f /\
    remaining f' = (blanks' ++ rest)%list /\
    Forall (fun l => line_strip l = "") blanks'.
Proof.
  intros Hiprn Hshape Hlen Hread Hfac Hrem Hblanks Hrest.
  destruct (layer_data_lines a d ldims Hshape) as (pad & trailing & Hpad & Htr & Hlines).
  destruct (layer_rows_spec d ldims Hshape Hlen) as (Hne & Hcat & Hrr).
  specialize (Hrr Hread).
  set (rows := map (map PyFloat.to_string) (layer_rows d ldims)) in *.
  rewrite Hlines in Hrem.
  set (g := mk_stream (content f) (pos f + List.length blanks)).
  assert (Hg : remaining g
               = padded PAD2 (control_words a)
                 :: (map (padded pad) rows ++ trailing ++ rest)%list).
  { unfold g. rewrite remaining_advance, Hrem, drop_app_length.
    cbn [app]. now rewrite <- app_assoc. }
  destruct (control_words_are_words a) as [Hcw _].
  pose proof (multi_line_strip_padded g PAD2 (control_words a) _ Hg eq_refl
                ltac:(discriminate) Hcw) as Hm.
  pose proof (multi_line_strip_blank f blanks _ Hrem Hblanks) as Hb. fold g in Hb.
  rewrite <- Hb in Hm.
  set (f1 := mk_stream (content g) (S (pos g))) in *.
  rewrite (_load_internal_line iprn fs f f1 cwd lshp None a Hiprn Hfac Hm).
  assert (Hf1 : remaining f1 = (map (padded pad) rows ++ trailing ++ rest)%list).
  { exact (proj2 (remaining_cons g _ _ Hg)). }
  assert (Hend : ends_array (trailing ++ rest)%list).
  { destruct Htr as [->| ->]; [exact Hrest|reflexivity]. }
  rewrite (read_array_rows f1 pad rows (trailing ++ rest)%list Hf1 Hpad
             (readable_rows _ Hne Hrr) Hend).
  cbn [fst snd]. unfold rows at 1. rewrite (genfromtxt_rows _ Hne Hrr), Hcat.
  eexists _, trailing. split; [reflexivity|]. split; [reflexivity|]. split.
  - change (content f1) with (content f1). rewrite remaining_advance, Hf1.
    rewrite drop_app_length'; [now rewrite <- app_assoc || reflexivity|].
    now rewrite length_map.
  - destruct Htr as [->| ->]; repeat constructor.
Qed.
Lemma control_line_ends_array (a : attrs) (rest : list string) :
  ends_array (padded PAD2 (control_words a) :: rest).
Proof.
  destruct (control_words_are_words a) as [Hcw _].
  destruct (line_strip_padded PAD2 (control_words a) eq_refl ltac:(discriminate) Hcw)
    as [H _].
  unfold ends_array. rewrite H. unfold control_words. rewrite join_cons. reflexivity.
Qed.

Lemma layers_end_array (ldims : list nat) (ads : list (attrs * list float)) :
  ends_array (with_newlines (flat_map (fun '(a, d) => layer_bodies a d ldims) ads)).
Proof.
  destruct ads as [|[a d] ads]; [exact I|].
  cbn [flat_map]. unfold layer_bodies at 1. cbn [app with_newlines map].
  rewrite body_nl. apply control_line_ends_array.
Qed.

(** The layers [load_layers] reads from the lines [write] produces. *)
Lemma load_layers_written (iprn : string) (fs : gmap string string) (cwd : string)
    (lshp : shape_t) (ldims : list nat) (ads : list (attrs * list float)) :
  PyStr.lower iprn = "iprn" -> layer_shape ldims ->
  Forall (fun '(a, d) =>
            List.length d = prod ldims /\ Forall readable d /\
            (forall x, written_factor a = Some x ->
               PyFloat.of_string (PyFloat.to_string x) = Some x)) ads ->
  forall (f : stream) (blanks : list string),
    remaining f
      = (blanks ++ with_newlines (flat_map (fun '(a, d) => layer_bodies a d ldims) ads))%list ->
    Forall (fun l => line_strip l = "") blanks ->
    exists f',
      load_layers iprn fs (List.length ads) f cwd lshp = Ok (map (reloaded lshp) ads, f') /\
      content f' = content f /\
      Forall (fun l => line_strip l = "") (remaining f').
Proof.
  intros Hiprn Hshape Hall. induction Hall as [|[a d] ads (Hlen & Hread & Hfac) Hall IH];
    intros f blanks Hrem Hblanks.
  - exists f. cbn [List.length load_layers map]. split; [reflexivity|]. split; [reflexivity|].
    rewrite Hrem. cbn [flat_map with_newlines map]. now rewrite app_nil_r.
  - cbn [flat_map] in Hrem. rewrite with_newlines_app in Hrem.
    destruct (load_layer iprn fs cwd lshp ldims a d f blanks _ Hiprn Hshape Hlen Hread Hfac
                Hrem Hblanks (layers_end_array ldims ads))
      as (f1 & blanks1 & Hload & Hcont & Hrem1 & Hb1).
    destruct (IH f1 blanks1 Hrem1 Hb1) as (f' & Hl & Hc & Hr).
    exists f'. cbn [List.length load_layers map]. rewrite Hload.
    cbn [mbind result_bind bind]. rewrite Hl. cbn [mbind result_bind bind].
    split; [reflexivity|]. split; [congruence|exact Hr].
Qed.

Lemma layer_bodies_no_newline (a : attrs) (d : list float) (ldims : list nat) :
  Forall (fun l => all_chars not_newline l = true) (layer_bodies a d ldims).
Proof.
  destruct (control_words_are_words a) as [Hcw _].
  unfold layer_bodies. constructor; [exact (padded_not_newline PAD2 _ eq_refl Hcw)|].
  assert (Hrows : forall rows : list (list float),
             Forall (fun l => all_chars not_newline l = true)
               (map (fun row => body PAD3 (map PyFloat.to_string row)) rows)).
  { intros rows. apply Forall_map. apply Forall_forall. intros row _.
    exact (padded_not_newline PAD3 _ eq_refl (to_string_words row)). }
  destruct ldims as [|m [|c ldims]]; try apply Hrows.
  constructor; [|repeat constructor].
  exact (padded_not_newline (PAD3 ++ PAD3) _ eq_refl (to_string_words d)).
Qed.

Lemma layered_bodies_no_newline (n : string) (ldims : list nat)
    (ads : list (attrs * list float)) :
  word n = true ->
  Forall (fun l => all_chars not_newline l = true) (layered_bodies n ldims ads).
Proof.
  intros Hn. destruct (word_case n Hn) as [Hup _].
  unfold layered_bodies. constructor.
  - exact (padded_not_newline PAD [PyStr.upper n; "LAYERED"] eq_refl
             ltac:(repeat constructor; exact Hup)).
  - induction ads as [|[a d] ads IH]; [constructor|].
    cbn [flat_map]. apply Forall_app. split; [apply layer_bodies_no_newline|exact IH].
Qed.

Lemma raw_internal_layer (ldims : list nat) (mfa : MFArray) (ad : attrs * list float) :
  internal_layer ldims mfa ad ->
  raw mfa = Ok (mk_ndarray (snd ad) ldims) /\
  raw (reloaded (ShapeTuple (map Some ldims)) ad) = Ok (mk_ndarray (snd ad) ldims).
Proof.
  destruct ad as [a d]. intros ([s ->] & Hhow & Hdims & Hlen & _ & _). cbn [snd].
  split.
  - cbn [raw]. destruct (decide (_how a = Some constant)) as [E|_]; [congruence|].
    unfold np_reshape. rewrite Hdims. unfold reshape. cbn [data].
    now rewrite Hlen, Nat.eqb_refl.
  - unfold reloaded, MFArray_init. cbn [raw _how _shape].
    destruct (decide (Some internal = Some constant)) as [E|_]; [discriminate|].
    unfold np_reshape. cbn [dims_of]. rewrite option_all_map_Some.
    unfold reshape. cbn [data]. now rewrite Hlen, Nat.eqb_refl.
Qed.
(** X16. Writing and loading again, for a layered array. When each
    layer is an Internal array of rank 1 or 2 with no dimension 0, whose
    numbers are written with digits and points and read back by
    [float], and so its factor when one is written, [write] produces
    the header ending in LAYERED and, layer after layer, a control line
    and the rows of numbers; and [load], given the shape of the array,
    reads these lines into a layered array with as many layers, each
    Internal with the numbers and the written factor of the layer it
    comes from, leaving nothing but blank lines in the stream. The new
    array has the raw values of the old one; its name is the name in
    lower case, and its layers have no name. *)
Theorem layered_round_trip (iprn : string) (fs : gmap string string) (cwd : string)
    (kwargs : load_kwargs) (a : attrs) (ls : list MFArray) (ads : list (attrs * list float))
    (n : string) (ldims : list nat) :
  PyStr.lower iprn = "iprn" ->
  name a = Some n -> word n = true -> layer_shape ldims ->
  Forall2 (internal_layer ldims) ls ads ->
  _shape a = ShapeTuple (Some (List.length ls) :: map Some ldims) ->
  let x := Layered a ls in
  let t := PyStr.concat (with_newlines (layered_bodies n ldims ads)) in
  let sh := _shape a in
  let y := Layered (mk_attrs (Some (PyStr.lower (PyStr.upper n))) sh sh None None None)
             (map (reloaded (ShapeTuple (map Some ldims))) ads) in
  write x = (t, Ok tt) /\
  (exists f',
     load iprn fs (StringIO t) cwd sh true kwargs = Ok (y, f') /\
     Forall (fun l => line_strip l = "") (remaining f')) /\
  raw y = raw x.
Proof.
  intros Hiprn Hname Hn Hshape Hls Hsh x t sh y.
  destruct (word_case n Hn) as [Hup Hlow].
  split; [exact (write_layered_text a n ldims ls ads Hname Hshape Hls)|]. split.
  - assert (Hlines : PyStr.lines t = with_newlines (layered_bodies n ldims ads)).
    { apply lines_bodies. now apply layered_bodies_no_newline. }
    unfold StringIO. rewrite Hlines.
    set (lines := with_newlines (layered_bodies n ldims ads)).
    assert (Hrem0 : remaining (mk_stream lines 0)
                    = padded PAD [PyStr.upper n; "LAYERED"]
                      :: with_newlines
                           (flat_map (fun '(a, d) => layer_bodies a d ldims) ads)).
    { unfold remaining, lines, layered_bodies. cbn [pos content drop with_newlines map].
      now rewrite body_nl. }
    unfold load.
    rewrite (multi_line_strip_padded (mk_stream lines 0) PAD [PyStr.upper n; "LAYERED"] _
               Hrem0 eq_refl ltac:(discriminate)
               ltac:(repeat constructor; exact Hup)).
    cbn [mbind result_bind bind map pos content].
    change (PyStr.lower "LAYERED") with "layered".
    rewrite (split_join [PyStr.lower (PyStr.upper n); "layered"])
      by (repeat constructor; exact Hlow).
    cbn [token lookup list_lookup mbind result_bind bind List.length Nat.ltb Nat.leb andb
         default from_option id].
    change (PyStr.eqb "layered" "layered") with true. cbv iota.
    subst sh. rewrite Hsh. cbn [resolve_shape mbind result_bind bind].
    assert (Hall : Forall (fun '(a, d) =>
                             List.length d = prod ldims /\ Forall readable d /\
                             (forall x, written_factor a = Some x ->
                                PyFloat.of_string (PyFloat.to_string x) = Some x)) ads).
    { clear - Hls. induction Hls as [|mfa [a d] ls ads Hl Hls IH]; constructor; [|exact IH].
      destruct Hl as (_ & _ & _ & H1 & H2 & H3). now repeat split. }
    destruct (load_layers_written iprn fs cwd (ShapeTuple (map Some ldims)) ldims ads
                Hiprn Hshape Hall (mk_stream lines 1) []
                (proj2 (remaining_cons (mk_stream lines 0) _ _ Hrem0))
                ltac:(constructor))
      as (f' & Hload & _ & Hrem).
    rewrite <- (Forall2_length _ _ _ Hls) in Hload. rewrite Hload.
    cbn [mbind result_bind bind].
    exists f'. split; [|exact Hrem]. subst y. rewrite Hsh. reflexivity.
  - subst x y. cbn [raw].
    assert (H1 : mapM raw ls = Ok (map (fun ad => mk_ndarray (snd ad) ldims) ads)).
    { apply Forall2_mapM. clear - Hls.
      induction Hls as [|mfa ad ls ads Hl Hls IH]; simpl; constructor; [|exact IH].
      exact (proj1 (raw_internal_layer ldims mfa ad Hl)). }
    assert (H2 : mapM raw (map (reloaded (ShapeTuple (map Some ldims))) ads)
                 = Ok (map (fun ad => mk_ndarray (snd ad) ldims) ads)).
    { apply Forall2_mapM. clear - Hls.
      induction Hls as [|mfa ad ls ads Hl Hls IH]; simpl; constructor; [|exact IH].
      exact (proj2 (raw_internal_layer ldims mfa ad Hl)). }
    now rewrite H1, H2.
Qed.

Lemma layered_round_trip_witness :
  let t := text ["  K LAYERED"; "    INTERNAL"; "      1.0 2.0";
                 "    INTERNAL FACTOR 2.0"; "      3.0 4.5"] in
  write layered_k = (t, Ok tt) /\
  exists y f',
    load IPRN ∅ (StringIO t) "." (ShapeTuple [Some 2; Some 1; Some 2]) true no_kwargs
      = Ok (y, f') /\
    raw y = raw layered_k /\
    raw layered_k = Ok (mk_ndarray [1%float; 2%float; 3%float; 4.5%float] [2; 1; 2]).
Proof.
  cbv zeta.
  assert (Hr : forall v, numeric_text (PyFloat.to_string v) = true ->
                         PyFloat.of_string (PyFloat.to_string v) = Some v -> readable v)
    by (intros v H1 H2; now split).
  destruct (layered_round_trip IPRN ∅ "." no_kwargs (attrs_of layered_k)
              [Flat (fst layer_12) false (BArray (mk_ndarray (snd layer_12) [2]));
               Flat (fst layer_34) false (BArray (mk_ndarray (snd layer_34) [2]))]
              [layer_12; layer_34] "k" [1; 2] eq_refl eq_refl eq_refl I)
    as (H1 & (f' & H2 & _) & H3).
  - constructor; [|constructor; [|constructor]].
    + split; [now exists [2]|]. repeat split; try reflexivity.
      * repeat constructor; apply Hr; vm_compute; reflexivity.
      * intros x [=].
    + split; [now exists [2]|]. repeat split; try reflexivity.
      * repeat constructor; apply Hr; vm_compute; reflexivity.
      * intros x [= <-]. vm_compute. reflexivity.
  - reflexivity.
  - split; [exact H1|]. eexists _, f'. split; [exact H2|]. split; [exact H3|reflexivity].
Defined.
(** ** Constant and External arrays *)

Lemma lines_two (p1 p2 : string) (w1 w2 : list string) :
  all_chars (fun c => Ascii.eqb c " ") p1 = true ->
  all_chars (fun c => Ascii.eqb c " ") p2 = true ->
  Forall (fun w => word w = true) w1 -> Forall (fun w => word w = true) w2 ->
  PyStr.lines (padded p1 w1 ++ padded p2 w2) = [padded p1 w1; padded p2 w2].
Proof.
  intros P1 P2 W1 W2.
  pose proof (lines_bodies [body p1 w1; body p2 w2]
                ltac:(repeat constructor; now apply padded_not_newline)) as H.
  unfold with_newlines in H. cbn [map PyStr.concat] in H.
  now rewrite !body_nl, append_nil_r in H.
Qed.

(** The header of an array that is not layered, as [load] reads it. *)
Lemma load_header_line (iprn : string) (fs : gmap string string) (cwd : string)
    (kwargs : load_kwargs) (n : string) (sh : shape_t) (lines rest : list string) :
  word n = true -> (forall s, sh <> ShapeStr s) -> kw_layered kwargs = false ->
  lines = name_line n :: rest ->
  load iprn fs (mk_stream lines 0) cwd sh true kwargs
    = _load iprn fs (mk_stream lines 1) cwd sh (Some (PyStr.lower (PyStr.upper n))).
Proof.
  intros Hn Hsh Hlay ->. destruct (word_case n Hn) as [Hup Hlow].
  unfold load. rewrite Hlay.
  rewrite (multi_line_strip_padded (mk_stream (name_line n :: rest) 0) PAD [PyStr.upper n]
             rest eq_refl eq_refl ltac:(discriminate) ltac:(repeat constructor; exact Hup)).
  cbn [mbind result_bind bind map pos content].
  rewrite (split_join [PyStr.lower (PyStr.upper n)]) by (repeat constructor; exact Hlow).
  cbn [token lookup list_lookup mbind result_bind bind List.length Nat.ltb Nat.leb andb].
  assert (Hres : resolve_shape sh kwargs = Ok sh).
  { destruct sh as [s|k|ds]; [now destruct (Hsh s)|reflexivity|reflexivity]. }
  rewrite Hres. reflexivity.
Qed.

(** X17. Writing and loading again, for a Constant array that is not
    layered and holds one number. Whatever the number (negative, with
    an exponent, infinite), provided [float] reads its text back, [load]
    reads from what [write] produces a Constant array holding the same
    number, with the same raw values. Its factor is none, whatever the
    factor of the array written: [write] puts no factor on the control
    line of a Constant array. *)
Theorem constant_round_trip (iprn : string) (fs : gmap string string) (cwd : string)
    (kwargs : load_kwargs) (a : attrs) (c : float) (n : string) (dims : list nat) :
  PyStr.lower iprn = "iprn" ->
  _how a = Some constant -> name a = Some n -> word n = true ->
  dims_of (_shape a) = Some dims ->
  PyFloat.of_string (PyFloat.to_string c) = Some c ->
  kw_layered kwargs = false ->
  let x := Flat a false (BScalar c) in
  let t := name_line n ++ padded PAD2 ["CONSTANT"; PyFloat.to_string c] in
  let y := MFArray_init (_shape a) (BScalar c) (Some constant) None
             (Some (PyStr.lower (PyStr.upper n))) None in
  write x = (t, Ok tt) /\
  load iprn fs (StringIO t) cwd (_shape a) true kwargs = Ok (y, mk_stream (PyStr.lines t) 2) /\
  remaining (mk_stream (PyStr.lines t) 2) = [] /\
  raw y = raw x /\ factor y = Ok (Own 1%float).
Proof.
  intros Hiprn Hhow Hname Hn Hdims Hc Hlay x t y.
  destruct (word_case n Hn) as [Hup _].
  destruct (to_string_word c) as [Hwc Hlc].
  assert (Hsh : forall s, _shape a <> ShapeStr s).
  { intros s E. rewrite E in Hdims. discriminate. }
  assert (Hws : Forall (fun w => word w = true) ["CONSTANT"; PyFloat.to_string c])
    by (repeat constructor; exact Hwc).
  assert (Hlines : PyStr.lines t
                   = [name_line n; padded PAD2 ["CONSTANT"; PyFloat.to_string c]]).
  { apply lines_two; try reflexivity; [repeat constructor; exact Hup|exact Hws]. }
  split; [|split; [|split; [|split]]].
  - subst x t. unfold write. cbn [raw].
    destruct (decide (_how a = Some constant)) as [_|N]; [|contradiction].
    unfold np_ones. rewrite Hdims. cbn [mbind result_bind bind times_value].
    unfold write_flat. rewrite Hhow, Hname. f_equal.
    unfold name_line, padded. cbn [PyStr.join str_buffer to_string MFArrayType_value].
    rewrite !append_assoc. reflexivity.
  - unfold StringIO. rewrite Hlines.
    rewrite (load_header_line iprn fs cwd kwargs n (_shape a) _ _ Hn Hsh Hlay eq_refl).
    pose proof (multi_line_strip_padded
                  (mk_stream [name_line n; padded PAD2 ["CONSTANT"; PyFloat.to_string c]] 1)
                  PAD2 ["CONSTANT"; PyFloat.to_string c] [] eq_refl eq_refl
                  ltac:(discriminate) Hws) as Hm.
    cbn [map pos content] in Hm. rewrite Hlc in Hm.
    change (PyStr.lower "CONSTANT") with "constant" in Hm.
    pose proof (_load_control iprn fs _ _ cwd (_shape a)
                  (Some (PyStr.lower (PyStr.upper n))) _ "constant" [PyFloat.to_string c]
                  Hm) as Hl.
    rewrite split_join in Hl by (repeat constructor; exact Hwc).
    assert (Hni : PyStr.mem (PyStr.lower iprn) ["constant"; PyFloat.to_string c] = false).
    { rewrite Hiprn. apply (float_words_not_iprn_after "constant" [PyFloat.to_string c]);
        [reflexivity|]. constructor; [apply to_string_chars|constructor]. }
    specialize (Hl (drop_iprn_absent iprn _ Hni)).
    destruct Hl as [Hl _]. rewrite (Hl eq_refl).
    unfold py_float. rewrite Hc. reflexivity.
  - rewrite Hlines. reflexivity.
  - subst x y. unfold MFArray_init. cbn [raw _how _shape].
    destruct (decide (_how a = Some constant)) as [_|N]; [|contradiction].
    destruct (decide (Some constant = Some constant)) as [_|N]; [|contradiction].
    reflexivity.
  - reflexivity.
Qed.

Lemma constant_round_trip_witness :
  let a := mk_attrs (Some "k") (ShapeTuple [Some 3]) (ShapeTuple [Some 3])
             (Some constant) (Some 2%float) None in
  let t := text ["  K"; "    CONSTANT -1e-05"] in
  write (Flat a false (BScalar (-1e-5)%float)) = (t, Ok tt) /\
  load IPRN ∅ (StringIO t) "." (ShapeTuple [Some 3]) true no_kwargs
    = Ok (MFArray_init (ShapeTuple [Some 3]) (BScalar (-1e-5)%float) (Some constant) None
            (Some "k") None,
          mk_stream (PyStr.lines t) 2).
Proof.
  cbv zeta.
  pose proof (constant_round_trip IPRN ∅ "." no_kwargs
                (mk_attrs (Some "k") (ShapeTuple [Some 3]) (ShapeTuple [Some 3])
                   (Some constant) (Some 2%float) None)
                (-1e-5)%float "k" [3] eq_refl eq_refl eq_refl eq_refl eq_refl
                ltac:(vm_compute; reflexivity) eq_refl) as (H1 & H2 & _).
  split; [exact H1|exact H2].
Defined.



(** ** MFPackage.load *)

Section PackageLoad.

Variable strip : string -> string.
Variable block : Type.
Variable block_load : block -> stream -> result (block * stream).
Variable members : gmap string block.

Lemma readline_cons (f : stream) (l : string) (rest : list string) :
  remaining f = l :: rest ->
  readline f = (l, mk_stream (content f) (S (pos f))) /\
  remaining (mk_stream (content f) (S (pos f))) = rest.
Proof.
  intros H. destruct (remaining_cons f l rest H) as [H1 H2].
  unfold readline. now rewrite H1.
Qed.

Lemma nl_not_empty : PyStr.is_empty PyStr.nl = false.
Proof. reflexivity. Qed.

(** The loop passes over the lines it has no use for. *)
Lemma load_blocks_skip (skipped : list string) :
  forall (f : stream) (rest : list string) (fuel : nat) (blocks : gmap string block),
    remaining f = (skipped ++ rest)%list ->
    Forall (passed_over strip block members) skipped ->
    load_blocks strip block block_load (List.length skipped + fuel) members f blocks
      = load_blocks strip block block_load fuel members
          (mk_stream (content f) (pos f + List.length skipped)) blocks.
Proof.
  induction skipped as [|l skipped IH]; intros f rest fuel blocks Hrem Hall.
  - cbn [List.length Nat.add]. rewrite Nat.add_0_r. now destruct f.
  - apply Forall_cons in Hall as [Hl Hall].
    destruct (readline_cons f l (skipped ++ rest)%list Hrem) as [Hread Hrem'].
    cbn [List.length Nat.add load_blocks]. unfold tell. rewrite Hread.
    specialize (IH (mk_stream (content f) (S (pos f))) rest fuel blocks Hrem' Hall).
    cbn [content pos] in IH.
    replace (pos f + S (List.length skipped)) with (S (pos f) + List.length skipped) by lia.
    destruct Hl as [->|(Hne & key & ws & Hw & Hkey)].
    + rewrite nl_not_empty. unfold PyStr.eqb. now rewrite String.eqb_refl.
    + assert (He : PyStr.is_empty l = false) by (destruct l; [contradiction|reflexivity]).
      rewrite He. destruct (PyStr.eqb l PyStr.nl); [exact IH|].
      rewrite Hw. destruct (PyStr.eqb key "begin") eqn:Ek; [|exact IH].
      destruct Hkey as [Hk|(nm & ws' & -> & Hnone)].
      * apply String.eqb_eq in Ek. contradiction.
      * cbn [lookup list_lookup]. now rewrite Hnone.
Qed.

End PackageLoad.

(** X19. [MFPackage.load] passes over every line that is not the BEGIN
    line of a block of the package: newlines, lines whose first word is
    not [begin] (in any case of letters), and the BEGIN lines of blocks
    that are no member. A stream made of such lines only is read to its
    end and gives no block. *)
Theorem package_passes_over_lines (strip : string -> string) (block : Type)
    (block_load : block -> stream -> result (block * stream))
    (members : gmap string block) (f : stream) (fuel : nat) :
  Forall (passed_over strip block members) (remaining f) ->
  List.length (remaining f) < fuel ->
  MFPackage_load strip block block_load fuel members f
    = Some (Ok (∅, mk_stream (content f) (pos f + List.length (remaining f)))).
Proof.
  intros Hall Hfuel. unfold MFPackage_load.
  replace fuel with (List.length (remaining f) + S (fuel - S (List.length (remaining f))))
    by lia.
  rewrite (load_blocks_skip strip block block_load members (remaining f) f [])
    by (try assumption; now rewrite app_nil_r).
  cbn [load_blocks]. unfold readline, tell. cbn [content pos].
  rewrite (proj2 (lookup_ge_None (content f) (pos f + List.length (remaining f)))).
  - reflexivity.
  - unfold remaining. rewrite length_drop. lia.
Qed.

Lemma package_passes_over_lines_witness :
  MFPackage_load line_strip unit (fun b f => Ok (b, f)) 5 {[ "options" := tt ]}
    (StringIO (text ["title 1"; ""; "BEGIN griddata"; "END griddata"]))
  = Some (Ok (∅, mk_stream
                   (PyStr.lines (text ["title 1"; ""; "BEGIN griddata"; "END griddata"])) 4)).
Proof.
  apply (package_passes_over_lines line_strip unit (fun b f => Ok (b, f))
           {[ "options" := tt ]}
           (StringIO (text ["title 1"; ""; "BEGIN griddata"; "END griddata"])) 5).
  - constructor; [|constructor; [|constructor; [|constructor; [|constructor]]]].
    + right. split; [discriminate|]. exists "title", ["1"].
      split; [reflexivity|left; discriminate].
    + now left.
    + right. split; [discriminate|]. exists "begin", ["griddata"].
      split; [reflexivity|right]. exists "griddata", []. split; reflexivity.
    + right. split; [discriminate|]. exists "end", ["griddata"].
      split; [reflexivity|left; discriminate].
  - simpl. lia.
Defined.

(** X20. [MFPackage.load] takes the first word of every line that is
    not a newline alone, and the second word of a line whose first word
    is [begin], without looking whether there is one: a line that
    [strip] leaves without a word (blanks before the newline, or a
    comment when [strip] removes comments) and a line holding [begin]
    alone each make the call raise [IndexError], whatever lines
    follow. *)
Theorem package_line_without_words (strip : string -> string) (block : Type)
    (block_load : block -> stream -> result (block * stream))
    (members : gmap string block) (f : stream) (fuel : nat)
    (skipped : list string) (l : string) (rest : list string) :
  remaining f = (skipped ++ l :: rest)%list ->
  Forall (passed_over strip block members) skipped ->
  l <> EmptyString -> l <> PyStr.nl ->
  PyStr.split (PyStr.lower (strip l)) = [] \/
  PyStr.split (PyStr.lower (strip l)) = ["begin"] ->
  List.length skipped < fuel ->
  MFPackage_load strip block block_load fuel members f = Some (Raise IndexError).
Proof.
  intros Hrem Hall Hne Hnl Hw Hfuel. unfold MFPackage_load.
  replace fuel with (List.length skipped + S (fuel - S (List.length skipped))) by lia.
  rewrite (load_blocks_skip strip block block_load members skipped f (l :: rest))
    by assumption.
  assert (Hrem' : remaining (mk_stream (content f) (pos f + List.length skipped))
                  = l :: rest).
  { rewrite remaining_advance, Hrem. apply drop_app_length. }
  destruct (readline_cons _ l rest Hrem') as [Hread _].
  cbn [load_blocks]. unfold tell. rewrite Hread.
  assert (He : PyStr.is_empty l = false) by (destruct l; [contradiction|reflexivity]).
  rewrite He.
  replace (PyStr.eqb l PyStr.nl) with false
    by (symmetry; now apply String.eqb_neq).
  destruct Hw as [-> | ->]; reflexivity.
Qed.

Lemma package_line_without_words_witness :
  MFPackage_load line_strip unit (fun b f => Ok (b, f)) 3 {[ "options" := tt ]}
    (StringIO (text ["title 1"; "# a comment"; "BEGIN options"]))
    = Some (Raise IndexError) /\
  MFPackage_load line_strip unit (fun b f => Ok (b, f)) 1 {[ "options" := tt ]}
    (StringIO (text ["   "]))
    = Some (Raise IndexError).
Proof.
  split.
  - apply (package_line_without_words line_strip unit (fun b f => Ok (b, f))
             {[ "options" := tt ]}
             (StringIO (text ["title 1"; "# a comment"; "BEGIN options"])) 3
             [("title 1" ++ PyStr.nl)%string]
             ("# a comment" ++ PyStr.nl)%string [("BEGIN options" ++ PyStr.nl)%string]
             eq_refl).
    + constructor; [|constructor]. right. split; [discriminate|].
      exists "title", ["1"]. split; [reflexivity|left; discriminate].
    + discriminate.
    + discriminate.
    + now left.
    + simpl. lia.
  - apply (package_line_without_words line_strip unit (fun b f => Ok (b, f))
             {[ "options" := tt ]} (StringIO (text ["   "])) 1 []
             ("   " ++ PyStr.nl)%string [] eq_refl).
    + constructor.
    + discriminate.
    + discriminate.
    + now left.
    + simpl. lia.
Defined.

(** X21. A block of the package is loaded from its BEGIN line. On a
    line whose first word is [begin] and whose second word, in lower
    case, names a member, the loop takes the stream back to the start
    of that line and calls the block's loader on it; what the loader
    returns is stored under the name, in place of a block loaded before
    under the same name, and the loop goes on from where the loader
    left the stream; when the loader raises, so does the call. *)
Theorem package_loads_block (strip : string -> string) (block : Type)
    (block_load : block -> stream -> result (block * stream))
    (members : gmap string block) (f : stream) (fuel : nat)
    (blocks : gmap string block)
    (skipped : list string) (l : string) (rest ws : list string) (nm : string) (b : block) :
  remaining f = (skipped ++ l :: rest)%list ->
  Forall (passed_over strip block members) skipped ->
  l <> EmptyString -> l <> PyStr.nl ->
  PyStr.split (PyStr.lower (strip l)) = "begin" :: nm :: ws ->
  members !! nm = Some b ->
  load_blocks strip block block_load (List.length skipped + S fuel) members f blocks =
    match block_load b (mk_stream (content f) (pos f + List.length skipped)) with
    | Ok (b', f') => load_blocks strip block block_load fuel members f' (<[nm := b']> blocks)
    | Raise e => Some (Raise e)
    | Diverge => Some Diverge
    end.
Proof.
  intros Hrem Hall Hne Hnl Hw Hb.
  rewrite (load_blocks_skip strip block block_load members skipped f (l :: rest))
    by assumption.
  assert (Hrem' : remaining (mk_stream (content f) (pos f + List.length skipped))
                  = l :: rest).
  { rewrite remaining_advance, Hrem. apply drop_app_length. }
  destruct (readline_cons _ l rest Hrem') as [Hread _].
  cbn [load_blocks]. unfold tell. rewrite Hread.
  assert (He : PyStr.is_empty l = false) by (destruct l; [contradiction|reflexivity]).
  rewrite He.
  replace (PyStr.eqb l PyStr.nl) with false
    by (symmetry; now apply String.eqb_neq).
  rewrite Hw. change (PyStr.eqb "begin" "begin") with true.
  cbn [lookup list_lookup]. rewrite Hb. reflexivity.
Qed.

Lemma package_loads_block_witness :
  let f := StringIO (text ["title 1"; "BEGIN Options"; "  k"; "END Options"]) in
  let loader := fun (b : nat) (g : stream) => Ok (pos g, mk_stream (content g) (pos g + 3)) in
  load_blocks line_strip nat loader 3 {[ "options" := 0 ]} f ∅
    = Some (Ok ({[ "options" := 1 ]}, mk_stream (content f) 4)).
Proof.
  cbv zeta.
  rewrite (package_loads_block line_strip nat
             (fun b g => Ok (pos g, mk_stream (content g) (pos g + 3)))
             {[ "options" := 0 ]}
             (StringIO (text ["title 1"; "BEGIN Options"; "  k"; "END Options"])) 1 ∅
             [("title 1" ++ PyStr.nl)%string] ("BEGIN Options" ++ PyStr.nl)%string
             [("  k" ++ PyStr.nl)%string; ("END Options" ++ PyStr.nl)%string] []
             "options" 0 eq_refl).
  - reflexivity.
  - constructor; [|constructor]. right. split; [discriminate|].
    exists "title", ["1"]. split; [reflexivity|left; discriminate].
  - discriminate.
  - discriminate.
  - reflexivity.
  - reflexivity.
Defined.
(** ** An array without data *)

(** X22. An array built without data ([array=None]) answers [value]
    with [None], layered flag or not, while every other read fails:
    [raw] raises ([AttributeError] for [None.reshape], [TypeError] for
    a Constant array or under the layered flag), and so do iteration,
    indexing, assignment, which leaves the array as it was, and, when
    the array is not layered, [write], which writes nothing. *)
Theorem array_without_data (a : attrs) (l : bool) (key : list Z) (v : operand) :
  let x := Flat a l BNone in
  value x = Ok None /\
  exists e,
    (e = AttributeError \/ e = TypeError) /\
    raw x = Raise e /\
    __iter__ x = Raise e /\
    __getitem__ x key = Raise e /\
    __setitem__ x key v = (Raise e, x) /\
    (l = false -> write x = (EmptyString, Raise e)).
Proof.
  intros x. subst x. split; [now destruct l|].
  assert (Hraw : exists e, (e = AttributeError \/ e = TypeError) /\
                           raw (Flat a l BNone) = Raise e).
  { destruct l; cbn [raw].
    - exists TypeError. split; [now right|reflexivity].
    - destruct (decide (_how a = Some constant)).
      + exists TypeError. split; [now right|].
        unfold np_ones. now destruct (dims_of (_shape a)).
      + exists AttributeError. split; [now left|reflexivity]. }
  destruct Hraw as (e & He & Hraw). exists e.
  split; [exact He|]. split; [exact Hraw|].
  split; [unfold __iter__; now rewrite Hraw|].
  split; [unfold __getitem__; now rewrite Hraw|].
  split.
  - destruct l; cbn [__setitem__]; now rewrite Hraw.
  - intros ->. unfold write. now rewrite Hraw.
Qed.
